(** * Government Books Management & Distribution System

    A shallow embedding of the allocation core of the two program versions
    of the repository:

    - [Final]    : src/final.cpp (inventory, requests, three strategies);
    - [Complete] : src/unnamed/part_000, the "complete edition" (adds the
      quantity validator, loans, the waiting list and the facade
      operations that use them).

    Conventions of the embedding.

    - A C++ [int] is a [Z]; every arithmetic operation the source performs
      on [int]s goes through [CInt], which wraps the mathematical result
      to 32 bits two's complement (what the usual compilers produce; the
      language itself leaves signed overflow undefined).
    - [time(nullptr)] is an argument [now] of the operation that reads the
      clock.
    - [shared_ptr]s to requests and institutions held by a strategy are
      positions: an institution is its index in the vector handed to
      [distribute], a request is its index in the institution's request
      vector.
    - [unordered_map<string, _>] is a [gmap string _] where it is only
      looked up and updated, [std::map<string, vector<_>>] (iterated in key
      order) is a key-sorted association list.
    - Mutexes, the logger, console output and CSV export are not modelled:
      every operation is one atomic state transformer. *)

From Stdlib Require Import ZArith Lia List Permutation Sorted Ascii.
From Stdlib Require OrderedTypeEx.
From stdpp Require Import base gmap strings list fin_maps pretty.

Local Open Scope Z_scope.

(** ** C++ [int] arithmetic *)

Module CInt.

Definition int_min : Z := -2147483648.
Definition int_max : Z := 2147483647.

Definition in_range (z : Z) : Prop := int_min <= z <= int_max.

Definition wrap (z : Z) : Z :=
  (z + 2147483648) mod 4294967296 - 2147483648.

Definition add (a b : Z) : Z := wrap (a + b).
Definition sub (a b : Z) : Z := wrap (a - b).
Definition mul (a b : Z) : Z := wrap (a * b).
(** [/] on [int] truncates towards zero. *)
Definition div (a b : Z) : Z := wrap (Z.quot a b).

End CInt.

(** ** Enumerations *)

Inductive BookCategory :=
| TEXTBOOK | REFERENCE | LITERATURE | SCIENCE
| HISTORY | MATHEMATICS | LANGUAGE | VOCATIONAL.

Inductive InstitutionType :=
| PRIMARY_SCHOOL | SECONDARY_SCHOOL | HIGH_SCHOOL
| COLLEGE | UNIVERSITY | LIBRARY | RESEARCH_CENTER.

Inductive Priority := LOW | MEDIUM | HIGH | CRITICAL.

Inductive RequestStatus :=
| PENDING | APPROVED | PARTIALLY_FULFILLED | FULFILLED | REJECTED.

#[global] Instance BookCategory_eq_dec : EqDecision BookCategory.
Proof. solve_decision. Defined.
#[global] Instance Priority_eq_dec : EqDecision Priority.
Proof. solve_decision. Defined.
#[global] Instance RequestStatus_eq_dec : EqDecision RequestStatus.
Proof. solve_decision. Defined.

(** [static_cast<int>(priority)] : LOW = 1, ..., CRITICAL = 4. *)
Definition priorityValue (p : Priority) : Z :=
  match p with LOW => 1 | MEDIUM => 2 | HIGH => 3 | CRITICAL => 4 end.

(** ** Exceptions *)

Inductive Exception :=
| InvalidInputException (field : string)
| NotFoundException (item : string).

(** A call that may throw: the new state, or the exception and no change. *)
Definition Throws (A : Type) : Type := A + Exception.

(** [std::to_string] of an integer. *)
Definition to_string (z : Z) : string := pretty z.

(** ** Book *)

Module Book.
(** The price (a [double], printed only) is left out. *)
Record t := mk {
  isbn : string;
  title : string;
  author : string;
  category : BookCategory;
  publicationYear : Z;
  publisher : string
}.
End Book.

(** ** BookRequest (the same class in both versions; [requestedBy] exists
    in part_000 only and is never read) *)

Module BookRequest.

Record t := mk {
  requestId : string;
  isbn : string;
  quantityRequested : Z;
  quantityFulfilled : Z;
  priority : Priority;
  status : RequestStatus;
  requestDate : Z;
  requestedBy : string
}.

Definition new (reqId isbn : string) (qty : Z) (prio : Priority)
    (now : Z) (by_ : string) : t :=
  mk reqId isbn qty 0 prio PENDING now by_.

Definition getRemainingQuantity (r : t) : Z :=
  CInt.sub (quantityRequested r) (quantityFulfilled r).

Definition fulfillPartial (qty : Z) (r : t) : t :=
  let f := CInt.add (quantityFulfilled r) qty in
  mk (requestId r) (isbn r) (quantityRequested r) f (priority r)
     (if quantityRequested r <=? f then FULFILLED
      else if 0 <? f then PARTIALLY_FULFILLED
      else status r)
     (requestDate r) (requestedBy r).

(** The test of [Institution::getPendingRequests]. *)
Definition isPending (r : t) : bool :=
  match status r with
  | PENDING | PARTIALLY_FULFILLED => true
  | _ => false
  end.

End BookRequest.

(** ** Institution (the same class in both versions, up to
    [calculateNeed], which nothing calls) *)

Module Institution.

Record t := mk {
  institutionId : string;
  name : string;
  type : InstitutionType;
  location : string;
  studentCount : Z;
  currentBooks : gmap string Z;
  requests : list BookRequest.t
}.

Definition new (id name : string) (ty : InstitutionType) (loc : string)
    (students : Z) : t :=
  mk id name ty loc students ∅ [].

Definition addRequest (req : BookRequest.t) (i : t) : t :=
  mk (institutionId i) (name i) (type i) (location i) (studentCount i)
     (currentBooks i) (requests i ++ [req]).

(** The pending requests, each with its position in [requests]: the
    source returns pointers into the same vector. *)
Definition getPendingRequests (i : t) : list (nat * BookRequest.t) :=
  filter (fun p => BookRequest.isPending (snd p) = true)
         (imap (fun j r => (j, r)) (requests i)).

Definition getCurrentStock (isbn : string) (i : t) : Z :=
  default 0 (currentBooks i !! isbn).

(** [currentBooks[isbn] += quantity]: a missing entry starts at 0. *)
Definition receiveBooks (isbn : string) (quantity : Z) (i : t) : t :=
  mk (institutionId i) (name i) (type i) (location i) (studentCount i)
     (<[isbn := CInt.add (getCurrentStock isbn i) quantity]> (currentBooks i))
     (requests i).

(** [req->fulfillPartial(qty)] through the pointer to request [j]. *)
Definition fulfillRequest (j : nat) (qty : Z) (i : t) : t :=
  mk (institutionId i) (name i) (type i) (location i) (studentCount i)
     (currentBooks i)
     (alter (BookRequest.fulfillPartial qty) j (requests i)).

End Institution.

(** ** Inventory transactions (the log of [BookInventory]) *)

Module Transaction.
Record t := mk {
  isbn : string;
  quantity : Z;
  type : string;
  timestamp : Z
}.
End Transaction.

(** The state of a [BookInventory], shared by both versions. *)
Module InventoryState.

Record t := mk {
  stock : gmap string (Book.t * Z);
  categoryIndex : BookCategory -> gset string;
  transactionLog : list Transaction.t
}.

Definition empty : t := mk ∅ (fun _ => ∅) [].

Definition indexInsert (cat : BookCategory) (isbn : string)
    (ix : BookCategory -> gset string) : BookCategory -> gset string :=
  fun c => if decide (c = cat) then {[isbn]} ∪ ix c else ix c.

Definition getAvailableQuantity (isbn : string) (inv : t) : Z :=
  match stock inv !! isbn with
  | Some (_, q) => q
  | None => 0
  end.

Definition getBook (isbn : string) (inv : t) : option Book.t :=
  match stock inv !! isbn with
  | Some (b, _) => Some b
  | None => None
  end.

(** The body of [addBook] after its quantity check. *)
Definition addChecked (book : Book.t) (quantity : Z) (now : Z) (inv : t) : t :=
  let isbn := Book.isbn book in
  let tx := Transaction.mk isbn quantity "ADD" now in
  match stock inv !! isbn with
  | Some (b, q) =>
      mk (<[isbn := (b, CInt.add q quantity)]> (stock inv))
         (categoryIndex inv)
         (transactionLog inv ++ [tx])
  | None =>
      mk (<[isbn := (book, quantity)]> (stock inv))
         (indexInsert (Book.category book) isbn (categoryIndex inv))
         (transactionLog inv ++ [tx])
  end.

(** The body of [allocateBooks] after its quantity check. *)
Definition allocateChecked (isbn : string) (quantity : Z) (now : Z)
    (inv : t) : bool * t :=
  match stock inv !! isbn with
  | None => (false, inv)
  | Some (b, q) =>
      if q <? quantity then (false, inv)
      else (true,
            mk (<[isbn := (b, CInt.sub q quantity)]> (stock inv))
               (categoryIndex inv)
               (transactionLog inv
                  ++ [Transaction.mk isbn quantity "ALLOCATE" now]))
  end.

End InventoryState.

(** * src/final.cpp *)

Module Final.

Module BookInventory.
Import InventoryState.

Definition addBook (book : Book.t) (quantity : Z) (now : Z)
    (inv : InventoryState.t) : InventoryState.t :=
  if quantity <=? 0 then inv else addChecked book quantity now inv.

Definition allocateBooks (isbn : string) (quantity : Z) (now : Z)
    (inv : InventoryState.t) : bool * InventoryState.t :=
  if quantity <=? 0 then (false, inv)
  else allocateChecked isbn quantity now inv.

End BookInventory.

(** *** Distribution strategies *)

Record World := mkWorld {
  inventory : InventoryState.t;
  institutions : list Institution.t
}.

Definition getAvailable (isbn : string) (w : World) : Z :=
  InventoryState.getAvailableQuantity isbn (inventory w).

Definition pendingRequests (insts : list Institution.t)
    : list (nat * nat * BookRequest.t) :=
  concat (imap (fun i inst =>
                  map (fun p => (i, fst p, snd p))
                      (Institution.getPendingRequests inst))
               insts).

(** [Institution::calculateNeed]; no strategy calls it. *)
Definition calculateNeed (isbn : string) (booksPerStudent : Z)
    (i : Institution.t) : Z :=
  Z.max 0 (CInt.sub (CInt.mul (Institution.studentCount i) booksPerStudent)
                    (Institution.getCurrentStock isbn i)).

(** [for req : inst->getPendingRequests()]
    [if (req->getISBN() == isbn) { req->fulfillPartial(qty); break; }] *)
Definition creditFirstPending (isbn : string) (qty : Z) (i : Institution.t)
    : Institution.t :=
  match List.find (fun p => String.eqb (BookRequest.isbn (snd p)) isbn)
                  (Institution.getPendingRequests i) with
  | Some (j, _) => Institution.fulfillRequest j qty i
  | None => i
  end.

Fixpoint mapPush {A : Type} (k : string) (v : A) (m : list (string * list A))
    : list (string * list A) :=
  match m with
  | [] => [(k, [v])]
  | (k', vs) :: rest =>
      match String.compare k k' with
      | Eq => (k', vs ++ [v]) :: rest
      | Lt => (k, [v]) :: m
      | Gt => (k', vs) :: mapPush k v rest
      end
  end.

(** [std::set<string>::insert], the set as its sorted list of elements. *)
Fixpoint setInsert (k : string) (s : list string) : list string :=
  match s with
  | [] => [k]
  | k' :: rest =>
      match String.compare k k' with
      | Eq => s
      | Lt => k :: s
      | Gt => k' :: setInsert k rest
      end
  end.

Module PriorityBasedDistribution.

Record Item := mkItem {
  inst : nat;
  req : nat;
  request : BookRequest.t;
  needed : Z
}.

Definition pendingItems (insts : list Institution.t) : list Item :=
  map (fun p => mkItem (fst (fst p)) (snd (fst p)) (snd p)
                       (BookRequest.getRemainingQuantity (snd p)))
      (pendingRequests insts).

Definition cmp (a b : Item) : bool :=
  priorityValue (BookRequest.priority (request a))
  <? priorityValue (BookRequest.priority (request b)).

Definition popOrder (pushed order : list Item) : Prop :=
  pushed ≡ₚ order /\ StronglySorted (fun a b => cmp a b = false) order.

Definition processItem (now : Z) (it : Item) (w : World) : World :=
  let isbn := BookRequest.isbn (request it) in
  let available := getAvailable isbn w in
  if available <=? 0 then w
  else
    let allocate := Z.min (needed it) available in
    match institutions w !! inst it with
    | None => w
    | Some i =>
        match BookInventory.allocateBooks isbn allocate now (inventory w) with
        | (true, inv') =>
            mkWorld inv'
              (<[inst it := Institution.fulfillRequest (req it) allocate
                              (Institution.receiveBooks isbn allocate i)]>
                 (institutions w))
        | (false, _) => w
        end
    end.

Definition processQueue (now : Z) (order : list Item) (w : World) : World :=
  fold_left (fun w it => processItem now it w) order w.

Definition distribute (now : Z) (w w' : World) : Prop :=
  exists order, popOrder (pendingItems (institutions w)) order
                /\ w' = processQueue now order w.

Fixpoint insertItem (it : Item) (l : list Item) : list Item :=
  match l with
  | [] => [it]
  | x :: l' => if cmp it x then x :: insertItem it l' else it :: l
  end.

Definition sortItems (l : list Item) : list Item := foldr insertItem [] l.

Definition distributeFifo (now : Z) (w : World) : World :=
  processQueue now (sortItems (pendingItems (institutions w))) w.

End PriorityBasedDistribution.

(** The guarded block of the other two strategies: the institution
    receives the books and its first pending request for this ISBN is
    credited. *)
Definition grantFirst (i : nat) (isbn : string) (allocate now : Z)
    (w : World) : World :=
  match institutions w !! i with
  | None => w
  | Some inst =>
      match BookInventory.allocateBooks isbn allocate now (inventory w) with
      | (true, inv') =>
          mkWorld inv'
            (<[i := creditFirstPending isbn allocate
                      (Institution.receiveBooks isbn allocate inst)]>
               (institutions w))
      | (false, _) => w
      end
  end.

Module NeedBasedDistribution.

(** [needMap]: the pairs [{inst, need}] per ISBN. *)
Definition needMap (insts : list Institution.t)
    : list (string * list (nat * Z)) :=
  fold_left
    (fun m p =>
       let need := BookRequest.getRemainingQuantity (snd p) in
       if 0 <? need
       then mapPush (BookRequest.isbn (snd p)) (fst (fst p), need) m
       else m)
    (pendingRequests insts) [].

Definition totalNeed (needs : list (nat * Z)) : Z :=
  fold_left (fun sum p => CInt.add sum (snd p)) needs 0.

Definition allocation (available totalNeed need : Z) : Z :=
  if 0 <? totalNeed
  then Z.min need (CInt.div (CInt.mul available need) totalNeed)
  else 0.

Definition distributeGroup (now : Z) (isbn : string) (needs : list (nat * Z))
    (w : World) : World :=
  let available := getAvailable isbn w in
  if available <=? 0 then w
  else
    let total := totalNeed needs in
    fold_left
      (fun w p =>
         let allocate := allocation available total (snd p) in
         if 0 <? allocate then grantFirst (fst p) isbn allocate now w
         else w)
      needs w.

Definition distribute (now : Z) (w : World) : World :=
  fold_left (fun w g => distributeGroup now (fst g) (snd g) w)
            (needMap (institutions w)) w.

End NeedBasedDistribution.

Module EqualDistribution.

Definition allISBNs (insts : list Institution.t) : list string :=
  fold_left (fun s p => setInsert (BookRequest.isbn (snd p)) s)
            (pendingRequests insts) [].

(** Whether the institution has a pending request for [isbn] with a
    positive remaining quantity. *)
Definition needs (isbn : string) (i : Institution.t) : bool :=
  existsb (fun p => String.eqb (BookRequest.isbn (snd p)) isbn
                    && (0 <? BookRequest.getRemainingQuantity (snd p)))
          (Institution.getPendingRequests i).

(** [needingInsts], as positions in [institutions]. *)
Definition needingInsts (isbn : string) (insts : list Institution.t)
    : list nat :=
  map fst (filter (fun p => needs isbn (snd p) = true)
                  (imap (fun i inst => (i, inst)) insts)).

Definition distributeISBN (now : Z) (isbn : string) (w : World) : World :=
  let available := getAvailable isbn w in
  if available <=? 0 then w
  else
    let needing := needingInsts isbn (institutions w) in
    if Nat.eqb (length needing) 0 then w
    else
      let perInst := Z.quot available (Z.of_nat (length needing)) in
      if perInst <=? 0 then w
      else fold_left (fun w i => grantFirst i isbn perInst now w) needing w.

Definition distribute (now : Z) (w : World) : World :=
  fold_left (fun w isbn => distributeISBN now isbn w)
            (allISBNs (institutions w)) w.

End EqualDistribution.

End Final.

(** * src/unnamed/part_000 *)

Module Complete.

Module Validator.
Definition isValidQuantity (qty : Z) : bool :=
  (0 <? qty) && (qty <? 1000000).

(** [::isdigit] on the characters '0' .. '9'. *)
Definition isdigit (c : ascii) : bool :=
  (48 <=? nat_of_ascii c)%nat && (nat_of_ascii c <=? 57)%nat.

(** The ISBN with its hyphens erased. *)
Definition cleaned (isbn : string) : list ascii :=
  List.filter (fun c => negb (Ascii.eqb c "-"%char))
              (String.list_ascii_of_string isbn).

Definition isValidISBN (isbn : string) : bool :=
  ((length (cleaned isbn) =? 10)%nat || (length (cleaned isbn) =? 13)%nat)
  && forallb isdigit (cleaned isbn).

Definition isValidYear (year : Z) : bool :=
  (1900 <=? year) && (year <=? 2100).
End Validator.

(** The constructor of [Book]: the ISBN is checked before the year. *)
Definition newBook (isbn title author : string) (cat : BookCategory)
    (year : Z) (pub : string) : Throws Book.t :=
  if negb (Validator.isValidISBN isbn)
  then inr (InvalidInputException "Invalid ISBN format")
  else if negb (Validator.isValidYear year)
  then inr (InvalidInputException "Invalid publication year")
  else inl (Book.mk isbn title author cat year pub).

Module BookInventory.
Import InventoryState.

Definition addBook (book : Book.t) (quantity : Z) (now : Z)
    (inv : InventoryState.t) : Throws InventoryState.t :=
  if negb (Validator.isValidQuantity quantity)
  then inr (InvalidInputException "Invalid quantity")
  else inl (addChecked book quantity now inv).

Definition allocateBooks (isbn : string) (quantity : Z) (now : Z)
    (inv : InventoryState.t) : bool * InventoryState.t :=
  if negb (Validator.isValidQuantity quantity) then (false, inv)
  else allocateChecked isbn quantity now inv.

Definition returnBooks (isbn : string) (quantity : Z) (now : Z)
    (inv : InventoryState.t) : InventoryState.t :=
  match stock inv !! isbn with
  | Some (b, q) =>
      mk (<[isbn := (b, CInt.add q quantity)]> (stock inv))
         (categoryIndex inv)
         (transactionLog inv
            ++ [Transaction.mk isbn quantity "RETURN" now])
  | None => inv
  end.

End BookInventory.

(** *** BookLoan and LoanManagement *)

Module BookLoan.

Record t := mk {
  loanId : string;
  isbn : string;
  institutionId : string;
  issueDate : Z;
  dueDate : Z;
  returnDate : Z;
  isReturned : bool;
  quantity : Z
}.

(** [daysToReturn * 24 * 60 * 60] is [int] arithmetic; the sum with
    the [time_t] is not. *)
Definition new (loanId isbn instId : string) (qty daysToReturn now : Z) : t :=
  mk loanId isbn instId now
     (now + CInt.mul (CInt.mul (CInt.mul daysToReturn 24) 60) 60)
     0 false qty.

Definition isOverdue (now : Z) (l : t) : bool :=
  if isReturned l then false else dueDate l <? now.

Definition markReturned (now : Z) (l : t) : t :=
  mk (loanId l) (isbn l) (institutionId l) (issueDate l) (dueDate l)
     now true (quantity l).

End BookLoan.

Module LoanManagement.

Definition issueBookLoan (isbn instId : string) (quantity now : Z)
    (loans : list BookLoan.t) : list BookLoan.t :=
  loans ++ [BookLoan.new ("LOAN-" +:+ instId +:+ "-" +:+ to_string now)
                         isbn instId quantity 180 now].

Definition getOverdueLoans (now : Z) (loans : list BookLoan.t)
    : list BookLoan.t :=
  List.filter (BookLoan.isOverdue now) loans.

Definition getLoansByInstitution (instId : string)
    (loans : list BookLoan.t) : list BookLoan.t :=
  List.filter (fun l => String.eqb (BookLoan.institutionId l) instId) loans.

(** The first loan with this id that is not returned is marked. *)
Fixpoint returnBooks (loanId : string) (now : Z) (loans : list BookLoan.t)
    : bool * list BookLoan.t :=
  match loans with
  | [] => (false, [])
  | l :: rest =>
      if String.eqb (BookLoan.loanId l) loanId
         && negb (BookLoan.isReturned l)
      then (true, BookLoan.markReturned now l :: rest)
      else let (ok, rest') := returnBooks loanId now rest in
           (ok, l :: rest')
  end.

End LoanManagement.

(** *** WaitingList *)

Module WaitingList.

Record WaitingEntry := mkEntry {
  institutionId : string;
  isbn : string;
  quantity : Z;
  requestTime : Z;
  priority : Priority
}.

(** [map<string, queue<WaitingEntry>>]; a queue is pushed at the back. *)
Definition addToWaitingList (isbn instId : string) (quantity : Z)
    (priority : Priority) (now : Z)
    (wl : gmap string (list WaitingEntry)) : gmap string (list WaitingEntry) :=
  <[isbn := default [] (wl !! isbn)
             ++ [mkEntry instId isbn quantity now priority]]> wl.

Definition hasWaitingInstitutions (isbn : string)
    (wl : gmap string (list WaitingEntry)) : bool :=
  match wl !! isbn with
  | Some (_ :: _) => true
  | _ => false
  end.

Definition getWaitingCount (isbn : string)
    (wl : gmap string (list WaitingEntry)) : Z :=
  match wl !! isbn with
  | Some q => Z.of_nat (length q)
  | None => 0
  end.

End WaitingList.

(** *** Distribution strategies *)

(** What [distribute] reads and writes: the inventory, the vector of
    institutions and the loan manager. *)
Record World := mkWorld {
  inventory : InventoryState.t;
  institutions : list Institution.t;
  loanMgr : list BookLoan.t
}.

Definition getAvailable (isbn : string) (w : World) : Z :=
  InventoryState.getAvailableQuantity isbn (inventory w).

(** The request behind the pointer ([i] : institution, [j] : request). *)
Definition requestAt (i j : nat) (w : World) : option BookRequest.t :=
  inst ← institutions w !! i; Institution.requests inst !! j.

(** [req->getRemainingQuantity()] read through the pointer. *)
Definition remainingAt (i j : nat) (w : World) : Z :=
  match requestAt i j w with
  | Some r => BookRequest.getRemainingQuantity r
  | None => 0
  end.

(** The two nested loops that open every strategy:
    [for inst : institutions] [for req : inst->getPendingRequests()]. *)
Definition pendingRequests (insts : list Institution.t)
    : list (nat * nat * BookRequest.t) :=
  concat (imap (fun i inst =>
                  map (fun p => (i, fst p, snd p))
                      (Institution.getPendingRequests inst))
               insts).

(** The block guarded by [inventory.allocateBooks(isbn, allocate)] in the
    three loops: on success the institution receives the books, the
    request is credited and a loan is issued. *)
Definition grant (i j : nat) (isbn : string) (allocate now : Z) (w : World)
    : World :=
  match institutions w !! i with
  | None => w
  | Some inst =>
      match BookInventory.allocateBooks isbn allocate now (inventory w) with
      | (true, inv') =>
          mkWorld inv'
            (<[i := Institution.fulfillRequest j allocate
                      (Institution.receiveBooks isbn allocate inst)]>
               (institutions w))
            (LoanManagement.issueBookLoan isbn
               (Institution.institutionId inst) allocate now (loanMgr w))
      | (false, _) => w
      end
  end.

(** [std::map<string, vector<_>>]: [m[k].push_back(v)] on an association
    list kept in key order ([std::string]'s [<] is lexicographic on bytes). *)
Fixpoint mapPush {A : Type} (k : string) (v : A) (m : list (string * list A))
    : list (string * list A) :=
  match m with
  | [] => [(k, [v])]
  | (k', vs) :: rest =>
      match String.compare k k' with
      | Eq => (k', vs ++ [v]) :: rest
      | Lt => (k, [v]) :: m
      | Gt => (k', vs) :: mapPush k v rest
      end
  end.

Module PriorityBasedDistribution.

(** A tuple of the priority queue: [{req, inst, req->getRemainingQuantity()}];
    [request] is the request as it stands when pushed (its ISBN and
    priority do not change during the cycle). *)
Record Item := mkItem {
  inst : nat;
  req : nat;
  request : BookRequest.t;
  needed : Z
}.

Definition pendingItems (insts : list Institution.t) : list Item :=
  map (fun p => mkItem (fst (fst p)) (snd (fst p)) (snd p)
                       (BookRequest.getRemainingQuantity (snd p)))
      (pendingRequests insts).

(** The comparator of the queue. *)
Definition cmp (a b : Item) : bool :=
  priorityValue (BookRequest.priority (request a))
  <? priorityValue (BookRequest.priority (request b)).

(** The orders in which a [std::priority_queue] with this comparator may
    hand out what was pushed: every popped tuple is a maximum of those
    still queued.  The order among equal priorities is the heap's. *)
Definition popOrder (pushed order : list Item) : Prop :=
  pushed ≡ₚ order /\ StronglySorted (fun a b => cmp a b = false) order.

(** One iteration of the [while (!pq.empty())] loop. *)
Definition processItem (now : Z) (it : Item) (w : World) : World :=
  let isbn := BookRequest.isbn (request it) in
  let available := getAvailable isbn w in
  if available <=? 0 then w
  else grant (inst it) (req it) isbn (Z.min (needed it) available) now w.

Definition processQueue (now : Z) (order : list Item) (w : World) : World :=
  fold_left (fun w it => processItem now it w) order w.

(** [distribute], for each admissible pop order. *)
Definition distribute (now : Z) (w w' : World) : Prop :=
  exists order, popOrder (pendingItems (institutions w)) order
                /\ w' = processQueue now order w.

(** One admissible order, computed: first pushed first among equals. *)
Fixpoint insertItem (it : Item) (l : list Item) : list Item :=
  match l with
  | [] => [it]
  | x :: l' => if cmp it x then x :: insertItem it l' else it :: l
  end.

Definition sortItems (l : list Item) : list Item := foldr insertItem [] l.

Definition distributeFifo (now : Z) (w : World) : World :=
  processQueue now (sortItems (pendingItems (institutions w))) w.

End PriorityBasedDistribution.

Module NeedBasedDistribution.

(** A tuple of [needMap]: [{inst, req, need}]. *)
Record Need := mkNeed {
  inst : nat;
  req : nat;
  need : Z
}.

Definition needMap (insts : list Institution.t) : list (string * list Need) :=
  fold_left
    (fun m p =>
       let need := BookRequest.getRemainingQuantity (snd p) in
       if 0 <? need
       then mapPush (BookRequest.isbn (snd p))
                    (mkNeed (fst (fst p)) (snd (fst p)) need) m
       else m)
    (pendingRequests insts) [].

(** [accumulate(needs.begin(), needs.end(), 0, sum + get<2>(t))]. *)
Definition totalNeed (needs : list Need) : Z :=
  fold_left (fun sum t => CInt.add sum (need t)) needs 0.

Definition allocation (available totalNeed need : Z) : Z :=
  if 0 <? totalNeed
  then Z.min need (CInt.div (CInt.mul available need) totalNeed)
  else 0.

(** The inner loop over the tuples of one ISBN. *)
Definition serve (now : Z) (isbn : string) (available total : Z)
    (needs : list Need) (w : World) : World :=
  fold_left
    (fun w t =>
       let allocate := allocation available total (need t) in
       if 0 <? allocate then grant (inst t) (req t) isbn allocate now w
       else w)
    needs w.

(** The body of the loop over [needMap]. *)
Definition distributeGroup (now : Z) (isbn : string) (needs : list Need)
    (w : World) : World :=
  let available := getAvailable isbn w in
  if available <=? 0 then w
  else serve now isbn available (totalNeed needs) needs w.

Definition distribute (now : Z) (w : World) : World :=
  fold_left (fun w g => distributeGroup now (fst g) (snd g) w)
            (needMap (institutions w)) w.

End NeedBasedDistribution.

Module EqualDistribution.

(** [needingMap]: the pairs [{inst, req}] per ISBN. *)
Definition needingMap (insts : list Institution.t)
    : list (string * list (nat * nat)) :=
  fold_left
    (fun m p =>
       if 0 <? BookRequest.getRemainingQuantity (snd p)
       then mapPush (BookRequest.isbn (snd p)) (fst p) m
       else m)
    (pendingRequests insts) [].

(** The inner loop; the remaining quantity is read when the pair is
    served. *)
Definition serve (now : Z) (isbn : string) (perInst : Z)
    (needList : list (nat * nat)) (w : World) : World :=
  fold_left
    (fun w p =>
       let allocate := Z.min perInst (remainingAt (fst p) (snd p) w) in
       if 0 <? allocate then grant (fst p) (snd p) isbn allocate now w
       else w)
    needList w.

(** The body of the loop over [needingMap].  In
    [available / needList.size()] the positive [int] is converted to
    [size_t], divided, and the quotient converted back: no wrap-around. *)
Definition distributeGroup (now : Z) (isbn : string)
    (needList : list (nat * nat)) (w : World) : World :=
  let available := getAvailable isbn w in
  if (available <=? 0) || (Nat.eqb (length needList) 0) then w
  else
    let perInst := Z.quot available (Z.of_nat (length needList)) in
    if perInst <=? 0 then w
    else serve now isbn perInst needList w.

Definition distribute (now : Z) (w : World) : World :=
  fold_left (fun w g => distributeGroup now (fst g) (snd g) w)
            (needingMap (institutions w)) w.

End EqualDistribution.

(** *** User *)

Inductive UserRole := ADMIN | LIBRARIAN | INSTITUTION_HEAD | STUDENT.

Module User.

Record t := mk {
  userId : string;
  name : string;
  email : string;
  phone : string;
  role : UserRole;
  password : string
}.

Definition authenticate (pwd : string) (u : t) : bool :=
  String.eqb (password u) pwd.

End User.

(** *** The facade *)

Inductive StrategyKind := PriorityBased | NeedBased | Equal.

Module GovernmentBooksManagementSystem.

Record t := mk {
  centralInventory : InventoryState.t;
  institutions : gmap string Institution.t;
  users : gmap string User.t;
  distributionStrategy : StrategyKind;
  loanManager : list BookLoan.t;
  waitingList : gmap string (list WaitingList.WaitingEntry);
  currentUser : option User.t
}.

Definition new (strategy : StrategyKind) : t :=
  mk InventoryState.empty ∅ ∅ strategy [] ∅ None.

Definition login (userId password : string) (sys : t) : bool * t :=
  match users sys !! userId with
  | Some u =>
      if User.authenticate password u
      then (true, mk (centralInventory sys) (institutions sys) (users sys)
                     (distributionStrategy sys) (loanManager sys)
                     (waitingList sys) (Some u))
      else (false, sys)
  | None => (false, sys)
  end.

Definition logout (sys : t) : t :=
  mk (centralInventory sys) (institutions sys) (users sys)
     (distributionStrategy sys) (loanManager sys) (waitingList sys) None.

Definition addBookToInventory (book : Book.t) (quantity now : Z) (sys : t)
    : Throws t :=
  match BookInventory.addBook book quantity now (centralInventory sys) with
  | inl inv' =>
      inl (mk inv' (institutions sys) (users sys) (distributionStrategy sys)
              (loanManager sys) (waitingList sys) (currentUser sys))
  | inr e => inr e
  end.

Definition registerInstitution (inst : Institution.t) (sys : t) : t :=
  mk (centralInventory sys)
     (<[Institution.institutionId inst := inst]> (institutions sys))
     (users sys) (distributionStrategy sys) (loanManager sys)
     (waitingList sys) (currentUser sys).

Definition registerUser (user : User.t) (sys : t) : t :=
  mk (centralInventory sys) (institutions sys)
     (<[User.userId user := user]> (users sys))
     (distributionStrategy sys) (loanManager sys)
     (waitingList sys) (currentUser sys).

Definition getInstitution (id : string) (sys : t) : option Institution.t :=
  institutions sys !! id.

Definition getInstitutionCount (sys : t) : nat := size (institutions sys).
Definition getUserCount (sys : t) : nat := size (users sys).

Definition submitBookRequest (instId isbn : string) (quantity : Z)
    (priority : Priority) (now : Z) (sys : t) : Throws t :=
  match getInstitution instId sys with
  | None => inr (NotFoundException ("Institution: " +:+ instId))
  | Some inst =>
      match InventoryState.getBook isbn (centralInventory sys) with
      | None => inr (NotFoundException ("Book ISBN: " +:+ isbn))
      | Some _ =>
          let reqId := "REQ-" +:+ instId +:+ "-" +:+ to_string now in
          let by_ := match currentUser sys with
                     | Some u => User.userId u
                     | None => EmptyString
                     end in
          let request := BookRequest.new reqId isbn quantity priority now by_ in
          inl (mk (centralInventory sys)
                  (<[instId := Institution.addRequest request inst]>
                     (institutions sys))
                  (users sys) (distributionStrategy sys) (loanManager sys)
                  (if InventoryState.getAvailableQuantity isbn
                        (centralInventory sys) <? quantity
                   then WaitingList.addToWaitingList isbn instId quantity
                          priority now (waitingList sys)
                   else waitingList sys)
                  (currentUser sys))
      end
  end.

(** [distributionStrategy->distribute(...)], by dynamic dispatch. *)
Definition dispatch (strategy : StrategyKind) (now : Z) (w w' : World) : Prop :=
  match strategy with
  | PriorityBased => PriorityBasedDistribution.distribute now w w'
  | NeedBased => w' = NeedBasedDistribution.distribute now w
  | Equal => w' = EqualDistribution.distribute now w
  end.

(** The same, with the first-pushed-first pop order for the queue. *)
Definition dispatchFifo (strategy : StrategyKind) (now : Z) (w : World)
    : World :=
  match strategy with
  | PriorityBased => PriorityBasedDistribution.distributeFifo now w
  | NeedBased => NeedBasedDistribution.distribute now w
  | Equal => EqualDistribution.distribute now w
  end.

(** [instList]: the institutions in the order in which the hash table is
    iterated, [order] being that order of its keys. *)
Definition instList (order : list string) (sys : t) : list Institution.t :=
  omap (fun id => institutions sys !! id) order.

(** The institutions are shared with the table: what the strategy did to
    [instList] is seen through the table. *)
Definition afterDistribution (order : list string) (sys : t) (w' : World)
    : t :=
  mk (inventory w')
     (list_to_map (zip order (Complete.institutions w')) ∪ institutions sys)
     (users sys) (distributionStrategy sys) (loanMgr w')
     (waitingList sys) (currentUser sys).

Definition iterationOrder (order : list string) (sys : t) : Prop :=
  NoDup order /\ forall id, id ∈ order <-> is_Some (institutions sys !! id).

Definition executeDistribution (now : Z) (sys sys' : t) : Prop :=
  exists order w',
    iterationOrder order sys
    /\ dispatch (distributionStrategy sys) now
         (mkWorld (centralInventory sys) (instList order sys)
                  (loanManager sys)) w'
    /\ sys' = afterDistribution order sys w'.

(** One run, computed: a given iteration order, first-pushed-first queue. *)
Definition executeDistributionIn (order : list string) (now : Z) (sys : t)
    : t :=
  afterDistribution order sys
    (dispatchFifo (distributionStrategy sys) now
       (mkWorld (centralInventory sys) (instList order sys)
                (loanManager sys))).

Definition setDistributionStrategy (strategy : StrategyKind) (sys : t) : t :=
  mk (centralInventory sys) (institutions sys) (users sys) strategy
     (loanManager sys) (waitingList sys) (currentUser sys).

(** What [returnBooks] prints. *)
Inductive ReturnMessage :=
| BooksReturned        (* "Books returned successfully" *)
| NothingPrinted
| NotFoundOrReturned.  (* "Loan not found or already returned" *)

Definition returnBooks (loanId : string) (now : Z) (sys : t)
    : ReturnMessage * t :=
  match LoanManagement.returnBooks loanId now (loanManager sys) with
  | (true, loans') =>
      match List.find (fun l => String.eqb (BookLoan.loanId l) loanId)
                      (LoanManagement.getLoansByInstitution EmptyString loans')
      with
      | Some loan =>
          (BooksReturned,
           mk (BookInventory.returnBooks (BookLoan.isbn loan)
                 (BookLoan.quantity loan) now (centralInventory sys))
              (institutions sys) (users sys) (distributionStrategy sys)
              loans' (waitingList sys) (currentUser sys))
      | None =>
          (NothingPrinted,
           mk (centralInventory sys) (institutions sys) (users sys)
              (distributionStrategy sys) loans' (waitingList sys)
              (currentUser sys))
      end
  | (false, _) => (NotFoundOrReturned, sys)
  end.

End GovernmentBooksManagementSystem.

End Complete.

(** * Traces and sample states *)

(** An operation on the inventory, with the clock value it reads. *)
Inductive InventoryOp :=
| OpAddBook (book : Book.t) (quantity now : Z)
| OpAllocateBooks (isbn : string) (quantity now : Z)
| OpReturnBooks (isbn : string) (quantity now : Z).

(** part_000: an [addBook] that throws leaves the inventory as it was. *)
Definition stepComplete (inv : InventoryState.t) (op : InventoryOp)
    : InventoryState.t :=
  match op with
  | OpAddBook b q now =>
      match Complete.BookInventory.addBook b q now inv with
      | inl inv' => inv'
      | inr _ => inv
      end
  | OpAllocateBooks isbn q now =>
      snd (Complete.BookInventory.allocateBooks isbn q now inv)
  | OpReturnBooks isbn q now => Complete.BookInventory.returnBooks isbn q now inv
  end.

(** final.cpp has no [returnBooks]: such a step does nothing there. *)
Definition stepFinal (inv : InventoryState.t) (op : InventoryOp)
    : InventoryState.t :=
  match op with
  | OpAddBook b q now => Final.BookInventory.addBook b q now inv
  | OpAllocateBooks isbn q now =>
      snd (Final.BookInventory.allocateBooks isbn q now inv)
  | OpReturnBooks _ _ _ => inv
  end.

(** No operation of the trace adds the ISBN. *)
Definition neverAdded (isbn : string) (ops : list InventoryOp) : Prop :=
  Forall (fun op => match op with
                    | OpAddBook b _ _ => Book.isbn b <> isbn
                    | _ => True
                    end) ops.

(** Sample data. *)
Definition sampleBook (isbn : string) : Book.t :=
  Book.mk isbn "Title" "Author" TEXTBOOK 2020 "Publisher".

Definition stockOf (isbn : string) (quantity : Z) : InventoryState.t :=
  InventoryState.addChecked (sampleBook isbn) quantity 0 InventoryState.empty.

(** 1,999,998 copies, added by two calls of part_000's [addBook]. *)
Definition stockTwoAdds : InventoryState.t :=
  fold_left stepComplete
    [OpAddBook (sampleBook "B1") 999999 0; OpAddBook (sampleBook "B1") 999999 1]
    InventoryState.empty.

Definition sampleInstitution (id : string) (rs : list BookRequest.t)
    : Institution.t :=
  Institution.mk id id COLLEGE "Town" 100 ∅ rs.

Definition sampleRequest (isbn : string) (quantity : Z) (p : Priority)
    : BookRequest.t :=
  BookRequest.new "REQ" isbn quantity p 0 EmptyString.

(** What the examples observe of a request. *)
Definition outcome (r : BookRequest.t) : Z * RequestStatus :=
  (BookRequest.quantityFulfilled r, BookRequest.status r).

Definition outcomes (insts : list Institution.t)
    : list (list (Z * RequestStatus)) :=
  map (fun i => map outcome (Institution.requests i)) insts.

(** The quantities of the log's ADD records for an ISBN: what was ever
    added. *)
Definition totalAdded (isbn : string) (inv : InventoryState.t) : Z :=
  fold_right
    (fun tx acc =>
       if String.eqb (Transaction.type tx) "ADD"
          && String.eqb (Transaction.isbn tx) isbn
       then Transaction.quantity tx + acc else acc)
    0 (InventoryState.transactionLog inv).

(** The quantities of the loans on an ISBN that are not returned. *)
Definition outstanding (isbn : string) (loans : list Complete.BookLoan.t) : Z :=
  fold_right
    (fun l acc =>
       if String.eqb (Complete.BookLoan.isbn l) isbn
          && negb (Complete.BookLoan.isReturned l)
       then Complete.BookLoan.quantity l + acc else acc)
    0 loans.

(** Conservation for one ISBN. *)
Definition conserved (isbn : string) (inv : InventoryState.t)
    (loans : list Complete.BookLoan.t) : Prop :=
  totalAdded isbn inv
  = InventoryState.getAvailableQuantity isbn inv + outstanding isbn loans.

(** A loan with this id is open. *)
Definition openLoan (loanId : string) (l : Complete.BookLoan.t) : Prop :=
  Complete.BookLoan.loanId l = loanId /\ Complete.BookLoan.isReturned l = false.

(** The state after a call that may throw: an exception leaves it as it
    was (the menu loop catches it). *)
Definition committed {A : Type} (before : A) (r : Throws A) : A :=
  match r with
  | inl after => after
  | inr _ => before
  end.

(** A run of the facade: 100 copies of B1 are added, institution X is
    registered and asks for 60, one cycle runs. *)
Definition sampleSubmitted : Complete.GovernmentBooksManagementSystem.t :=
  let s0 := Complete.GovernmentBooksManagementSystem.new Complete.PriorityBased in
  let s1 := committed s0
              (Complete.GovernmentBooksManagementSystem.addBookToInventory
                 (sampleBook "B1") 100 1 s0) in
  let s2 := Complete.GovernmentBooksManagementSystem.registerInstitution
              (sampleInstitution "X" []) s1 in
  committed s2
    (Complete.GovernmentBooksManagementSystem.submitBookRequest
       "X" "B1" 60 HIGH 2 s2).

Definition sampleDistributed : Complete.GovernmentBooksManagementSystem.t :=
  Complete.GovernmentBooksManagementSystem.executeDistributionIn
    ["X"] 3 sampleSubmitted.

(** The request invariant: the requested quantity is an [int], and the
    fulfilled one lies between 0 and it. *)
Definition requestOk (r : BookRequest.t) : Prop :=
  CInt.in_range (BookRequest.quantityRequested r)
  /\ 0 <= BookRequest.quantityFulfilled r <= BookRequest.quantityRequested r.

Definition institutionsOk (insts : list Institution.t) : Prop :=
  Forall (fun i => Forall requestOk (Institution.requests i)) insts.

(** [pendingRequests] with the institutions numbered from [k]. *)
Definition pendingFrom (k : nat) (insts : list Institution.t)
    : list (nat * nat * BookRequest.t) :=
  concat (imap (fun i inst =>
                  map (fun p => ((k + i)%nat, fst p, snd p))
                      (Institution.getPendingRequests inst))
               insts).

(** The stock invariant: every count is a non-negative [int]. *)
Definition stockOk (inv : InventoryState.t) : Prop :=
  forall isbn b s,
    InventoryState.stock inv !! isbn = Some (b, s) -> 0 <= s <= CInt.int_max.

(** The example of priority precedence: 100 copies, institution B asks
    for 60 with priority LOW, institution A for 60 with CRITICAL. *)
Definition precedenceInstitutions : list Institution.t :=
  [sampleInstitution "B" [sampleRequest "B1" 60 LOW];
   sampleInstitution "A" [sampleRequest "B1" 60 CRITICAL]].

Definition precedenceWorld : Complete.World :=
  Complete.mkWorld (stockOf "B1" 100) precedenceInstitutions [].

Definition precedenceWorldFinal : Final.World :=
  Final.mkWorld (stockOf "B1" 100) precedenceInstitutions.

(** The same with large numbers: 1,999,998 copies, A asks for 1,500,000
    with CRITICAL, B for 600,000 with LOW. *)
Definition largeInstitutions : list Institution.t :=
  [sampleInstitution "A" [sampleRequest "B1" 1500000 CRITICAL];
   sampleInstitution "B" [sampleRequest "B1" 600000 LOW]].

Definition largeWorld : Complete.World :=
  Complete.mkWorld stockTwoAdds largeInstitutions [].

(** One institution asks for 10 of 100 copies. *)
Definition smallRequestWorldFinal : Final.World :=
  Final.mkWorld (stockOf "B1" 100)
    [sampleInstitution "X" [sampleRequest "B1" 10 MEDIUM]].



(** A run of grants on one ISBN whose quantities are known beforehand:
    each entry of the plan is a request position and a quantity, granted
    when positive. *)
Definition grantAll (now : Z) (isbn : string) (plan : list (nat * nat * Z))
    (w : Complete.World) : Complete.World :=
  fold_left
    (fun w p =>
       if 0 <? snd p
       then Complete.grant (fst (fst p)) (snd (fst p)) isbn (snd p) now w
       else w)
    plan w.

Definition planTotal (plan : list (nat * nat * Z)) : Z :=
  fold_right (fun p acc => snd p + acc) 0 plan.




(** The loop that fills a [std::map] of vectors from the collected
    requests: [f] gives the key and the value pushed for a request, or
    nothing when the request is skipped. *)
Definition buildMap {P A : Type} (f : P -> option (string * A)) (l : list P)
    (m : list (string * list A)) : list (string * list A) :=
  fold_left (fun m p => match f p with
                        | Some kv => Complete.mapPush (fst kv) (snd kv) m
                        | None => m
                        end) l m.

(** The values such a loop pushes under one key, in order. *)
Definition valuesOf {P A : Type} (f : P -> option (string * A)) (k : string)
    (l : list P) : list A :=
  omap (fun p => match f p with
                 | Some kv => if String.eqb (fst kv) k then Some (snd kv)
                              else None
                 | None => None
                 end) l.

(** [m.find(k)]. *)
Definition groupAt {A : Type} (k : string) (m : list (string * list A))
    : option (list A) :=
  snd <$> List.find (fun g => String.eqb (fst g) k) m.

(** The keys of a [std::map] are strictly increasing. *)
Definition keysSorted {A : Type} (m : list (string * list A)) : Prop :=
  StronglySorted (fun a b => String.compare (fst a) (fst b) = Lt) m.

Definition nonempty {A : Type} (l : list A) : option (list A) :=
  match l with
  | [] => None
  | _ => Some l
  end.

(** What the need-based strategy pushes for a collected request. *)
Definition needOf (p : nat * nat * BookRequest.t)
    : option (string * Complete.NeedBasedDistribution.Need) :=
  if 0 <? BookRequest.getRemainingQuantity (snd p)
  then Some (BookRequest.isbn (snd p),
             Complete.NeedBasedDistribution.mkNeed (fst (fst p)) (snd (fst p))
               (BookRequest.getRemainingQuantity (snd p)))
  else None.

(** The tuples of the need-based strategy for one ISBN: the pending
    requests for it with a positive remaining quantity. *)
Definition needsFor (isbn : string) (insts : list Institution.t)
    : list Complete.NeedBasedDistribution.Need :=
  valuesOf needOf isbn (Complete.pendingRequests insts).

(** What the equal strategy of part_000 pushes. *)
Definition pairOf (p : nat * nat * BookRequest.t) : option (string * (nat * nat)) :=
  if 0 <? BookRequest.getRemainingQuantity (snd p)
  then Some (BookRequest.isbn (snd p), fst p)
  else None.

Definition pairsFor (isbn : string) (insts : list Institution.t)
    : list (nat * nat) :=
  valuesOf pairOf isbn (Complete.pendingRequests insts).










(** The quantities the equal strategy of part_000 grants, read off the
    world the inner loop starts in. *)
Definition equalPlan (perInst : Z) (needList : list (nat * nat))
    (w : Complete.World) : list (nat * nat * Z) :=
  (fun p => (fst p, snd p,
             Z.min perInst (Complete.remainingAt (fst p) (snd p) w)))
    <$> needList.




(** The facade with 100 copies of B1 and institution X registered, before
    any request. *)
Definition sampleRegistered : Complete.GovernmentBooksManagementSystem.t :=
  let s0 := Complete.GovernmentBooksManagementSystem.new Complete.PriorityBased in
  let s1 := committed s0
              (Complete.GovernmentBooksManagementSystem.addBookToInventory
                 (sampleBook "B1") 100 1 s0) in
  Complete.GovernmentBooksManagementSystem.registerInstitution
    (sampleInstitution "X" []) s1.

(** X then asks for 150 copies, more than the 100 in stock. *)
Definition sampleWaiting : Complete.GovernmentBooksManagementSystem.t :=
  committed sampleRegistered
    (Complete.GovernmentBooksManagementSystem.submitBookRequest
       "X" "B1" 150 HIGH 2 sampleRegistered).

(** The number of open loans with an id. *)
Definition openCount (loanId : string) (loans : list Complete.BookLoan.t) : nat :=
  length (List.filter
            (fun l => String.eqb (Complete.BookLoan.loanId l) loanId
                      && negb (Complete.BookLoan.isReturned l)) loans).

(** The worlds a run of grants at time [now] leads to. *)
Inductive grantsTo (now : Z) : Complete.World -> Complete.World -> Prop :=
| grantsTo_refl w : grantsTo now w w
| grantsTo_step w i j isbn a w' :
    grantsTo now (Complete.grant i j isbn a now w) w' -> grantsTo now w w'.

(** A loan as a successful grant at time [now] issues it. *)
Definition freshLoan (now : Z) (l : Complete.BookLoan.t) : Prop :=
  Complete.BookLoan.isReturned l = false
  /\ 0 < Complete.BookLoan.quantity l < 1000000
  /\ Complete.BookLoan.issueDate l = now
  /\ Complete.BookLoan.dueDate l = now + 15552000.

(** An inventory record as a successful grant writes it. *)
Definition allocateRecord (tx : Transaction.t) : Prop :=
  Transaction.type tx = "ALLOCATE" /\ 0 < Transaction.quantity tx < 1000000.

(** The characters of a string that are digits. *)
Definition digitsOf (s : string) : list ascii :=
  List.filter Complete.Validator.isdigit (String.list_ascii_of_string s).

(** One operation of the facade other than returning a loan.  Adding
    books counts only when the new count of the ISBN is an [int]. *)
Inductive facadeStep
    : Complete.GovernmentBooksManagementSystem.t ->
      Complete.GovernmentBooksManagementSystem.t -> Prop :=
| stepAddBook sys sys' book q now :
    Complete.GovernmentBooksManagementSystem.addBookToInventory book q now sys
    = inl sys' ->
    InventoryState.getAvailableQuantity (Book.isbn book)
      (Complete.GovernmentBooksManagementSystem.centralInventory sys) + q
    <= CInt.int_max ->
    facadeStep sys sys'
| stepRegisterInstitution sys inst :
    facadeStep sys
      (Complete.GovernmentBooksManagementSystem.registerInstitution inst sys)
| stepRegisterUser sys user :
    facadeStep sys (Complete.GovernmentBooksManagementSystem.registerUser user sys)
| stepSubmit sys sys' instId isbn q p now :
    Complete.GovernmentBooksManagementSystem.submitBookRequest
      instId isbn q p now sys = inl sys' ->
    facadeStep sys sys'
| stepSetStrategy sys strategy :
    facadeStep sys
      (Complete.GovernmentBooksManagementSystem.setDistributionStrategy
         strategy sys)
| stepLogin sys userId password :
    facadeStep sys
      (snd (Complete.GovernmentBooksManagementSystem.login userId password sys))
| stepLogout sys :
    facadeStep sys (Complete.GovernmentBooksManagementSystem.logout sys)
| stepCycle sys sys' now :
    Complete.GovernmentBooksManagementSystem.executeDistribution now sys sys' ->
    facadeStep sys sys'.

(** The states the facade reaches from a new system by such operations. *)
Inductive reachable
    : Complete.GovernmentBooksManagementSystem.t -> Prop :=
| reachableNew strategy :
    reachable (Complete.GovernmentBooksManagementSystem.new strategy)
| reachableStep sys sys' :
    reachable sys -> facadeStep sys sys' -> reachable sys'.

(** What final.cpp's strategies see of a world of part_000: all but the
    loans. *)
Definition withoutLoans (w : Complete.World) : Final.World :=
  Final.mkWorld (Complete.inventory w) (Complete.institutions w).

(** A tuple of part_000's queue as a tuple of final.cpp's, and back. *)
Definition finalItem (it : Complete.PriorityBasedDistribution.Item)
    : Final.PriorityBasedDistribution.Item :=
  Final.PriorityBasedDistribution.mkItem
    (Complete.PriorityBasedDistribution.inst it)
    (Complete.PriorityBasedDistribution.req it)
    (Complete.PriorityBasedDistribution.request it)
    (Complete.PriorityBasedDistribution.needed it).

Definition completeItem (it : Final.PriorityBasedDistribution.Item)
    : Complete.PriorityBasedDistribution.Item :=
  Complete.PriorityBasedDistribution.mkItem
    (Final.PriorityBasedDistribution.inst it)
    (Final.PriorityBasedDistribution.req it)
    (Final.PriorityBasedDistribution.request it)
    (Final.PriorityBasedDistribution.needed it).

(** Every stock count is below the bound of [Validator::isValidQuantity]. *)
Definition stockBelowBound (inv : InventoryState.t) : Prop :=
  forall isbn, InventoryState.getAvailableQuantity isbn inv < 1000000.

(** * Properties *)

(** ** C++ [int] arithmetic *)

Lemma wrap_in_range z : CInt.in_range z -> CInt.wrap z = z.
Proof.
  unfold CInt.in_range, CInt.int_min, CInt.int_max, CInt.wrap. intros H.
  rewrite Z.mod_small; lia.
Qed.

Lemma wrap_range z : CInt.in_range (CInt.wrap z).
Proof.
  unfold CInt.in_range, CInt.int_min, CInt.int_max, CInt.wrap.
  pose proof (Z.mod_pos_bound (z + 2147483648) 4294967296). lia.
Qed.

Lemma add_exact a b : CInt.in_range (a + b) -> CInt.add a b = a + b.
Proof. apply wrap_in_range. Qed.

Lemma sub_exact a b : CInt.in_range (a - b) -> CInt.sub a b = a - b.
Proof. apply wrap_in_range. Qed.

Lemma mul_exact a b : CInt.in_range (a * b) -> CInt.mul a b = a * b.
Proof. apply wrap_in_range. Qed.


Lemma in_range_between lo hi z :
  CInt.in_range lo -> CInt.in_range hi -> lo <= z <= hi -> CInt.in_range z.
Proof. unfold CInt.in_range. lia. Qed.

(** ** The inventory *)

Lemma getAvailableQuantity_lookup isbn inv :
  InventoryState.getAvailableQuantity isbn inv
  = match InventoryState.stock inv !! isbn with
    | Some p => snd p
    | None => 0
    end.
Proof.
  unfold InventoryState.getAvailableQuantity.
  destruct (InventoryState.stock inv !! isbn) as [[b q]|]; reflexivity.
Qed.

Lemma isValidQuantity_spec q :
  Complete.Validator.isValidQuantity q = true <-> 0 < q < 1000000.
Proof. unfold Complete.Validator.isValidQuantity. lia. Qed.

(** What [allocateChecked] does, case by case. *)
Lemma allocateChecked_spec isbn q now inv :
  0 < q ->
  CInt.in_range (InventoryState.getAvailableQuantity isbn inv) ->
  let a := InventoryState.getAvailableQuantity isbn inv in
  let r := InventoryState.allocateChecked isbn q now inv in
  (fst r = true <-> q <= a)
  /\ (fst r = true ->
      InventoryState.getAvailableQuantity isbn (snd r) = a - q
      /\ (forall isbn', isbn' <> isbn ->
            InventoryState.stock (snd r) !! isbn'
            = InventoryState.stock inv !! isbn'))
  /\ (fst r = false -> snd r = inv).
Proof.
  intros Hq Hr. cbv zeta.
  unfold InventoryState.allocateChecked, InventoryState.getAvailableQuantity in *.
  destruct (InventoryState.stock inv !! isbn) as [[b s]|] eqn:E; simpl.
  - destruct (Z.ltb_spec s q); simpl.
    + repeat split; intros; try lia; congruence.
    + repeat split; intros; try lia; try congruence.
      * rewrite lookup_insert_eq. apply sub_exact.
        unfold CInt.in_range, CInt.int_min, CInt.int_max in *. lia.
      * rewrite lookup_insert_ne by congruence. reflexivity.
  - repeat split; intros; try lia; congruence.
Qed.

Lemma allocateBooks_complete_spec isbn q now inv :
  0 < q ->
  CInt.in_range (InventoryState.getAvailableQuantity isbn inv) ->
  let a := InventoryState.getAvailableQuantity isbn inv in
  let r := Complete.BookInventory.allocateBooks isbn q now inv in
  (fst r = true <-> q < 1000000 /\ q <= a)
  /\ (fst r = true ->
      InventoryState.getAvailableQuantity isbn (snd r) = a - q
      /\ (forall isbn', isbn' <> isbn ->
            InventoryState.stock (snd r) !! isbn'
            = InventoryState.stock inv !! isbn'))
  /\ (fst r = false -> snd r = inv).
Proof.
  intros Hq Hr. cbv zeta.
  unfold Complete.BookInventory.allocateBooks.
  destruct (Complete.Validator.isValidQuantity q) eqn:V; simpl.
  - apply isValidQuantity_spec in V.
    destruct (allocateChecked_spec isbn q now inv Hq Hr) as (H1 & H2 & H3).
    split; [|split]; auto. rewrite H1. lia.
  - assert (~ 0 < q < 1000000) by (rewrite <- isValidQuantity_spec; congruence).
    repeat split; intros; try lia; congruence.
Qed.

Lemma allocateBooks_final_spec isbn q now inv :
  0 < q ->
  CInt.in_range (InventoryState.getAvailableQuantity isbn inv) ->
  let a := InventoryState.getAvailableQuantity isbn inv in
  let r := Final.BookInventory.allocateBooks isbn q now inv in
  (fst r = true <-> q <= a)
  /\ (fst r = true ->
      InventoryState.getAvailableQuantity isbn (snd r) = a - q
      /\ (forall isbn', isbn' <> isbn ->
            InventoryState.stock (snd r) !! isbn'
            = InventoryState.stock inv !! isbn'))
  /\ (fst r = false -> snd r = inv).
Proof.
  intros Hq Hr. cbv zeta.
  unfold Final.BookInventory.allocateBooks.
  destruct (Z.leb_spec q 0); [lia|].
  apply allocateChecked_spec; assumption.
Qed.

(** C5, as the source has it.  For a positive quantity and a stock count
    that is an [int], [allocateBooks] of part_000 succeeds exactly when
    the quantity is below 1,000,000 and at most the available quantity;
    [allocateBooks] of final.cpp succeeds exactly when it is at most the
    available quantity.  In both, success takes exactly the quantity off
    the available quantity, failure leaves the inventory as it was, and
    the call returns a boolean in every case (its type has no exception). *)
Theorem allocateBooks_success_iff isbn q now inv :
  0 < q ->
  CInt.in_range (InventoryState.getAvailableQuantity isbn inv) ->
  let a := InventoryState.getAvailableQuantity isbn inv in
  let rc := Complete.BookInventory.allocateBooks isbn q now inv in
  let rf := Final.BookInventory.allocateBooks isbn q now inv in
  (fst rc = true <-> q < 1000000 /\ q <= a)
  /\ (fst rc = true -> InventoryState.getAvailableQuantity isbn (snd rc) = a - q)
  /\ (fst rc = false -> snd rc = inv)
  /\ (fst rf = true <-> q <= a)
  /\ (fst rf = true -> InventoryState.getAvailableQuantity isbn (snd rf) = a - q)
  /\ (fst rf = false -> snd rf = inv).
Proof.
  intros Hq Hr. cbv zeta.
  destruct (allocateBooks_complete_spec isbn q now inv Hq Hr) as (C1 & C2 & C3).
  destruct (allocateBooks_final_spec isbn q now inv Hq Hr) as (F1 & F2 & F3).
  repeat split; try tauto; intros;
    first [apply C1; tauto | apply C2; assumption | apply F2; assumption].
Qed.

Lemma allocateBooks_success_iff_witness :
  fst (Complete.BookInventory.allocateBooks "B1" 60 1 (stockOf "B1" 100)) = true
  /\ InventoryState.getAvailableQuantity "B1"
       (snd (Complete.BookInventory.allocateBooks "B1" 60 1 (stockOf "B1" 100)))
     = 40.
Proof.
  assert (E : InventoryState.getAvailableQuantity "B1" (stockOf "B1" 100) = 100)
    by reflexivity.
  destruct (allocateBooks_success_iff "B1" 60 1 (stockOf "B1" 100))
    as (H1 & H2 & _).
  - lia.
  - rewrite E. unfold CInt.in_range, CInt.int_min, CInt.int_max. lia.
  - rewrite E in *. split.
    + apply H1. lia.
    + rewrite H2; [lia|]. apply H1. lia.
Defined.

(** C5 as stated fails in part_000: 1,999,998 copies are available, and a
    request for 1,000,000 of them is refused. *)
Lemma allocateBooks_refuses_a_million :
  InventoryState.getAvailableQuantity "B1" stockTwoAdds = 1999998
  /\ fst (Complete.BookInventory.allocateBooks "B1" 1000000 2 stockTwoAdds)
     = false.
Proof. vm_compute. split; reflexivity. Qed.




(** An ISBN without an entry stays without one under every operation
    that does not add it. *)
Lemma stepComplete_keeps_unknown isbn op inv :
  match op with OpAddBook b _ _ => Book.isbn b <> isbn | _ => True end ->
  InventoryState.stock inv !! isbn = None ->
  InventoryState.stock (stepComplete inv op) !! isbn = None.
Proof.
  intros Hop Hnone. destruct op as [b q now|i q now|i q now]; simpl.
  - unfold Complete.BookInventory.addBook.
    destruct (negb _); [assumption|].
    unfold InventoryState.addChecked.
    destruct (InventoryState.stock inv !! Book.isbn b) as [[b' s]|]; simpl;
      rewrite lookup_insert_ne by assumption; assumption.
  - unfold Complete.BookInventory.allocateBooks.
    destruct (negb _); [assumption|].
    unfold InventoryState.allocateChecked.
    destruct (InventoryState.stock inv !! i) as [[b' s]|] eqn:E; simpl;
      [|assumption].
    destruct (s <? q); simpl; [assumption|].
    rewrite lookup_insert_ne; [assumption|]. congruence.
  - unfold Complete.BookInventory.returnBooks.
    destruct (InventoryState.stock inv !! i) as [[b' s]|] eqn:E; simpl;
      [|assumption].
    rewrite lookup_insert_ne; [assumption|]. congruence.
Qed.

Lemma stepFinal_keeps_unknown isbn op inv :
  match op with OpAddBook b _ _ => Book.isbn b <> isbn | _ => True end ->
  InventoryState.stock inv !! isbn = None ->
  InventoryState.stock (stepFinal inv op) !! isbn = None.
Proof.
  intros Hop Hnone. destruct op as [b q now|i q now|i q now]; simpl.
  - unfold Final.BookInventory.addBook.
    destruct (q <=? 0); [assumption|].
    unfold InventoryState.addChecked.
    destruct (InventoryState.stock inv !! Book.isbn b) as [[b' s]|]; simpl;
      rewrite lookup_insert_ne by assumption; assumption.
  - unfold Final.BookInventory.allocateBooks.
    destruct (q <=? 0); [assumption|].
    unfold InventoryState.allocateChecked.
    destruct (InventoryState.stock inv !! i) as [[b' s]|] eqn:E; simpl;
      [|assumption].
    destruct (s <? q); simpl; [assumption|].
    rewrite lookup_insert_ne; [assumption|]. congruence.
  - assumption.
Qed.

Lemma trace_keeps_unknown (step : InventoryState.t -> InventoryOp -> InventoryState.t)
    isbn ops :
  (forall op inv,
      match op with OpAddBook b _ _ => Book.isbn b <> isbn | _ => True end ->
      InventoryState.stock inv !! isbn = None ->
      InventoryState.stock (step inv op) !! isbn = None) ->
  neverAdded isbn ops ->
  forall inv, InventoryState.stock inv !! isbn = None ->
  InventoryState.stock (fold_left step ops inv) !! isbn = None.
Proof.
  intros Hstep Hops. induction Hops as [|op ops Hop _ IH]; intros inv Hnone.
  - assumption.
  - simpl. apply IH. apply Hstep; assumption.
Qed.

Lemma unknown_isbn_queries isbn inv :
  InventoryState.stock inv !! isbn = None ->
  InventoryState.getAvailableQuantity isbn inv = 0
  /\ InventoryState.getBook isbn inv = None
  /\ (forall q now,
        Complete.BookInventory.allocateBooks isbn q now inv = (false, inv))
  /\ (forall q now,
        Final.BookInventory.allocateBooks isbn q now inv = (false, inv)).
Proof.
  intros H.
  unfold InventoryState.getAvailableQuantity, InventoryState.getBook,
    Complete.BookInventory.allocateBooks, Final.BookInventory.allocateBooks,
    InventoryState.allocateChecked.
  rewrite H. repeat split; intros.
  - destruct (negb _); reflexivity.
  - destruct (q <=? 0); reflexivity.
Qed.

(** C10.  Start from the empty inventory and run any operations, none of
    which adds the ISBN: in part_000 and in final.cpp alike
    [getAvailableQuantity] returns 0, [getBook] returns no book, and
    [allocateBooks] returns false for every quantity, changing nothing. *)
Theorem unknown_isbn_defaults isbn ops :
  neverAdded isbn ops ->
  let invC := fold_left stepComplete ops InventoryState.empty in
  let invF := fold_left stepFinal ops InventoryState.empty in
  (InventoryState.getAvailableQuantity isbn invC = 0
   /\ InventoryState.getBook isbn invC = None
   /\ forall q now,
        Complete.BookInventory.allocateBooks isbn q now invC = (false, invC))
  /\ (InventoryState.getAvailableQuantity isbn invF = 0
      /\ InventoryState.getBook isbn invF = None
      /\ forall q now,
           Final.BookInventory.allocateBooks isbn q now invF = (false, invF)).
Proof.
  intros Hops. cbv zeta.
  assert (HC := trace_keeps_unknown stepComplete isbn ops
                  (stepComplete_keeps_unknown isbn) Hops
                  InventoryState.empty (lookup_empty _)).
  assert (HF := trace_keeps_unknown stepFinal isbn ops
                  (stepFinal_keeps_unknown isbn) Hops
                  InventoryState.empty (lookup_empty _)).
  destruct (unknown_isbn_queries isbn _ HC) as (C1 & C2 & C3 & _).
  destruct (unknown_isbn_queries isbn _ HF) as (F1 & F2 & _ & F4).
  repeat split; assumption.
Qed.

Lemma unknown_isbn_defaults_witness :
  InventoryState.getAvailableQuantity "B9"
    (fold_left stepComplete
       [OpAddBook (sampleBook "B1") 100 0; OpAllocateBooks "B9" 5 1;
        OpReturnBooks "B9" 5 2] InventoryState.empty) = 0.
Proof.
  apply (unknown_isbn_defaults "B9"
           [OpAddBook (sampleBook "B1") 100 0; OpAllocateBooks "B9" 5 1;
            OpReturnBooks "B9" 5 2]).
  repeat constructor. discriminate.
Defined.

(** ** Loans *)

Lemma markReturned_fields now l :
  Complete.BookLoan.loanId (Complete.BookLoan.markReturned now l)
  = Complete.BookLoan.loanId l
  /\ Complete.BookLoan.isbn (Complete.BookLoan.markReturned now l)
     = Complete.BookLoan.isbn l
  /\ Complete.BookLoan.institutionId (Complete.BookLoan.markReturned now l)
     = Complete.BookLoan.institutionId l
  /\ Complete.BookLoan.quantity (Complete.BookLoan.markReturned now l)
     = Complete.BookLoan.quantity l
  /\ Complete.BookLoan.isReturned (Complete.BookLoan.markReturned now l) = true.
Proof. repeat split. Qed.

Lemma openLoan_test loanId l :
  String.eqb (Complete.BookLoan.loanId l) loanId
  && negb (Complete.BookLoan.isReturned l) = true
  <-> openLoan loanId l.
Proof.
  unfold openLoan. rewrite andb_true_iff, String.eqb_eq, negb_true_iff.
  reflexivity.
Qed.

(** [LoanManagement::returnBooks] marks the first open loan with the id,
    and fails when there is none. *)
Lemma loan_returnBooks_spec loanId now loans :
  match Complete.LoanManagement.returnBooks loanId now loans with
  | (true, loans') =>
      exists pre l post,
        loans = pre ++ l :: post
        /\ loans' = pre ++ Complete.BookLoan.markReturned now l :: post
        /\ openLoan loanId l
        /\ Forall (fun x => ~ openLoan loanId x) pre
  | (false, loans') =>
      loans' = loans /\ Forall (fun x => ~ openLoan loanId x) loans
  end.
Proof.
  induction loans as [|l rest IH]; simpl.
  - split; [reflexivity|constructor].
  - destruct (String.eqb (Complete.BookLoan.loanId l) loanId
              && negb (Complete.BookLoan.isReturned l)) eqn:T.
    + apply openLoan_test in T.
      exists [], l, rest. repeat split; try apply T. constructor.
    + assert (~ openLoan loanId l) as Hn
        by (rewrite <- openLoan_test; congruence).
      destruct (Complete.LoanManagement.returnBooks loanId now rest)
        as [[|] rest'].
      * destruct IH as (pre & l0 & post & -> & -> & Ho & Hpre).
        exists (l :: pre), l0, post. repeat split; try apply Ho.
        constructor; assumption.
      * destruct IH as [-> Hall]. split; [reflexivity|].
        constructor; assumption.
Qed.

Lemma loan_returnBooks_true_iff loanId now loans :
  fst (Complete.LoanManagement.returnBooks loanId now loans) = true
  <-> exists l, l ∈ loans /\ openLoan loanId l.
Proof.
  pose proof (loan_returnBooks_spec loanId now loans) as H.
  destruct (Complete.LoanManagement.returnBooks loanId now loans)
    as [[|] loans']; simpl.
  - destruct H as (pre & l & post & -> & _ & Ho & _).
    split; [|reflexivity]. intros _. exists l. split; [|assumption].
    apply elem_of_app. right. left.
  - destruct H as [_ Hall]. split; [discriminate|].
    intros (l & Hin & Ho). rewrite Forall_forall in Hall.
    exfalso. apply (Hall l); assumption.
Qed.

Lemma no_anonymous_loans instId loans :
  (forall l, l ∈ loans -> Complete.BookLoan.institutionId l <> instId) ->
  Complete.LoanManagement.getLoansByInstitution instId loans = [].
Proof.
  intros H. unfold Complete.LoanManagement.getLoansByInstitution.
  induction loans as [|l rest IH]; simpl; [reflexivity|].
  destruct (String.eqb_spec (Complete.BookLoan.institutionId l) instId) as [E|_].
  - exfalso. apply (H l); [left|assumption].
  - apply IH. intros l' Hin. apply H. right. assumption.
Qed.

(** Marking one loan returned takes its quantity off what is outstanding
    for its ISBN, and off nothing else. *)
Lemma outstanding_mark isbn now pre l post :
  Complete.BookLoan.isReturned l = false ->
  outstanding isbn (pre ++ Complete.BookLoan.markReturned now l :: post)
  = outstanding isbn (pre ++ l :: post)
    - (if String.eqb (Complete.BookLoan.isbn l) isbn
       then Complete.BookLoan.quantity l else 0).
Proof.
  intros Hl. induction pre as [|x pre IH]; simpl.
  - rewrite Hl. simpl. rewrite andb_false_r, andb_true_r.
    destruct (String.eqb (Complete.BookLoan.isbn l) isbn); lia.
  - destruct (String.eqb (Complete.BookLoan.isbn x) isbn
              && negb (Complete.BookLoan.isReturned x)); rewrite IH; lia.
Qed.

(** ** The facade: returning a loan *)

Section ReturnBooks.

Import Complete.GovernmentBooksManagementSystem.

Variable sys : Complete.GovernmentBooksManagementSystem.t.
Variable loanId : string.
Variable now : Z.

(** Every loan names its institution: the id is not the empty string. *)
Hypothesis named :
  forall l, l ∈ loanManager sys -> Complete.BookLoan.institutionId l <> EmptyString.

Lemma returnBooks_named_cases :
  match Complete.LoanManagement.returnBooks loanId now (loanManager sys) with
  | (true, loans') =>
      returnBooks loanId now sys
      = (NothingPrinted,
         mk (centralInventory sys) (institutions sys) (users sys)
            (distributionStrategy sys) loans' (waitingList sys)
            (currentUser sys))
  | (false, _) => returnBooks loanId now sys = (NotFoundOrReturned, sys)
  end.
Proof.
  unfold returnBooks.
  pose proof (loan_returnBooks_spec loanId now (loanManager sys)) as H.
  destruct (Complete.LoanManagement.returnBooks loanId now (loanManager sys))
    as [[|] loans']; [|reflexivity].
  destruct H as (pre & l & post & E & -> & _ & _).
  rewrite no_anonymous_loans; [reflexivity|].
  intros l' Hin. apply elem_of_app in Hin as [Hin|Hin].
  - apply named. rewrite E. apply elem_of_app. left. assumption.
  - apply elem_of_cons in Hin as [->|Hin].
    + simpl. apply named. rewrite E. apply elem_of_app. right. left.
    + apply named. rewrite E. apply elem_of_app. right. right. assumption.
Qed.

(** C1, where the source departs from it.  When every loan names its
    institution, [returnBooks] of the facade never changes the inventory.
    If an open loan with the id exists, the call marks a loan with that id
    returned, prints nothing and credits no stock; if none exists, it
    reports the failure and leaves the whole system as it was. *)
Theorem returnBooks_never_credits_named_loans :
  let r := returnBooks loanId now sys in
  centralInventory (snd r) = centralInventory sys
  /\ ((exists l, l ∈ loanManager sys /\ openLoan loanId l) ->
      fst r = NothingPrinted
      /\ exists l', l' ∈ loanManager (snd r)
                    /\ Complete.BookLoan.loanId l' = loanId
                    /\ Complete.BookLoan.isReturned l' = true)
  /\ (~ (exists l, l ∈ loanManager sys /\ openLoan loanId l) ->
      r = (NotFoundOrReturned, sys)).
Proof.
  cbv zeta.
  pose proof returnBooks_named_cases as Hc.
  pose proof (loan_returnBooks_spec loanId now (loanManager sys)) as Hs.
  pose proof (loan_returnBooks_true_iff loanId now (loanManager sys)) as Hi.
  destruct (Complete.LoanManagement.returnBooks loanId now (loanManager sys))
    as [[|] loans']; rewrite Hc; simpl in *.
  - split; [reflexivity|]. split.
    + intros _. split; [reflexivity|].
      destruct Hs as (pre & l & post & _ & -> & [Hid _] & _).
      exists (Complete.BookLoan.markReturned now l).
      repeat split; [|assumption].
      apply elem_of_app. right. left.
    + intros Hn. exfalso. apply Hn, Hi. reflexivity.
  - split; [reflexivity|]. split.
    + intros Ho. apply Hi in Ho. discriminate.
    + reflexivity.
Qed.

(** C2, where the source departs from it.  Suppose conservation holds
    for an ISBN, every loan names its institution, and the open loans
    with the given id are loans of a positive quantity on that ISBN.
    Then returning such a loan breaks conservation: the loan no longer
    counts as outstanding, and its copies were not put back. *)
Theorem returnBooks_breaks_conservation isbn :
  conserved isbn (centralInventory sys) (loanManager sys) ->
  (exists l, l ∈ loanManager sys /\ openLoan loanId l) ->
  (forall l, l ∈ loanManager sys -> openLoan loanId l ->
             Complete.BookLoan.isbn l = isbn
             /\ 0 < Complete.BookLoan.quantity l) ->
  let sys' := snd (returnBooks loanId now sys) in
  ~ conserved isbn (centralInventory sys') (loanManager sys').
Proof.
  intros Hcons Hex Hq. cbv zeta.
  pose proof returnBooks_named_cases as Hc.
  pose proof (loan_returnBooks_spec loanId now (loanManager sys)) as Hs.
  pose proof (loan_returnBooks_true_iff loanId now (loanManager sys)) as Hi.
  destruct (Complete.LoanManagement.returnBooks loanId now (loanManager sys))
    as [[|] loans']; rewrite Hc; simpl in *.
  - destruct Hs as (pre & l & post & E & -> & Ho & _).
    destruct (Hq l) as [Hisbn Hpos]; [rewrite E; apply elem_of_app; right; left
                                     |assumption|].
    unfold conserved in *.
    rewrite outstanding_mark by apply Ho.
    rewrite <- E, Hisbn, String.eqb_refl. lia.
  - apply Hi in Hex. discriminate.
Qed.

End ReturnBooks.

Lemma returnBooks_never_credits_named_loans_witness :
  InventoryState.getAvailableQuantity "B1"
    (Complete.GovernmentBooksManagementSystem.centralInventory
       (snd (Complete.GovernmentBooksManagementSystem.returnBooks
               "LOAN-X-3" 4 sampleDistributed))) = 40.
Proof.
  destruct (returnBooks_never_credits_named_loans sampleDistributed "LOAN-X-3" 4)
    as (H & _).
  - intros l Hin. apply list_elem_of_In in Hin. vm_compute in Hin.
    destruct Hin as [<-|[]]. discriminate.
  - rewrite H. reflexivity.
Defined.

Lemma returnBooks_breaks_conservation_witness :
  conserved "B1"
    (Complete.GovernmentBooksManagementSystem.centralInventory sampleDistributed)
    (Complete.GovernmentBooksManagementSystem.loanManager sampleDistributed)
  /\ ~ conserved "B1"
       (Complete.GovernmentBooksManagementSystem.centralInventory
          (snd (Complete.GovernmentBooksManagementSystem.returnBooks
                  "LOAN-X-3" 4 sampleDistributed)))
       (Complete.GovernmentBooksManagementSystem.loanManager
          (snd (Complete.GovernmentBooksManagementSystem.returnBooks
                  "LOAN-X-3" 4 sampleDistributed))).
Proof.
  assert (Hc : conserved "B1"
    (Complete.GovernmentBooksManagementSystem.centralInventory sampleDistributed)
    (Complete.GovernmentBooksManagementSystem.loanManager sampleDistributed))
    by (vm_compute; reflexivity).
  split; [exact Hc|].
  apply (returnBooks_breaks_conservation sampleDistributed "LOAN-X-3" 4).
  - intros l Hin. apply list_elem_of_In in Hin. vm_compute in Hin.
    destruct Hin as [<-|[]]. discriminate.
  - exact Hc.
  - eexists. split; [left|]. split; reflexivity.
  - intros l Hin _. apply list_elem_of_In in Hin. vm_compute in Hin.
    destruct Hin as [<-|[]]. split; [reflexivity|]. vm_compute. reflexivity.
Defined.

(** ** The priority queue's pop order *)

Lemma insertItem_perm it l :
  Complete.PriorityBasedDistribution.insertItem it l ≡ₚ it :: l.
Proof.
  induction l as [|x l IH]; simpl; [reflexivity|].
  destruct (Complete.PriorityBasedDistribution.cmp it x); [|reflexivity].
  rewrite IH. apply Permutation_swap.
Qed.

Lemma sortItems_perm l : l ≡ₚ Complete.PriorityBasedDistribution.sortItems l.
Proof.
  induction l as [|x l IH]; simpl; [reflexivity|].
  rewrite insertItem_perm. constructor. assumption.
Qed.

Lemma insertItem_sorted it l :
  StronglySorted (fun a b => Complete.PriorityBasedDistribution.cmp a b = false) l ->
  StronglySorted (fun a b => Complete.PriorityBasedDistribution.cmp a b = false)
    (Complete.PriorityBasedDistribution.insertItem it l).
Proof.
  induction 1 as [|x l Hs IH Hx]; simpl.
  - repeat constructor.
  - destruct (Complete.PriorityBasedDistribution.cmp it x) eqn:C.
    + constructor; [assumption|].
      rewrite insertItem_perm. constructor; [|assumption].
      unfold Complete.PriorityBasedDistribution.cmp in *. lia.
    + constructor; [constructor; assumption|].
      constructor; [assumption|].
      rewrite Forall_forall in *. intros y Hy. specialize (Hx y Hy).
      unfold Complete.PriorityBasedDistribution.cmp in *. lia.
Qed.

(** The computed order is one the queue may produce: [distributeFifo] is
    a run of [distribute]. *)
Lemma sortItems_popOrder l :
  Complete.PriorityBasedDistribution.popOrder l
    (Complete.PriorityBasedDistribution.sortItems l).
Proof.
  split; [apply sortItems_perm|].
  induction l as [|x l IH]; simpl; [constructor|].
  apply insertItem_sorted. assumption.
Qed.

Lemma distributeFifo_distribute now w :
  Complete.PriorityBasedDistribution.distribute now w
    (Complete.PriorityBasedDistribution.distributeFifo now w).
Proof. eexists. split; [apply sortItems_popOrder|reflexivity]. Qed.

Lemma dispatchFifo_dispatch strategy now w :
  Complete.GovernmentBooksManagementSystem.dispatch strategy now w
    (Complete.GovernmentBooksManagementSystem.dispatchFifo strategy now w).
Proof.
  destruct strategy; simpl; [apply distributeFifo_distribute|reflexivity..].
Qed.

Lemma executeDistributionIn_executeDistribution order now sys :
  Complete.GovernmentBooksManagementSystem.iterationOrder order sys ->
  Complete.GovernmentBooksManagementSystem.executeDistribution now sys
    (Complete.GovernmentBooksManagementSystem.executeDistributionIn order now sys).
Proof.
  intros Ho. eexists order, _. split; [assumption|].
  split; [apply dispatchFifo_dispatch|reflexivity].
Qed.

(** ** The waiting list *)

Lemma getWaitingCount_add isbn instId q p now wl isbn' :
  Complete.WaitingList.getWaitingCount isbn'
    (Complete.WaitingList.addToWaitingList isbn instId q p now wl)
  = Complete.WaitingList.getWaitingCount isbn' wl
    + (if String.eqb isbn' isbn then 1 else 0).
Proof.
  unfold Complete.WaitingList.getWaitingCount,
    Complete.WaitingList.addToWaitingList.
  destruct (String.eqb_spec isbn' isbn) as [->|Hne].
  - rewrite lookup_insert_eq.
    destruct (wl !! isbn) as [q0|]; simpl.
    + rewrite length_app. simpl. lia.
    + reflexivity.
  - rewrite lookup_insert_ne by congruence.
    destruct (wl !! isbn'); lia.
Qed.

Lemma iterationOrder_exists (sys : Complete.GovernmentBooksManagementSystem.t) :
  exists order, Complete.GovernmentBooksManagementSystem.iterationOrder order sys.
Proof.
  exists ((map_to_list
             (Complete.GovernmentBooksManagementSystem.institutions sys)).*1).
  split; [apply NoDup_fst_map_to_list|].
  intros id. rewrite list_elem_of_fmap. split.
  - intros ([id' inst] & -> & Hin). apply elem_of_map_to_list in Hin.
    exists inst. exact Hin.
  - intros [inst Hi]. exists (id, inst). split; [reflexivity|].
    apply elem_of_map_to_list. exact Hi.
Qed.

(** A distribution cycle always has a run. *)
Lemma executeDistribution_runs now sys :
  exists sys',
    Complete.GovernmentBooksManagementSystem.executeDistribution now sys sys'.
Proof.
  destruct (iterationOrder_exists sys) as [order Ho].
  eexists. apply (executeDistributionIn_executeDistribution order). exact Ho.
Qed.

(** C9, as the source has it.  [submitBookRequest] throws, and so changes
    nothing, when the institution is not registered or the ISBN has no
    stock entry, whatever the quantities.  When both are known the
    submission goes through: it appends one waiting entry for the ISBN
    exactly when the available quantity is below the requested one, and
    otherwise leaves the waiting list as it was.  A distribution cycle
    always has a run, and every run, under every strategy, every
    iteration order of the institution table and every pop order of the
    queue, leaves the waiting list as it was, so [getWaitingCount] is the
    same before and after for every ISBN. *)
Theorem waiting_list_is_observational now
    (sys : Complete.GovernmentBooksManagementSystem.t) :
  (forall instId isbn q p,
      (Complete.GovernmentBooksManagementSystem.getInstitution instId sys = None ->
       Complete.GovernmentBooksManagementSystem.submitBookRequest
         instId isbn q p now sys
       = inr (NotFoundException ("Institution: " +:+ instId)))
      /\ (is_Some (Complete.GovernmentBooksManagementSystem.getInstitution
                     instId sys) ->
          InventoryState.getBook isbn
            (Complete.GovernmentBooksManagementSystem.centralInventory sys)
          = None ->
          Complete.GovernmentBooksManagementSystem.submitBookRequest
            instId isbn q p now sys
          = inr (NotFoundException ("Book ISBN: " +:+ isbn))))
  /\ (forall instId isbn q p,
        is_Some (Complete.GovernmentBooksManagementSystem.getInstitution
                   instId sys) ->
        is_Some (InventoryState.getBook isbn
                   (Complete.GovernmentBooksManagementSystem.centralInventory
                      sys)) ->
        exists sys',
          Complete.GovernmentBooksManagementSystem.submitBookRequest
            instId isbn q p now sys = inl sys'
          /\ let available :=
               InventoryState.getAvailableQuantity isbn
                 (Complete.GovernmentBooksManagementSystem.centralInventory
                    sys) in
             let wl := Complete.GovernmentBooksManagementSystem.waitingList sys in
             let wl' := Complete.GovernmentBooksManagementSystem.waitingList sys' in
             (available < q ->
              wl' !! isbn
              = Some (default [] (wl !! isbn)
                      ++ [Complete.WaitingList.mkEntry instId isbn q now p])
              /\ (forall isbn', isbn' <> isbn -> wl' !! isbn' = wl !! isbn')
              /\ Complete.WaitingList.getWaitingCount isbn wl'
                 = Complete.WaitingList.getWaitingCount isbn wl + 1)
             /\ (q <= available -> wl' = wl))
  /\ (exists sys',
        Complete.GovernmentBooksManagementSystem.executeDistribution now sys sys')
  /\ (forall sys',
        Complete.GovernmentBooksManagementSystem.executeDistribution now sys sys' ->
        Complete.GovernmentBooksManagementSystem.waitingList sys'
        = Complete.GovernmentBooksManagementSystem.waitingList sys
        /\ forall isbn,
             Complete.WaitingList.getWaitingCount isbn
               (Complete.GovernmentBooksManagementSystem.waitingList sys')
             = Complete.WaitingList.getWaitingCount isbn
                 (Complete.GovernmentBooksManagementSystem.waitingList sys)).
Proof.
  split; [|split; [|split]].
  - intros instId isbn q p.
    unfold Complete.GovernmentBooksManagementSystem.submitBookRequest. split.
    + intros ->. reflexivity.
    + intros [inst ->] ->. reflexivity.
  - intros instId isbn q p [inst Hi] [book Hb].
    unfold Complete.GovernmentBooksManagementSystem.submitBookRequest.
    rewrite Hi, Hb. eexists. split; [reflexivity|]. cbv zeta. simpl.
    destruct (Z.ltb_spec
                (InventoryState.getAvailableQuantity isbn
                   (Complete.GovernmentBooksManagementSystem.centralInventory sys))
                q).
    + split; [|lia]. intros _. split; [|split].
      * unfold Complete.WaitingList.addToWaitingList.
        apply lookup_insert_eq.
      * intros isbn' Hne. unfold Complete.WaitingList.addToWaitingList.
        apply lookup_insert_ne. congruence.
      * rewrite getWaitingCount_add, String.eqb_refl. reflexivity.
    + split; [lia|]. reflexivity.
  - apply executeDistribution_runs.
  - intros sys' (order & w' & _ & _ & ->). simpl. split; reflexivity.
Qed.

Lemma waiting_list_is_observational_witness :
  Complete.GovernmentBooksManagementSystem.submitBookRequest
    "X" "B1" 150 HIGH 2 sampleRegistered = inl sampleWaiting
  /\ Complete.WaitingList.getWaitingCount "B1"
       (Complete.GovernmentBooksManagementSystem.waitingList sampleWaiting) = 1
  /\ Complete.WaitingList.getWaitingCount "B1"
       (Complete.GovernmentBooksManagementSystem.waitingList
          (Complete.GovernmentBooksManagementSystem.executeDistributionIn
             ["X"] 3 sampleWaiting)) = 1.
Proof.
  destruct (waiting_list_is_observational 2 sampleRegistered)
    as (_ & Hsubmit & _).
  destruct (Hsubmit "X" "B1" 150 HIGH) as (sys' & Hsub & Hlt & _).
  { eexists. vm_compute. reflexivity. }
  { eexists. vm_compute. reflexivity. }
  assert (E : sampleWaiting = sys')
    by (unfold sampleWaiting; rewrite Hsub; reflexivity).
  rewrite <- E in *. clear E.
  destruct Hlt as (_ & _ & Hcount); [vm_compute; reflexivity|].
  assert (H1 : Complete.WaitingList.getWaitingCount "B1"
                 (Complete.GovernmentBooksManagementSystem.waitingList
                    sampleWaiting) = 1)
    by (rewrite Hcount; reflexivity).
  split; [exact Hsub|]. split; [exact H1|].
  destruct (waiting_list_is_observational 3 sampleWaiting) as (_ & _ & _ & Hcycle).
  destruct (Hcycle (Complete.GovernmentBooksManagementSystem.executeDistributionIn
                      ["X"] 3 sampleWaiting)) as [_ Hsame].
  - apply executeDistributionIn_executeDistribution. split.
    + repeat constructor. intros Hin. apply elem_of_nil in Hin. exact Hin.
    + intros id. rewrite list_elem_of_singleton, <- elem_of_dom.
      assert (Ed : dom (Complete.GovernmentBooksManagementSystem.institutions
                          sampleWaiting) = ({["X"]} : gset string))
        by (vm_compute; reflexivity).
      rewrite Ed. rewrite elem_of_singleton. reflexivity.
  - rewrite Hsame. exact H1.
Defined.

(** C9 as stated fails for a submission that names an unknown ISBN or an
    unregistered institution.  The request for 5 copies of B9 exceeds the
    0 copies available, and the request of Z for 150 copies of B1 exceeds
    the 100 available; both calls throw, so no waiting entry is appended. *)
Lemma understocked_submission_can_throw :
  (InventoryState.getAvailableQuantity "B9"
     (Complete.GovernmentBooksManagementSystem.centralInventory sampleRegistered)
   = 0
   /\ Complete.GovernmentBooksManagementSystem.submitBookRequest
        "X" "B9" 5 HIGH 2 sampleRegistered
      = inr (NotFoundException "Book ISBN: B9"))
  /\ (InventoryState.getAvailableQuantity "B1"
        (Complete.GovernmentBooksManagementSystem.centralInventory
           sampleRegistered) = 100
      /\ Complete.GovernmentBooksManagementSystem.submitBookRequest
           "Z" "B1" 150 HIGH 2 sampleRegistered
         = inr (NotFoundException "Institution: Z")).
Proof. vm_compute. repeat split; reflexivity. Qed.

(** ** Requests *)

Lemma remaining_exact r :
  requestOk r ->
  BookRequest.getRemainingQuantity r
  = BookRequest.quantityRequested r - BookRequest.quantityFulfilled r.
Proof.
  intros [Hr Hf]. unfold BookRequest.getRemainingQuantity.
  apply sub_exact. unfold CInt.in_range, CInt.int_min, CInt.int_max in *. lia.
Qed.

(** Crediting at most what remains keeps the invariant, adds exactly the
    quantity, and sets the status by the new total. *)
Lemma fulfillPartial_ok qty r :
  requestOk r ->
  0 <= qty <= BookRequest.quantityRequested r - BookRequest.quantityFulfilled r ->
  requestOk (BookRequest.fulfillPartial qty r)
  /\ BookRequest.quantityFulfilled (BookRequest.fulfillPartial qty r)
     = BookRequest.quantityFulfilled r + qty
  /\ BookRequest.quantityRequested (BookRequest.fulfillPartial qty r)
     = BookRequest.quantityRequested r.
Proof.
  intros [Hr Hf] Hq.
  assert (E : CInt.add (BookRequest.quantityFulfilled r) qty
              = BookRequest.quantityFulfilled r + qty).
  { apply add_exact. unfold CInt.in_range, CInt.int_min, CInt.int_max in *. lia. }
  unfold requestOk, BookRequest.fulfillPartial. simpl. rewrite E.
  unfold CInt.in_range, CInt.int_min, CInt.int_max in *.
  repeat split; lia.
Qed.

(** ** The shared block [grant] *)

Lemma allocateBooks_true_inv isbn a now inv inv' :
  Complete.BookInventory.allocateBooks isbn a now inv = (true, inv') ->
  0 < a < 1000000
  /\ exists b s,
       InventoryState.stock inv !! isbn = Some (b, s) /\ a <= s
       /\ inv' = InventoryState.mk
                   (<[isbn := (b, CInt.sub s a)]> (InventoryState.stock inv))
                   (InventoryState.categoryIndex inv)
                   (InventoryState.transactionLog inv
                      ++ [Transaction.mk isbn a "ALLOCATE" now]).
Proof.
  unfold Complete.BookInventory.allocateBooks, InventoryState.allocateChecked.
  destruct (Complete.Validator.isValidQuantity a) eqn:V; simpl; [|discriminate].
  apply isValidQuantity_spec in V. intros H. split; [assumption|].
  destruct (InventoryState.stock inv !! isbn) as [[b s]|]; [|discriminate].
  destruct (Z.ltb_spec s a); [discriminate|].
  injection H as <-. exists b, s. repeat split. assumption.
Qed.

(** [grant] either changes nothing or does its three updates. *)
Lemma grant_cases i j isbn a now w :
  Complete.grant i j isbn a now w = w
  \/ exists inst inv',
       Complete.institutions w !! i = Some inst
       /\ Complete.BookInventory.allocateBooks isbn a now (Complete.inventory w)
          = (true, inv')
       /\ Complete.grant i j isbn a now w
          = Complete.mkWorld inv'
              (<[i := Institution.fulfillRequest j a
                        (Institution.receiveBooks isbn a inst)]>
                 (Complete.institutions w))
              (Complete.LoanManagement.issueBookLoan isbn
                 (Institution.institutionId inst) a now (Complete.loanMgr w)).
Proof.
  unfold Complete.grant.
  destruct (Complete.institutions w !! i) as [inst|]; [|left; reflexivity].
  destruct (Complete.BookInventory.allocateBooks isbn a now (Complete.inventory w))
    as [[|] inv'] eqn:E; [|left; reflexivity].
  right. exists inst, inv'. repeat split.
Qed.

Lemma requestAt_insert (i j i' j' : nat) a isbn inst
    (insts : list Institution.t) :
  insts !! i = Some inst ->
  (inst' ← <[i := Institution.fulfillRequest j a
                     (Institution.receiveBooks isbn a inst)]> insts !! i';
   Institution.requests inst' !! j')
  = if decide (i' = i /\ j' = j)
    then BookRequest.fulfillPartial a <$> (Institution.requests inst !! j)
    else inst' ← insts !! i'; Institution.requests inst' !! j'.
Proof.
  intros Hi. destruct (decide (i' = i)) as [->|Hne].
  - rewrite list_lookup_insert_eq by (eapply lookup_lt_Some; eassumption).
    simpl. destruct (decide (j' = j)) as [->|Hnej].
    + rewrite decide_True by tauto. apply list_lookup_alter_eq.
    + rewrite decide_False by tauto. rewrite Hi. simpl.
      apply list_lookup_alter_ne. congruence.
  - rewrite decide_False by tauto.
    rewrite list_lookup_insert_ne by congruence. reflexivity.
Qed.

(** A grant touches one request only. *)
Lemma grant_requestAt_other i j isbn a now w i' j' :
  ~ (i' = i /\ j' = j) ->
  Complete.requestAt i' j' (Complete.grant i j isbn a now w)
  = Complete.requestAt i' j' w.
Proof.
  intros Hne.
  destruct (grant_cases i j isbn a now w) as [->|(inst & inv' & Hi & _ & ->)];
    [reflexivity|].
  unfold Complete.requestAt. simpl.
  rewrite (requestAt_insert i j i' j' a isbn inst _ Hi).
  rewrite decide_False by assumption. reflexivity.
Qed.

(** A grant of at most what its request still needs keeps the request
    invariant. *)
Lemma grant_institutionsOk i j isbn a now w :
  institutionsOk (Complete.institutions w) ->
  (forall r, Complete.requestAt i j w = Some r ->
             a <= BookRequest.quantityRequested r
                  - BookRequest.quantityFulfilled r) ->
  institutionsOk (Complete.institutions (Complete.grant i j isbn a now w)).
Proof.
  intros Hok Ha.
  destruct (grant_cases i j isbn a now w) as [->|(inst & inv' & Hi & Hal & ->)];
    [assumption|].
  apply allocateBooks_true_inv in Hal as [Hpos _].
  simpl. apply Forall_insert; [assumption|].
  simpl. apply Forall_alter.
  - unfold institutionsOk in Hok. rewrite Forall_lookup in Hok.
    apply (Hok i inst Hi).
  - intros r Hj Hr. apply fulfillPartial_ok; [assumption|].
    split; [lia|]. apply Ha. unfold Complete.requestAt. rewrite Hi. assumption.
Qed.

(** ** The pending requests a strategy collects *)

Lemma getPendingRequests_elem j r inst :
  (j, r) ∈ Institution.getPendingRequests inst
  <-> Institution.requests inst !! j = Some r /\ BookRequest.isPending r = true.
Proof.
  unfold Institution.getPendingRequests.
  rewrite list_elem_of_filter. simpl. rewrite elem_of_lookup_imap.
  split.
  - intros (Hp & j' & r' & E & Hl). injection E as -> ->. tauto.
  - intros (Hl & Hp). split; [assumption|]. exists j, r. tauto.
Qed.

Lemma getPendingRequests_NoDup inst :
  NoDup (fst <$> Institution.getPendingRequests inst).
Proof.
  unfold Institution.getPendingRequests.
  eapply sublist_NoDup; [|apply fmap_sublist, sublist_filter].
  rewrite fmap_imap.
  rewrite (imap_ext _ (fun j _ => j)) by reflexivity.
  rewrite (imap_seq_0 (Institution.requests inst) (fun j => j)).
  rewrite list_fmap_id. apply NoDup_seq.
Qed.

Lemma pendingFrom_cons k inst insts :
  pendingFrom k (inst :: insts)
  = ((fun p => (k, fst p, snd p)) <$> Institution.getPendingRequests inst)
    ++ pendingFrom (S k) insts.
Proof.
  unfold pendingFrom. rewrite imap_cons. simpl. f_equal.
  - rewrite Nat.add_0_r. reflexivity.
  - f_equal. apply imap_ext. intros i x _. simpl.
    apply map_ext. intros p. repeat f_equal. lia.
Qed.

Lemma pendingFrom_elem k insts i j r :
  (i, j, r) ∈ pendingFrom k insts
  <-> (k <= i)%nat
      /\ exists inst, insts !! (i - k)%nat = Some inst
                      /\ Institution.requests inst !! j = Some r
                      /\ BookRequest.isPending r = true.
Proof.
  revert k. induction insts as [|inst insts IH]; intros k.
  - unfold pendingFrom. simpl. split.
    + intros H. apply elem_of_nil in H. tauto.
    + intros (_ & inst & H & _). discriminate.
  - rewrite pendingFrom_cons, elem_of_app, list_elem_of_fmap, IH. split.
    + intros [([j' r'] & E & Hp)|(Hk & inst' & Hl & Hr)].
      * injection E as -> -> ->. apply getPendingRequests_elem in Hp.
        split; [lia|]. exists inst. rewrite Nat.sub_diag. tauto.
      * split; [lia|]. exists inst'.
        replace (i - k)%nat with (S (i - S k)) by lia. tauto.
    + intros (Hk & inst' & Hl & Hr).
      destruct (decide (i = k)) as [->|Hne].
      * left. exists (j, r). split; [reflexivity|].
        rewrite Nat.sub_diag in Hl. injection Hl as <-.
        apply getPendingRequests_elem. assumption.
      * right. split; [lia|]. exists inst'.
        replace (i - k)%nat with (S (i - S k)) in Hl by lia. tauto.
Qed.

Lemma pendingFrom_NoDup k insts : NoDup (fst <$> pendingFrom k insts).
Proof.
  revert k. induction insts as [|inst insts IH]; intros k.
  - constructor.
  - rewrite pendingFrom_cons, fmap_app. apply NoDup_app. split; [|split].
    + rewrite <- list_fmap_compose.
      rewrite (list_fmap_ext _ ((fun j => (k, j)) ∘ fst))
        by (intros ? [? ?] ?; reflexivity).
      rewrite list_fmap_compose.
      apply NoDup_fmap_2; [|apply getPendingRequests_NoDup].
      intros a b E. injection E. tauto.
    + intros [i j] H1 H2.
      apply list_elem_of_fmap in H1 as ([[i1 j1] r1] & E1 & H1).
      apply list_elem_of_fmap in H2 as ([[i2 j2] r2] & E2 & H2).
      simpl in *. injection E1 as -> ->. injection E2 as -> ->.
      apply list_elem_of_fmap in H1 as ([j' r'] & E & _).
      injection E as -> -> ->.
      apply pendingFrom_elem in H2 as [Hk _]. lia.
    + apply IH.
Qed.

(** What the collecting loops yield: exactly the requests that are
    pending, each once, under its position. *)
Lemma pendingRequests_elem insts i j r :
  (i, j, r) ∈ Complete.pendingRequests insts
  <-> exists inst, insts !! i = Some inst
                   /\ Institution.requests inst !! j = Some r
                   /\ BookRequest.isPending r = true.
Proof.
  change (Complete.pendingRequests insts) with (pendingFrom 0 insts).
  rewrite pendingFrom_elem, Nat.sub_0_r. split.
  - intros [_ H]. exact H.
  - intros H. split; [lia|exact H].
Qed.

Lemma pendingRequests_NoDup insts :
  NoDup (fst <$> Complete.pendingRequests insts).
Proof. apply (pendingFrom_NoDup 0). Qed.

Lemma institutionsOk_requestAt w i j r :
  institutionsOk (Complete.institutions w) ->
  Complete.requestAt i j w = Some r -> requestOk r.
Proof.
  unfold institutionsOk, Complete.requestAt. intros Hok H.
  destruct (Complete.institutions w !! i) as [inst|] eqn:Hi; [|discriminate].
  simpl in H. rewrite Forall_lookup in Hok.
  specialize (Hok i inst Hi). rewrite Forall_lookup in Hok.
  apply (Hok j r H).
Qed.

(** ** A run of grants, each bounded by what its request still needs *)

Section BoundedGrants.

Variable X : Type.
Variable inst req : X -> nat.
Variable bound : X -> Z.
Variable step : X -> Complete.World -> Complete.World.
Variable now : Z.

(** Every step is nothing or one grant to its own request, of at most
    [bound]. *)
Hypothesis step_grant :
  forall x w,
    step x w = w
    \/ exists isbn a,
         a <= bound x
         /\ step x w = Complete.grant (inst x) (req x) isbn a now w.

Lemma step_requestAt_other x w i j :
  ~ (i = inst x /\ j = req x) ->
  Complete.requestAt i j (step x w) = Complete.requestAt i j w.
Proof.
  intros Hne. destruct (step_grant x w) as [->|(isbn & a & _ & ->)];
    [reflexivity|].
  apply grant_requestAt_other. assumption.
Qed.

Lemma steps_requestAt_other xs w i j :
  (i, j) ∉ (fun x => (inst x, req x)) <$> xs ->
  Complete.requestAt i j (fold_left (fun w x => step x w) xs w)
  = Complete.requestAt i j w.
Proof.
  revert w. induction xs as [|x xs IH]; intros w Hnot; [reflexivity|].
  simpl. rewrite fmap_cons, not_elem_of_cons in Hnot. destruct Hnot as [Hx Hxs].
  rewrite IH by assumption. apply step_requestAt_other.
  intros [-> ->]. apply Hx. reflexivity.
Qed.

Lemma steps_institutionsOk xs w :
  institutionsOk (Complete.institutions w) ->
  NoDup ((fun x => (inst x, req x)) <$> xs) ->
  (forall x, x ∈ xs ->
     forall r, Complete.requestAt (inst x) (req x) w = Some r ->
               bound x <= BookRequest.quantityRequested r
                          - BookRequest.quantityFulfilled r) ->
  institutionsOk
    (Complete.institutions (fold_left (fun w x => step x w) xs w)).
Proof.
  revert w. induction xs as [|x xs IH]; intros w Hok Hnd Hb; [assumption|].
  simpl. rewrite fmap_cons, NoDup_cons in Hnd. destruct Hnd as [Hx Hnd].
  apply IH; [|assumption|].
  - destruct (step_grant x w) as [->|(isbn & a & Ha & ->)]; [assumption|].
    apply grant_institutionsOk; [assumption|].
    intros r Hr. specialize (Hb x ltac:(left) r Hr). lia.
  - intros y Hy r Hr. apply (Hb y); [right; assumption|].
    rewrite <- Hr. symmetry. apply step_requestAt_other.
    intros [E1 E2]. apply Hx. rewrite <- E1, <- E2.
    apply (list_elem_of_fmap_2 (fun x => (inst x, req x))). assumption.
Qed.

End BoundedGrants.

(** ** The three cycles of part_000 keep the request invariant *)

Lemma processItem_grant now it w :
  Complete.PriorityBasedDistribution.processItem now it w = w
  \/ exists isbn a,
       a <= Complete.PriorityBasedDistribution.needed it
       /\ Complete.PriorityBasedDistribution.processItem now it w
          = Complete.grant (Complete.PriorityBasedDistribution.inst it)
              (Complete.PriorityBasedDistribution.req it) isbn a now w.
Proof.
  unfold Complete.PriorityBasedDistribution.processItem.
  destruct (_ <=? 0); [left; reflexivity|].
  right. eexists _, _. split; [|reflexivity]. lia.
Qed.

Lemma pendingItems_positions insts :
  (fun it => (Complete.PriorityBasedDistribution.inst it,
              Complete.PriorityBasedDistribution.req it))
    <$> Complete.PriorityBasedDistribution.pendingItems insts
  = fst <$> Complete.pendingRequests insts.
Proof.
  unfold Complete.PriorityBasedDistribution.pendingItems.
  change (map ?f ?l) with (f <$> l). rewrite <- list_fmap_compose.
  apply list_fmap_ext. intros ? [[i j] r] _. reflexivity.
Qed.

(** An item of the queue is the request at its position, with what that
    request still needs. *)
Lemma pendingItems_elem it w :
  it ∈ Complete.PriorityBasedDistribution.pendingItems (Complete.institutions w) ->
  Complete.requestAt (Complete.PriorityBasedDistribution.inst it)
    (Complete.PriorityBasedDistribution.req it) w
  = Some (Complete.PriorityBasedDistribution.request it)
  /\ BookRequest.isPending (Complete.PriorityBasedDistribution.request it) = true
  /\ Complete.PriorityBasedDistribution.needed it
     = BookRequest.getRemainingQuantity
         (Complete.PriorityBasedDistribution.request it).
Proof.
  unfold Complete.PriorityBasedDistribution.pendingItems.
  change (map ?f ?l) with (f <$> l). intros H.
  apply list_elem_of_fmap in H as ([[i j] r] & -> & H). simpl.
  apply pendingRequests_elem in H as (inst & Hi & Hj & Hp).
  unfold Complete.requestAt. rewrite Hi. simpl. tauto.
Qed.

Lemma priority_cycle_ok now w w' :
  institutionsOk (Complete.institutions w) ->
  Complete.PriorityBasedDistribution.distribute now w w' ->
  institutionsOk (Complete.institutions w').
Proof.
  intros Hok (order & [Hperm _] & ->).
  unfold Complete.PriorityBasedDistribution.processQueue.
  apply (steps_institutionsOk _ _ _ Complete.PriorityBasedDistribution.needed
           _ now (processItem_grant now)); [assumption| |].
  - rewrite <- Hperm, pendingItems_positions. apply pendingRequests_NoDup.
  - intros it Hit r Hr. rewrite <- Hperm in Hit.
    apply pendingItems_elem in Hit as (Hreq & _ & ->).
    rewrite Hreq in Hr. injection Hr as <-.
    rewrite remaining_exact; [lia|].
    eapply institutionsOk_requestAt; eassumption.
Qed.

Lemma remainingAt_exact w i j r :
  institutionsOk (Complete.institutions w) ->
  Complete.requestAt i j w = Some r ->
  Complete.remainingAt i j w
  = BookRequest.quantityRequested r - BookRequest.quantityFulfilled r.
Proof.
  intros Hok Hr. unfold Complete.remainingAt. rewrite Hr.
  apply remaining_exact. eapply institutionsOk_requestAt; eassumption.
Qed.

Lemma equal_serve_ok now isbn perInst needList w :
  institutionsOk (Complete.institutions w) ->
  institutionsOk
    (Complete.institutions
       (Complete.EqualDistribution.serve now isbn perInst needList w)).
Proof.
  unfold Complete.EqualDistribution.serve.
  revert w. induction needList as [|[i j] l IH]; intros w Hok; [assumption|].
  simpl. apply IH.
  destruct (0 <? Z.min perInst (Complete.remainingAt i j w)); [|assumption].
  apply grant_institutionsOk; [assumption|].
  intros r Hr. rewrite (remainingAt_exact w i j r Hok Hr). lia.
Qed.

Lemma equal_group_ok now isbn needList w :
  institutionsOk (Complete.institutions w) ->
  institutionsOk
    (Complete.institutions
       (Complete.EqualDistribution.distributeGroup now isbn needList w)).
Proof.
  intros Hok. unfold Complete.EqualDistribution.distributeGroup.
  destruct (_ || _); [assumption|].
  destruct (_ <=? 0); [assumption|].
  apply equal_serve_ok. assumption.
Qed.

Lemma equal_cycle_ok now w :
  institutionsOk (Complete.institutions w) ->
  institutionsOk
    (Complete.institutions (Complete.EqualDistribution.distribute now w)).
Proof.
  unfold Complete.EqualDistribution.distribute.
  generalize (Complete.EqualDistribution.needingMap (Complete.institutions w)).
  intros groups. revert w.
  induction groups as [|g groups IH]; intros w Hok; [assumption|].
  simpl. apply IH. apply equal_group_ok. assumption.
Qed.

(** *** The need map *)

Lemma mapPush_entries {A : Type} k (v : A) m :
  concat (snd <$> Complete.mapPush k v m) ≡ₚ concat (snd <$> m) ++ [v].
Proof.
  induction m as [|[k' vs] rest IH]; simpl; [reflexivity|].
  destruct (String.compare k k'); simpl.
  - rewrite <- !app_assoc. apply Permutation_app_head.
    apply Permutation_app_comm.
  - rewrite (Permutation_app_comm _ [v]). reflexivity.
  - rewrite IH. rewrite app_assoc. reflexivity.
Qed.

Lemma need_allocation_le available total need :
  Complete.NeedBasedDistribution.allocation available total need <= need
  \/ Complete.NeedBasedDistribution.allocation available total need = 0.
Proof.
  unfold Complete.NeedBasedDistribution.allocation.
  destruct (0 <? total); [left; lia|right; reflexivity].
Qed.

Lemma need_step_grant now isbn available total t w :
  (let allocate :=
     Complete.NeedBasedDistribution.allocation available total
       (Complete.NeedBasedDistribution.need t) in
   if 0 <? allocate
   then Complete.grant (Complete.NeedBasedDistribution.inst t)
          (Complete.NeedBasedDistribution.req t) isbn allocate now w
   else w) = w
  \/ exists isbn' a,
       a <= Complete.NeedBasedDistribution.need t
       /\ (let allocate :=
             Complete.NeedBasedDistribution.allocation available total
               (Complete.NeedBasedDistribution.need t) in
           if 0 <? allocate
           then Complete.grant (Complete.NeedBasedDistribution.inst t)
                  (Complete.NeedBasedDistribution.req t) isbn allocate now w
           else w)
          = Complete.grant (Complete.NeedBasedDistribution.inst t)
              (Complete.NeedBasedDistribution.req t) isbn' a now w.
Proof.
  cbv zeta.
  destruct (Z.ltb_spec 0
              (Complete.NeedBasedDistribution.allocation available total
                 (Complete.NeedBasedDistribution.need t))); [|left; reflexivity].
  right. eexists _, _. split; [|reflexivity].
  destruct (need_allocation_le available total
              (Complete.NeedBasedDistribution.need t)); lia.
Qed.

(** The tuples of the need map: the pending requests with a positive
    remaining quantity, each once. *)
Lemma needMap_entries insts :
  concat (snd <$> Complete.NeedBasedDistribution.needMap insts)
  ≡ₚ omap (fun p =>
             if 0 <? BookRequest.getRemainingQuantity (snd p)
             then Some (Complete.NeedBasedDistribution.mkNeed
                          (fst (fst p)) (snd (fst p))
                          (BookRequest.getRemainingQuantity (snd p)))
             else None)
          (Complete.pendingRequests insts).
Proof.
  unfold Complete.NeedBasedDistribution.needMap.
  generalize (Complete.pendingRequests insts). intros l.
  rewrite <- (app_nil_l (omap _ l)).
  change (@nil Complete.NeedBasedDistribution.Need)
    with (concat (snd <$> (@nil (string * list Complete.NeedBasedDistribution.Need)))).
  generalize (@nil (string * list Complete.NeedBasedDistribution.Need)).
  induction l as [|p l IH]; intros m; simpl.
  - rewrite app_nil_r. reflexivity.
  - rewrite IH. destruct (0 <? BookRequest.getRemainingQuantity (snd p)); simpl.
    + rewrite mapPush_entries, <- app_assoc. reflexivity.
    + reflexivity.
Qed.

Lemma needMap_positions_NoDup insts :
  NoDup ((fun t => (Complete.NeedBasedDistribution.inst t,
                    Complete.NeedBasedDistribution.req t))
           <$> concat (snd <$> Complete.NeedBasedDistribution.needMap insts)).
Proof.
  rewrite needMap_entries.
  eapply sublist_NoDup; [apply (pendingRequests_NoDup insts)|].
  generalize (Complete.pendingRequests insts). intros l.
  induction l as [|[[i j] r] l IH]; simpl; [constructor|].
  destruct (0 <? BookRequest.getRemainingQuantity r); simpl.
  - apply sublist_skip. assumption.
  - apply sublist_cons. assumption.
Qed.

Lemma needMap_elem insts t :
  t ∈ concat (snd <$> Complete.NeedBasedDistribution.needMap insts) ->
  exists r,
    (Complete.NeedBasedDistribution.inst t,
     Complete.NeedBasedDistribution.req t, r) ∈ Complete.pendingRequests insts
    /\ Complete.NeedBasedDistribution.need t = BookRequest.getRemainingQuantity r
    /\ 0 < Complete.NeedBasedDistribution.need t.
Proof.
  rewrite needMap_entries. rewrite list_elem_of_omap.
  intros ([[i j] r] & Hin & H). simpl in H.
  destruct (Z.ltb_spec 0 (BookRequest.getRemainingQuantity r)); [|discriminate].
  injection H as <-. simpl. exists r. tauto.
Qed.

Lemma need_groups_ok now groups w :
  institutionsOk (Complete.institutions w) ->
  NoDup ((fun t => (Complete.NeedBasedDistribution.inst t,
                    Complete.NeedBasedDistribution.req t))
           <$> concat (snd <$> groups)) ->
  (forall t, t ∈ concat (snd <$> groups) ->
     forall r, Complete.requestAt (Complete.NeedBasedDistribution.inst t)
                 (Complete.NeedBasedDistribution.req t) w = Some r ->
               Complete.NeedBasedDistribution.need t
               <= BookRequest.quantityRequested r
                  - BookRequest.quantityFulfilled r) ->
  institutionsOk
    (Complete.institutions
       (fold_left
          (fun w g =>
             Complete.NeedBasedDistribution.distributeGroup now (fst g) (snd g) w)
          groups w)).
Proof.
  revert w. induction groups as [|[isbn needs] groups IH]; intros w Hok Hnd Hb;
    [assumption|].
  simpl in *. rewrite fmap_app in Hnd. apply NoDup_app in Hnd as (Hn1 & Hdis & Hn2).
  unfold Complete.NeedBasedDistribution.distributeGroup at 2.
  destruct (_ <=? 0).
  { apply IH; [assumption..|]. intros t Ht. apply Hb, elem_of_app. tauto. }
  unfold Complete.NeedBasedDistribution.serve.
  apply IH; [|assumption|].
  - apply (steps_institutionsOk _ _ _ Complete.NeedBasedDistribution.need
             _ now (need_step_grant now isbn _ _)); [assumption..|].
    intros t Ht. apply Hb, elem_of_app. tauto.
  - intros t Ht r Hr. apply (Hb t); [apply elem_of_app; tauto|].
    rewrite <- Hr. symmetry.
    apply (steps_requestAt_other _ _ _ Complete.NeedBasedDistribution.need
             _ now (need_step_grant now isbn _ _)).
    intros Hin. apply (Hdis _ Hin).
    apply (list_elem_of_fmap_2
             (fun t => (Complete.NeedBasedDistribution.inst t,
                        Complete.NeedBasedDistribution.req t))).
    assumption.
Qed.

Lemma need_cycle_ok now w :
  institutionsOk (Complete.institutions w) ->
  institutionsOk
    (Complete.institutions (Complete.NeedBasedDistribution.distribute now w)).
Proof.
  intros Hok. unfold Complete.NeedBasedDistribution.distribute.
  apply need_groups_ok; [assumption|apply needMap_positions_NoDup|].
  intros t Ht r Hr.
  apply needMap_elem in Ht as (r' & Hin & -> & _).
  apply pendingRequests_elem in Hin as (inst & Hi & Hj & _).
  unfold Complete.requestAt in Hr. rewrite Hi in Hr. simpl in Hr.
  rewrite Hj in Hr. injection Hr as <-.
  rewrite remaining_exact; [lia|].
  unfold institutionsOk in Hok. rewrite Forall_lookup in Hok.
  specialize (Hok _ _ Hi). rewrite Forall_lookup in Hok. apply (Hok _ _ Hj).
Qed.

(** C4, as the source has it.  In part_000, when every request starts
    with [0 <= fulfilled <= requested] (and an [int] as requested
    quantity), one distribution cycle under each of the three strategies
    ends with the same bounds on every request, whatever the pop order
    of the priority queue.  [fulfillPartial] keeps the bounds when the
    quantity is between 0 and what the request still needs, and then adds
    exactly that quantity. *)
Theorem fulfilled_at_most_requested now w :
  institutionsOk (Complete.institutions w) ->
  (forall w', Complete.PriorityBasedDistribution.distribute now w w' ->
              institutionsOk (Complete.institutions w'))
  /\ institutionsOk
       (Complete.institutions (Complete.NeedBasedDistribution.distribute now w))
  /\ institutionsOk
       (Complete.institutions (Complete.EqualDistribution.distribute now w))
  /\ (forall r qty,
        requestOk r ->
        0 <= qty <= BookRequest.quantityRequested r
                    - BookRequest.quantityFulfilled r ->
        requestOk (BookRequest.fulfillPartial qty r)
        /\ BookRequest.quantityFulfilled (BookRequest.fulfillPartial qty r)
           = BookRequest.quantityFulfilled r + qty).
Proof.
  intros Hok. split; [|split; [|split]].
  - intros w'. apply priority_cycle_ok. assumption.
  - apply need_cycle_ok. assumption.
  - apply equal_cycle_ok. assumption.
  - intros r qty Hr Hq.
    destruct (fulfillPartial_ok qty r Hr Hq) as (H1 & H2 & _). tauto.
Qed.

Lemma precedenceInstitutions_ok : institutionsOk precedenceInstitutions.
Proof.
  repeat constructor; simpl; try lia; vm_compute; discriminate.
Qed.

Lemma fulfilled_at_most_requested_witness :
  institutionsOk
    (Complete.institutions
       (Complete.EqualDistribution.distribute 1 precedenceWorld)).
Proof.
  apply (fulfilled_at_most_requested 1 precedenceWorld).
  exact precedenceInstitutions_ok.
Defined.

(** C4 as stated fails.  [fulfillPartial] takes any quantity: 11 credited
    to a request for 10 leaves it with 11 fulfilled.  And the Equal cycle
    of final.cpp hands out the per-institution share without looking at
    the request: with 100 copies and one request for 10, the request ends
    with 100 fulfilled. *)
Lemma fulfilled_can_exceed_requested :
  outcome (BookRequest.fulfillPartial 11 (sampleRequest "B1" 10 MEDIUM))
  = (11, FULFILLED)
  /\ outcomes (Final.institutions
                 (Final.EqualDistribution.distribute 1 smallRequestWorldFinal))
     = [[(100, FULFILLED)]].
Proof. vm_compute. split; reflexivity. Qed.

(** ** The stock under grants *)

Lemma grant_stockOk i j isbn a now w :
  stockOk (Complete.inventory w) ->
  stockOk (Complete.inventory (Complete.grant i j isbn a now w)).
Proof.
  intros Hok.
  destruct (grant_cases i j isbn a now w) as [->|(inst & inv' & _ & Hal & ->)];
    [assumption|].
  apply allocateBooks_true_inv in Hal as (Ha & b & s & Hs & Hle & ->).
  simpl. intros isbn' b' s' H. simpl in H.
  destruct (decide (isbn' = isbn)) as [->|Hne].
  - rewrite lookup_insert_eq in H. injection H as <- <-.
    specialize (Hok _ _ _ Hs).
    rewrite sub_exact; unfold CInt.in_range, CInt.int_min, CInt.int_max in *; lia.
  - rewrite lookup_insert_ne in H by congruence. eapply Hok. eassumption.
Qed.

Lemma stockOk_in_range isbn w :
  stockOk (Complete.inventory w) ->
  0 <= Complete.getAvailable isbn w <= CInt.int_max.
Proof.
  intros Hok. unfold Complete.getAvailable, InventoryState.getAvailableQuantity.
  destruct (InventoryState.stock (Complete.inventory w) !! isbn) as [[b s]|] eqn:E.
  - eapply Hok. eassumption.
  - unfold CInt.int_max. lia.
Qed.


(** A grant of a quantity that is positive, below 1,000,000 and in stock
    goes through: the stock goes down by it, the request is credited with
    it, and one loan of that quantity is appended. *)
Lemma grant_success i j isbn a now w inst :
  stockOk (Complete.inventory w) ->
  Complete.institutions w !! i = Some inst ->
  0 < a < 1000000 ->
  a <= Complete.getAvailable isbn w ->
  let w' := Complete.grant i j isbn a now w in
  Complete.getAvailable isbn w' = Complete.getAvailable isbn w - a
  /\ Complete.requestAt i j w'
     = BookRequest.fulfillPartial a <$> Complete.requestAt i j w
  /\ Complete.loanMgr w'
     = Complete.LoanManagement.issueBookLoan isbn
         (Institution.institutionId inst) a now (Complete.loanMgr w).
Proof.
  intros Hok Hi Ha Hle. cbv zeta.
  pose proof (stockOk_in_range isbn w Hok) as Hr.
  destruct (allocateBooks_complete_spec isbn a now (Complete.inventory w))
    as (H1 & H2 & _); [lia| |].
  { unfold Complete.getAvailable in Hr.
    unfold CInt.in_range, CInt.int_min, CInt.int_max in *. lia. }
  assert (Ht : fst (Complete.BookInventory.allocateBooks isbn a now
                      (Complete.inventory w)) = true)
    by (apply H1; unfold Complete.getAvailable in Hle; lia).
  destruct (H2 Ht) as [Hav _].
  unfold Complete.grant. rewrite Hi.
  destruct (Complete.BookInventory.allocateBooks isbn a now (Complete.inventory w))
    as [ok inv']. simpl in Ht, Hav. subst ok.
  unfold Complete.getAvailable, Complete.requestAt. simpl.
  split; [assumption|]. split; [|reflexivity].
  rewrite (requestAt_insert i j i j a isbn inst _ Hi).
  rewrite decide_True by tauto. rewrite Hi. reflexivity.
Qed.

(** ** Priority precedence *)

(** In a pop order, a tuple of higher priority comes before one of lower
    priority. *)
Lemma popOrder_precedes order hi lo :
  StronglySorted
    (fun a b => Complete.PriorityBasedDistribution.cmp a b = false) order ->
  hi ∈ order -> lo ∈ order ->
  Complete.PriorityBasedDistribution.cmp lo hi = true ->
  exists before after, order = before ++ hi :: after /\ lo ∈ after.
Proof.
  intros Hs. induction Hs as [|x l Hs IH Hx]; intros Hhi Hlo Hc.
  - apply elem_of_nil in Hhi. tauto.
  - rewrite Forall_forall in Hx.
    apply elem_of_cons in Hhi as [->|Hhi].
    + exists [], l. split; [reflexivity|].
      apply elem_of_cons in Hlo as [->|Hlo]; [|assumption].
      unfold Complete.PriorityBasedDistribution.cmp in Hc. lia.
    + apply elem_of_cons in Hlo as [->|Hlo].
      * specialize (Hx hi Hhi). congruence.
      * destruct (IH Hhi Hlo Hc) as (before & after & -> & Hin).
        exists (x :: before), after. split; [reflexivity|assumption].
Qed.

Lemma processQueue_stockOk now order w :
  stockOk (Complete.inventory w) ->
  stockOk (Complete.inventory
             (Complete.PriorityBasedDistribution.processQueue now order w)).
Proof.
  unfold Complete.PriorityBasedDistribution.processQueue.
  revert w. induction order as [|it order IH]; intros w Hok; [assumption|].
  simpl. apply IH.
  destruct (processItem_grant now it w) as [->|(isbn & a & _ & ->)];
    [assumption|].
  apply grant_stockOk. assumption.
Qed.

(** C3, as the source has it.  In part_000, let the requests be within
    their bounds and the stock counts non-negative [int]s, and take any
    order in which the priority queue may hand out the pending requests.
    A pending request [hi] of higher priority than a pending request [lo]
    is popped first.  When [hi] has been served, [lo] is still as it was
    before the cycle; and if the quantity [min(needed, available)] is
    positive and below 1,000,000, [hi] is credited with exactly that
    quantity and the stock goes down by it.  In the example (100 copies,
    A CRITICAL asks for 60, B LOW asks for 60) every run of the cycle, in
    part_000 and in final.cpp, ends with A at 60 FULFILLED and B at 40
    PARTIALLY_FULFILLED. *)
Theorem priority_precedence now w order hi lo :
  institutionsOk (Complete.institutions w) ->
  stockOk (Complete.inventory w) ->
  Complete.PriorityBasedDistribution.popOrder
    (Complete.PriorityBasedDistribution.pendingItems (Complete.institutions w))
    order ->
  hi ∈ Complete.PriorityBasedDistribution.pendingItems (Complete.institutions w) ->
  lo ∈ Complete.PriorityBasedDistribution.pendingItems (Complete.institutions w) ->
  Complete.PriorityBasedDistribution.cmp lo hi = true ->
  (exists before after,
     order = before ++ hi :: after /\ lo ∈ after
     /\ let w1 := Complete.PriorityBasedDistribution.processQueue now before w in
        let w2 := Complete.PriorityBasedDistribution.processItem now hi w1 in
        let isbn := BookRequest.isbn
                      (Complete.PriorityBasedDistribution.request hi) in
        let a := Z.min (Complete.PriorityBasedDistribution.needed hi)
                       (Complete.getAvailable isbn w1) in
        Complete.PriorityBasedDistribution.processQueue now order w
        = Complete.PriorityBasedDistribution.processQueue now after w2
        /\ Complete.requestAt (Complete.PriorityBasedDistribution.inst lo)
             (Complete.PriorityBasedDistribution.req lo) w2
           = Some (Complete.PriorityBasedDistribution.request lo)
        /\ (0 < a < 1000000 ->
            Complete.requestAt (Complete.PriorityBasedDistribution.inst hi)
              (Complete.PriorityBasedDistribution.req hi) w2
            = Some (BookRequest.fulfillPartial a
                      (Complete.PriorityBasedDistribution.request hi))
            /\ BookRequest.quantityFulfilled
                 (BookRequest.fulfillPartial a
                    (Complete.PriorityBasedDistribution.request hi))
               = BookRequest.quantityFulfilled
                   (Complete.PriorityBasedDistribution.request hi) + a
            /\ Complete.getAvailable isbn w2
               = Complete.getAvailable isbn w1 - a))
  /\ (forall w',
        Complete.PriorityBasedDistribution.distribute now precedenceWorld w' ->
        outcomes (Complete.institutions w')
        = [[(40, PARTIALLY_FULFILLED)]; [(60, FULFILLED)]])
  /\ (forall w',
        Final.PriorityBasedDistribution.distribute now precedenceWorldFinal w' ->
        outcomes (Final.institutions w')
        = [[(40, PARTIALLY_FULFILLED)]; [(60, FULFILLED)]]).
Proof.
  intros Hok Hst [Hperm Hsorted] Hhi Hlo Hc. split; [|split].
  - assert (Hhi' := Hhi). assert (Hlo' := Hlo).
    rewrite Hperm in Hhi', Hlo'.
    destruct (popOrder_precedes order hi lo Hsorted Hhi' Hlo' Hc)
      as (before & after & -> & Hin).
    exists before, after. split; [reflexivity|]. split; [assumption|].
    cbv zeta.
    assert (Hnd : NoDup ((fun it => (Complete.PriorityBasedDistribution.inst it,
                                     Complete.PriorityBasedDistribution.req it))
                           <$> (before ++ hi :: after))).
    { rewrite <- Hperm, pendingItems_positions. apply pendingRequests_NoDup. }
    rewrite fmap_app, fmap_cons in Hnd.
    apply NoDup_app in Hnd as (_ & Hdis & Hnd).
    apply NoDup_cons in Hnd as [Hhi_after _].
    destruct (pendingItems_elem hi w Hhi) as (Hrh & _ & Hnh).
    destruct (pendingItems_elem lo w Hlo) as (Hrl & _ & _).
    set (w1 := Complete.PriorityBasedDistribution.processQueue now before w).
    assert (Hh1 : Complete.requestAt (Complete.PriorityBasedDistribution.inst hi)
                    (Complete.PriorityBasedDistribution.req hi) w1
                  = Some (Complete.PriorityBasedDistribution.request hi)).
    { rewrite <- Hrh. subst w1.
      apply (steps_requestAt_other _ _ _ Complete.PriorityBasedDistribution.needed
               _ now (processItem_grant now)).
      intros Hb. apply (Hdis _ Hb). left. }
    assert (Hl1 : Complete.requestAt (Complete.PriorityBasedDistribution.inst lo)
                    (Complete.PriorityBasedDistribution.req lo) w1
                  = Some (Complete.PriorityBasedDistribution.request lo)).
    { rewrite <- Hrl. subst w1.
      apply (steps_requestAt_other _ _ _ Complete.PriorityBasedDistribution.needed
               _ now (processItem_grant now)).
      intros Hb. apply (Hdis _ Hb). right.
      apply (list_elem_of_fmap_2
               (fun it => (Complete.PriorityBasedDistribution.inst it,
                           Complete.PriorityBasedDistribution.req it))).
      assumption. }
    assert (Hne : ~ (Complete.PriorityBasedDistribution.inst lo
                     = Complete.PriorityBasedDistribution.inst hi
                     /\ Complete.PriorityBasedDistribution.req lo
                        = Complete.PriorityBasedDistribution.req hi)).
    { intros [E1 E2]. apply Hhi_after. rewrite <- E1, <- E2.
      apply (list_elem_of_fmap_2
               (fun it => (Complete.PriorityBasedDistribution.inst it,
                           Complete.PriorityBasedDistribution.req it))).
      assumption. }
    split; [|split].
    + unfold Complete.PriorityBasedDistribution.processQueue.
      rewrite fold_left_app. reflexivity.
    + rewrite <- Hl1.
      apply (step_requestAt_other _ _ _ Complete.PriorityBasedDistribution.needed
               _ now (processItem_grant now)).
      assumption.
    + intros Ha.
      pose proof (processQueue_stockOk now before w Hst) as Hst1.
      fold w1 in Hst1.
      assert (Hrok : requestOk (Complete.PriorityBasedDistribution.request hi))
        by (eapply institutionsOk_requestAt; eassumption).
      unfold Complete.PriorityBasedDistribution.processItem.
      destruct (Z.leb_spec
                  (Complete.getAvailable
                     (BookRequest.isbn
                        (Complete.PriorityBasedDistribution.request hi)) w1) 0);
        [lia|].
      unfold Complete.requestAt in Hh1.
      destruct (Complete.institutions w1
                  !! Complete.PriorityBasedDistribution.inst hi)
        as [inst|] eqn:Hi; [|discriminate].
      destruct (grant_success (Complete.PriorityBasedDistribution.inst hi)
                  (Complete.PriorityBasedDistribution.req hi)
                  (BookRequest.isbn (Complete.PriorityBasedDistribution.request hi))
                  (Z.min (Complete.PriorityBasedDistribution.needed hi)
                     (Complete.getAvailable
                        (BookRequest.isbn
                           (Complete.PriorityBasedDistribution.request hi)) w1))
                  now w1 inst Hst1 Hi Ha ltac:(lia)) as (G1 & G2 & _).
      split; [|split].
      * rewrite G2. unfold Complete.requestAt. rewrite Hi. simpl.
        simpl in Hh1. rewrite Hh1. reflexivity.
      * apply fulfillPartial_ok; [assumption|].
        rewrite <- (remaining_exact _ Hrok), <- Hnh. lia.
      * assumption.
  - intros w' (order' & [Hp Hs] & ->).
    apply Permutation_length_2_inv in Hp as [-> | ->].
    + exfalso. apply StronglySorted_inv in Hs as [_ Hf].
      apply Forall_inv in Hf. vm_compute in Hf. discriminate.
    + vm_compute. reflexivity.
  - intros w' (order' & [Hp Hs] & ->).
    apply Permutation_length_2_inv in Hp as [-> | ->].
    + exfalso. apply StronglySorted_inv in Hs as [_ Hf].
      apply Forall_inv in Hf. vm_compute in Hf. discriminate.
    + vm_compute. reflexivity.
Qed.

Lemma stockOf_ok isbn q : 0 <= q <= CInt.int_max -> stockOk (stockOf isbn q).
Proof.
  intros Hq isbn' b s H. unfold stockOf, InventoryState.addChecked in H.
  simpl in H. rewrite lookup_empty in H. simpl in H.
  apply lookup_insert_Some in H as [[_ E]|[_ E]].
  - injection E as <- <-. assumption.
  - rewrite lookup_empty in E. discriminate.
Qed.

Lemma priority_precedence_witness :
  exists before after,
    [Complete.PriorityBasedDistribution.mkItem 1 0
       (sampleRequest "B1" 60 CRITICAL) 60;
     Complete.PriorityBasedDistribution.mkItem 0 0
       (sampleRequest "B1" 60 LOW) 60]
    = before ++ Complete.PriorityBasedDistribution.mkItem 1 0
                  (sampleRequest "B1" 60 CRITICAL) 60 :: after
    /\ Complete.PriorityBasedDistribution.mkItem 0 0
         (sampleRequest "B1" 60 LOW) 60 ∈ after.
Proof.
  destruct (priority_precedence 1 precedenceWorld
              [Complete.PriorityBasedDistribution.mkItem 1 0
                 (sampleRequest "B1" 60 CRITICAL) 60;
               Complete.PriorityBasedDistribution.mkItem 0 0
                 (sampleRequest "B1" 60 LOW) 60]
              (Complete.PriorityBasedDistribution.mkItem 1 0
                 (sampleRequest "B1" 60 CRITICAL) 60)
              (Complete.PriorityBasedDistribution.mkItem 0 0
                 (sampleRequest "B1" 60 LOW) 60))
    as [(before & after & E & Hin & _) _].
  - exact precedenceInstitutions_ok.
  - apply stockOf_ok. unfold CInt.int_max. lia.
  - split.
    + apply perm_swap.
    + repeat constructor.
  - right. left.
  - left.
  - reflexivity.
  - exists before, after. split; assumption.
Defined.

(** C3 as stated fails in part_000 for large quantities.  1,999,998
    copies are in stock; A (CRITICAL) asks for 1,500,000 and B (LOW) for
    600,000, more than the stock together.  A is popped first and gets
    nothing, since its allocation is not below 1,000,000; B then gets all
    it asked for.  (The priorities differ, so this pop order is the only
    one.) *)
Lemma precedence_fails_for_large_quantities :
  Complete.getAvailable "B1" largeWorld = 1999998
  /\ outcomes (Complete.institutions
                 (Complete.PriorityBasedDistribution.distributeFifo 2 largeWorld))
     = [[(0, PENDING)]; [(600000, FULFILLED)]].
Proof. vm_compute. split; reflexivity. Qed.

(** ** A planned run of grants *)

Lemma grantAll_step_grant now isbn (p : nat * nat * Z) w :
  (if 0 <? snd p
   then Complete.grant (fst (fst p)) (snd (fst p)) isbn (snd p) now w
   else w) = w
  \/ exists isbn' a,
       a <= snd p
       /\ (if 0 <? snd p
           then Complete.grant (fst (fst p)) (snd (fst p)) isbn (snd p) now w
           else w)
          = Complete.grant (fst (fst p)) (snd (fst p)) isbn' a now w.
Proof.
  destruct (0 <? snd p); [|left; reflexivity].
  right. exists isbn, (snd p). split; [lia|reflexivity].
Qed.

Lemma grantAll_requestAt_other now isbn plan w i j :
  (i, j) ∉ fst <$> plan ->
  Complete.requestAt i j (grantAll now isbn plan w) = Complete.requestAt i j w.
Proof.
  intros Hnot. unfold grantAll.
  apply (steps_requestAt_other _ (fun p => fst (fst p)) (fun p => snd (fst p))
           snd _ now (grantAll_step_grant now isbn)).
  intros Hin. apply Hnot.
  apply list_elem_of_fmap in Hin as ([[i' j'] a] & E & Hin). simpl in E.
  injection E as -> ->.
  apply (list_elem_of_fmap_2 fst) in Hin. exact Hin.
Qed.

(** When the planned quantities are below 1,000,000 and the stock covers
    their sum, every grant of the plan goes through: the stock goes down
    by the sum, each request of the plan is credited with its quantity,
    and no other request changes. *)
Lemma grantAll_spec now isbn plan w :
  stockOk (Complete.inventory w) ->
  NoDup (fst <$> plan) ->
  (forall p, p ∈ plan ->
     is_Some (Complete.requestAt (fst (fst p)) (snd (fst p)) w)
     /\ 0 <= snd p < 1000000) ->
  planTotal plan <= Complete.getAvailable isbn w ->
  let w' := grantAll now isbn plan w in
  stockOk (Complete.inventory w')
  /\ Complete.getAvailable isbn w'
     = Complete.getAvailable isbn w - planTotal plan
  /\ forall i j a,
       (i, j, a) ∈ plan ->
       Complete.requestAt i j w'
       = if 0 <? a
         then BookRequest.fulfillPartial a <$> Complete.requestAt i j w
         else Complete.requestAt i j w.
Proof.
  revert w. induction plan as [|[[i j] a] plan IH]; intros w Hst Hnd Hp Htot;
    cbv zeta.
  - simpl. split; [assumption|]. split; [lia|].
    intros i j a H. apply elem_of_nil in H. tauto.
  - rewrite fmap_cons in Hnd. apply NoDup_cons in Hnd as [Hhd Hnd].
    simpl in Hhd, Htot.
    destruct (Hp (i, j, a) ltac:(left)) as [[r Hr] Ha]. simpl in Hr, Ha.
    assert (Hplan0 : forall p, p ∈ plan -> 0 <= snd p)
      by (intros p Hin; apply Hp; right; assumption).
    assert (Hnonneg : 0 <= planTotal plan).
    { clear -Hplan0. induction plan as [|p plan IH]; simpl; [lia|].
      specialize (Hplan0 p ltac:(left)) as H0.
      assert (0 <= planTotal plan)
        by (apply IH; intros; apply Hplan0; right; assumption).
      lia. }
    change (grantAll now isbn ((i, j, a) :: plan) w)
      with (grantAll now isbn plan
              (if 0 <? a then Complete.grant i j isbn a now w else w)).
    set (w1 := if 0 <? a then Complete.grant i j isbn a now w else w).
    assert (H1 : stockOk (Complete.inventory w1)
                 /\ Complete.getAvailable isbn w1
                    = Complete.getAvailable isbn w - a
                 /\ Complete.requestAt i j w1
                    = (if 0 <? a
                       then BookRequest.fulfillPartial a
                              <$> Complete.requestAt i j w
                       else Complete.requestAt i j w)
                 /\ forall i' j', ~ (i' = i /\ j' = j) ->
                      Complete.requestAt i' j' w1 = Complete.requestAt i' j' w).
    { subst w1. destruct (Z.ltb_spec 0 a).
      - unfold Complete.requestAt in Hr.
        destruct (Complete.institutions w !! i) as [inst|] eqn:Hi;
          [|discriminate].
        destruct (grant_success i j isbn a now w inst Hst Hi ltac:(lia)
                    ltac:(lia)) as (G1 & G2 & _).
        split; [apply grant_stockOk; assumption|].
        split; [assumption|]. split; [assumption|].
        intros i' j' Hne. apply grant_requestAt_other. assumption.
      - split; [assumption|]. split; [lia|]. split; reflexivity. }
    destruct H1 as (Hst1 & Hav1 & Hreq1 & Hoth1).
    assert (Hne : forall p, p ∈ plan ->
                    ~ (fst (fst p) = i /\ snd (fst p) = j)).
    { intros [[i' j'] a'] Hin [E1 E2]. simpl in *. subst. apply Hhd.
      apply (list_elem_of_fmap_2 fst) in Hin. exact Hin. }
    destruct (IH w1 Hst1 Hnd) as (I1 & I2 & I3).
    { intros p Hin. rewrite Hoth1 by (apply Hne; assumption).
      apply Hp. right. assumption. }
    { lia. }
    split; [assumption|]. split; [simpl; lia|].
    intros i' j' a' Hin. apply elem_of_cons in Hin as [E|Hin].
    + injection E as -> -> ->.
      rewrite grantAll_requestAt_other by assumption. assumption.
    + rewrite (I3 i' j' a' Hin).
      rewrite Hoth1 by (apply (Hne _ Hin)). reflexivity.
Qed.

(** ** Proportional shares *)












(** ** Maps of vectors *)

Lemma string_compare_refl s : String.compare s s = Eq.
Proof. apply OrderedTypeEx.String_as_OT.cmp_eq. reflexivity. Qed.

Lemma string_compare_trans a b c :
  String.compare a b = Lt -> String.compare b c = Lt -> String.compare a c = Lt.
Proof.
  intros H1 H2.
  apply OrderedTypeEx.String_as_OT.cmp_lt.
  apply OrderedTypeEx.String_as_OT.cmp_lt in H1, H2.
  eapply OrderedTypeEx.String_as_OT.lt_trans; eassumption.
Qed.

Lemma string_compare_lt_ne a b : String.compare a b = Lt -> a <> b.
Proof. intros H ->. rewrite string_compare_refl in H. discriminate. Qed.

Lemma string_compare_gt_lt a b :
  String.compare a b = Gt -> String.compare b a = Lt.
Proof. intros H. rewrite String.compare_antisym, H. reflexivity. Qed.

Lemma keysSorted_NoDup {A : Type} (m : list (string * list A)) :
  keysSorted m -> NoDup (fst <$> m).
Proof.
  induction 1 as [|x m Hs IH Hx]; [constructor|].
  rewrite fmap_cons. apply NoDup_cons. split; [|assumption].
  intros Hin. apply list_elem_of_fmap in Hin as (y & E & Hy).
  rewrite Forall_forall in Hx. specialize (Hx y Hy).
  apply string_compare_lt_ne in Hx. congruence.
Qed.

Lemma mapPush_keys {A : Type} k (v : A) m x :
  x ∈ Complete.mapPush k v m -> fst x = k \/ exists y, y ∈ m /\ fst y = fst x.
Proof.
  induction m as [|[k0 vs] m IH]; simpl.
  - intros H. apply list_elem_of_singleton in H as ->. left. reflexivity.
  - destruct (String.compare k k0) eqn:C.
    + intros H. apply elem_of_cons in H as [->|H].
      * right. exists (k0, vs). split; [left|reflexivity].
      * right. exists x. split; [right; assumption|reflexivity].
    + intros H. apply elem_of_cons in H as [->|H].
      * left. reflexivity.
      * right. exists x. split; [assumption|reflexivity].
    + intros H. apply elem_of_cons in H as [->|H].
      * right. exists (k0, vs). split; [left|reflexivity].
      * destruct (IH H) as [E|(y & Hy & E)]; [left; assumption|].
        right. exists y. split; [right; assumption|assumption].
Qed.

Lemma mapPush_sorted {A : Type} k (v : A) m :
  keysSorted m -> keysSorted (Complete.mapPush k v m).
Proof.
  unfold keysSorted. induction 1 as [|[k0 vs] m Hs IH Hx]; simpl.
  - repeat constructor.
  - destruct (String.compare k k0) eqn:C.
    + constructor; assumption.
    + constructor; [constructor; assumption|].
      constructor; [assumption|].
      rewrite Forall_forall in *. intros y Hy. simpl.
      apply (string_compare_trans k k0); [assumption|]. apply (Hx y Hy).
    + constructor; [assumption|].
      rewrite Forall_forall in *. intros y Hy. simpl.
      apply mapPush_keys in Hy as [->|(z & Hz & <-)].
      * apply string_compare_gt_lt. assumption.
      * apply (Hx z Hz).
Qed.

Lemma groupAt_absent {A : Type} k (m : list (string * list A)) :
  (forall y, y ∈ m -> fst y <> k) -> groupAt k m = None.
Proof.
  unfold groupAt. induction m as [|[k0 vs] m IH]; intros H; [reflexivity|].
  simpl. destruct (String.eqb_spec k0 k) as [->|_].
  - exfalso. apply (H (k, vs)); [left|reflexivity].
  - apply IH. intros y Hy. apply H. right. assumption.
Qed.

Lemma mapPush_groupAt {A : Type} k (v : A) m k' :
  keysSorted m ->
  groupAt k' (Complete.mapPush k v m)
  = if String.eqb k' k then Some (default [] (groupAt k m) ++ [v])
    else groupAt k' m.
Proof.
  unfold keysSorted. induction 1 as [|[k0 vs] m Hs IH Hx].
  - unfold groupAt. simpl. rewrite String.eqb_sym.
    destruct (String.eqb k' k); reflexivity.
  - simpl. destruct (String.compare k k0) eqn:C.
    + apply String.compare_eq_iff in C. subst k0.
      unfold groupAt. simpl. rewrite String.eqb_refl. simpl.
      rewrite (String.eqb_sym k k').
      destruct (String.eqb k' k); reflexivity.
    + assert (groupAt k ((k0, vs) :: m) = None) as ->.
      { apply groupAt_absent. intros y Hy.
        apply elem_of_cons in Hy as [->|Hy]; simpl.
        - intros ->. rewrite string_compare_refl in C. discriminate.
        - rewrite Forall_forall in Hx. specialize (Hx y Hy). simpl in Hx.
          intros E. rewrite E in Hx.
          pose proof (string_compare_trans k k0 k C Hx) as F.
          rewrite string_compare_refl in F. discriminate. }
      unfold groupAt at 1. simpl. rewrite (String.eqb_sym k k').
      destruct (String.eqb k' k); reflexivity.
    + assert (k0 <> k)
        by (intros ->; rewrite string_compare_refl in C; discriminate).
      unfold groupAt at 1 3. simpl.
      destruct (String.eqb_spec k0 k') as [->|Hne].
      * destruct (String.eqb_spec k' k) as [->|_]; [congruence|].
        reflexivity.
      * fold (groupAt k' (Complete.mapPush k v m)). rewrite IH.
        assert (E : groupAt k ((k0, vs) :: m) = groupAt k m).
        { unfold groupAt. simpl.
          destruct (String.eqb_spec k0 k); [congruence|]. reflexivity. }
        rewrite E. reflexivity.
Qed.

Lemma buildMap_sorted {P A : Type} (f : P -> option (string * A)) l m :
  keysSorted m -> keysSorted (buildMap f l m).
Proof.
  unfold buildMap. revert m. induction l as [|p l IH]; intros m Hm; [assumption|].
  simpl. apply IH. destruct (f p) as [[k v]|]; [|assumption].
  apply mapPush_sorted. assumption.
Qed.

Lemma valuesOf_snoc {P A : Type} (f : P -> option (string * A)) k l p :
  valuesOf f k (l ++ [p])
  = valuesOf f k l
    ++ match f p with
       | Some kv => if String.eqb (fst kv) k then [snd kv] else []
       | None => []
       end.
Proof.
  unfold valuesOf. rewrite omap_app. f_equal. simpl.
  destruct (f p) as [[k0 v]|]; [|reflexivity]. simpl.
  destruct (String.eqb k0 k); reflexivity.
Qed.

Lemma nonempty_default {A : Type} (l : list A) : default [] (nonempty l) = l.
Proof. destruct l; reflexivity. Qed.

Lemma nonempty_snoc {A : Type} (l : list A) x : nonempty (l ++ [x]) = Some (l ++ [x]).
Proof. destruct l; reflexivity. Qed.

(** The group found under a key holds what the loop pushed under it. *)
Lemma buildMap_groupAt {P A : Type} (f : P -> option (string * A)) l m pre :
  keysSorted m ->
  (forall k, groupAt k m = nonempty (valuesOf f k pre)) ->
  forall k, groupAt k (buildMap f l m) = nonempty (valuesOf f k (pre ++ l)).
Proof.
  unfold buildMap. revert m pre.
  induction l as [|p l IH]; intros m pre Hm Hg k.
  - rewrite app_nil_r. apply Hg.
  - simpl. rewrite (cons_middle p pre l), app_assoc.
    apply IH.
    + destruct (f p) as [[k0 v]|]; [|assumption].
      apply mapPush_sorted. assumption.
    + intros k1. rewrite valuesOf_snoc.
      destruct (f p) as [[k0 v]|]; simpl.
      * rewrite mapPush_groupAt by assumption. rewrite (String.eqb_sym k0 k1).
        destruct (String.eqb_spec k1 k0) as [->|_].
        -- rewrite Hg, nonempty_default, nonempty_snoc. reflexivity.
        -- rewrite app_nil_r. apply Hg.
      * rewrite app_nil_r. apply Hg.
Qed.

Lemma groupAt_elem {A : Type} k (g : list A) m :
  NoDup (fst <$> m) -> ((k, g) ∈ m <-> groupAt k m = Some g).
Proof.
  unfold groupAt. induction m as [|[k0 vs] m IH]; intros Hnd.
  - simpl. split; [intros H; apply elem_of_nil in H; tauto|discriminate].
  - rewrite fmap_cons in Hnd. apply NoDup_cons in Hnd as [Hk0 Hnd].
    simpl. destruct (String.eqb_spec k0 k) as [->|Hne]; simpl.
    + split.
      * intros H. apply elem_of_cons in H as [E|H]; [congruence|].
        exfalso. apply Hk0. apply (list_elem_of_fmap_2 fst) in H. exact H.
      * intros E. injection E as ->. left.
    + rewrite <- (IH Hnd). split.
      * intros H. apply elem_of_cons in H as [E|H]; [congruence|assumption].
      * intros H. right. assumption.
Qed.

Lemma buildMap_group {P A : Type} (f : P -> option (string * A)) l k g :
  (k, g) ∈ buildMap f l [] <-> g = valuesOf f k l /\ g <> [].
Proof.
  assert (Hs : keysSorted (buildMap f l ([] : list (string * list A))))
    by (apply buildMap_sorted; constructor).
  rewrite (groupAt_elem k g _ (keysSorted_NoDup _ Hs)).
  rewrite (buildMap_groupAt f l [] []); [|constructor|reflexivity].
  simpl. destruct (valuesOf f k l) as [|x vs]; simpl.
  - split; [discriminate|]. intros [-> H]. congruence.
  - split; [intros E; injection E as <-; split; [reflexivity|discriminate]|].
    intros [-> _]. reflexivity.
Qed.

Lemma needMap_buildMap insts :
  Complete.NeedBasedDistribution.needMap insts
  = buildMap needOf (Complete.pendingRequests insts) [].
Proof.
  unfold Complete.NeedBasedDistribution.needMap, buildMap.
  generalize (@nil (string * list Complete.NeedBasedDistribution.Need)).
  induction (Complete.pendingRequests insts) as [|p l IH]; intros m;
    [reflexivity|].
  simpl. rewrite IH. unfold needOf.
  destruct (0 <? BookRequest.getRemainingQuantity (snd p)); reflexivity.
Qed.

Lemma needingMap_buildMap insts :
  Complete.EqualDistribution.needingMap insts
  = buildMap pairOf (Complete.pendingRequests insts) [].
Proof.
  unfold Complete.EqualDistribution.needingMap, buildMap.
  generalize (@nil (string * list (nat * nat))).
  induction (Complete.pendingRequests insts) as [|p l IH]; intros m;
    [reflexivity|].
  simpl. rewrite IH. unfold pairOf.
  destruct (0 <? BookRequest.getRemainingQuantity (snd p)); reflexivity.
Qed.

(** The groups of the need map: under each ISBN, the tuples of the
    pending requests for that ISBN with a positive remaining quantity. *)
Lemma needMap_group insts k g :
  (k, g) ∈ Complete.NeedBasedDistribution.needMap insts
  <-> g = needsFor k insts /\ g <> [].
Proof. rewrite needMap_buildMap. apply buildMap_group. Qed.

Lemma needingMap_group insts k g :
  (k, g) ∈ Complete.EqualDistribution.needingMap insts
  <-> g = pairsFor k insts /\ g <> [].
Proof. rewrite needingMap_buildMap. apply buildMap_group. Qed.



(** ** The loop over the groups of a map *)

Section Groups.

Variable V : Type.
Variable pos : V -> nat * nat.
Variable step : string -> list V -> Complete.World -> Complete.World.

(** The body of the loop works on the stock of its own ISBN and on the
    requests of its own group. *)
Hypothesis step_available :
  forall k g w k', k' <> k ->
    Complete.getAvailable k' (step k g w) = Complete.getAvailable k' w.
Hypothesis step_requestAt :
  forall k g w i j, (i, j) ∉ pos <$> g ->
    Complete.requestAt i j (step k g w) = Complete.requestAt i j w.
Hypothesis step_stockOk :
  forall k g w, stockOk (Complete.inventory w) ->
                stockOk (Complete.inventory (step k g w)).





End Groups.

(** ** The need-based cycle *)











(** ** The equal cycle of part_000 *)





Lemma equalPlan_positions perInst needList w :
  fst <$> equalPlan perInst needList w = needList.
Proof.
  unfold equalPlan. rewrite <- list_fmap_compose.
  rewrite <- (list_fmap_id needList) at 2.
  apply list_fmap_ext. intros ? [i j] _. reflexivity.
Qed.

Lemma remainingAt_after_grant now isbn a i j w i' j' :
  ~ (i' = i /\ j' = j) ->
  Complete.remainingAt i' j'
    (if 0 <? a then Complete.grant i j isbn a now w else w)
  = Complete.remainingAt i' j' w.
Proof.
  intros Hne. unfold Complete.remainingAt.
  destruct (0 <? a); [|reflexivity].
  rewrite grant_requestAt_other by assumption. reflexivity.
Qed.

(** The requests of the list are distinct, so the remaining quantity read
    when a pair is served is the one it had when the loop started. *)
Lemma equal_serve_plan now isbn perInst needList w :
  NoDup needList ->
  Complete.EqualDistribution.serve now isbn perInst needList w
  = grantAll now isbn (equalPlan perInst needList w) w.
Proof.
  unfold Complete.EqualDistribution.serve, grantAll.
  revert w. induction needList as [|[i j] l IH]; intros w Hnd; [reflexivity|].
  apply NoDup_cons in Hnd as [Hhd Hnd]. simpl.
  rewrite IH by assumption. f_equal.
  unfold equalPlan. apply list_fmap_ext. intros ? [i' j'] Hl. simpl.
  rewrite remainingAt_after_grant; [reflexivity|].
  intros [-> ->]. apply Hhd. eapply list_elem_of_lookup_2. eassumption.
Qed.

Lemma equalPlan_total perInst needList w :
  0 <= perInst ->
  planTotal (equalPlan perInst needList w)
  <= Z.of_nat (length needList) * perInst.
Proof.
  intros Hp. induction needList as [|[i j] l IH]; [simpl; lia|].
  change (planTotal (equalPlan perInst ((i, j) :: l) w))
    with (Z.min perInst (Complete.remainingAt i j w)
          + planTotal (equalPlan perInst l w)).
  rewrite length_cons, Nat2Z.inj_succ. lia.
Qed.




Lemma equalPlan_nonneg perInst needList w :
  institutionsOk (Complete.institutions w) ->
  0 <= perInst ->
  forall p, p ∈ equalPlan perInst needList w -> 0 <= snd p <= perInst.
Proof.
  intros Hok Hp p Hin. unfold equalPlan in Hin.
  apply list_elem_of_fmap in Hin as ([i j] & -> & _). simpl.
  unfold Complete.remainingAt.
  destruct (Complete.requestAt i j w) as [r|] eqn:Hr; [|lia].
  pose proof (institutionsOk_requestAt w i j r Hok Hr) as Hrok.
  rewrite (remaining_exact r Hrok). destruct Hrok as [_ ?]. lia.
Qed.

Lemma planTotal_nonneg plan :
  (forall p, p ∈ plan -> 0 <= snd p) -> 0 <= planTotal plan.
Proof.
  induction plan as [|p plan IH]; intros H; simpl; [lia|].
  specialize (H p ltac:(left)) as H0.
  assert (0 <= planTotal plan) by (apply IH; intros; apply H; right; assumption).
  lia.
Qed.

(** What the equal strategy of part_000 does for one ISBN with stock. *)
Lemma equal_group_spec now isbn needList w :
  institutionsOk (Complete.institutions w) ->
  stockOk (Complete.inventory w) ->
  NoDup needList ->
  (forall p, p ∈ needList -> is_Some (Complete.requestAt (fst p) (snd p) w)) ->
  needList <> [] ->
  0 < Complete.getAvailable isbn w ->
  Complete.getAvailable isbn w / Z.of_nat (length needList) < 1000000 ->
  let A := Complete.getAvailable isbn w in
  let perInst := A / Z.of_nat (length needList) in
  let w' := Complete.EqualDistribution.distributeGroup now isbn needList w in
  Complete.getAvailable isbn w' = A - planTotal (equalPlan perInst needList w)
  /\ 0 <= planTotal (equalPlan perInst needList w)
     <= Z.of_nat (length needList) * perInst
  /\ forall i j, (i, j) ∈ needList ->
       Complete.requestAt i j w'
       = if 0 <? Z.min perInst (Complete.remainingAt i j w)
         then BookRequest.fulfillPartial
                (Z.min perInst (Complete.remainingAt i j w))
              <$> Complete.requestAt i j w
         else Complete.requestAt i j w.
Proof.
  intros Hok Hst Hnd Hreq Hne HA Hlt. cbv zeta.
  set (A := Complete.getAvailable isbn w) in *.
  set (k := Z.of_nat (length needList)) in *.
  assert (Hk : 0 < k) by (subst k; destruct needList; [congruence|simpl; lia]).
  assert (Hp0 : 0 <= A / k) by (apply Z.div_pos; lia).
  assert (Hmul : k * (A / k) <= A) by (apply Z.mul_div_le; lia).
  pose proof (equalPlan_total (A / k) needList w Hp0) as Htot. fold k in Htot.
  pose proof (planTotal_nonneg (equalPlan (A / k) needList w)
                ltac:(intros p Hp; apply (equalPlan_nonneg _ _ _ Hok Hp0 p Hp)))
    as Htot0.
  unfold Complete.EqualDistribution.distributeGroup. fold A.
  destruct (Z.leb_spec A 0); [lia|].
  destruct (Nat.eqb_spec (length needList) 0) as [E|_];
    [destruct needList; [congruence|discriminate]|].
  simpl. fold k. rewrite Z.quot_div_nonneg by lia.
  destruct (Z.leb_spec (A / k) 0) as [Hz|Hpos].
  - assert (Ez : A / k = 0) by lia. rewrite Ez in *.
    split; [fold A; lia|]. split; [lia|].
    intros i j Hin.
    pose proof (equalPlan_nonneg 0 needList w Hok ltac:(lia)
                  (i, j, Z.min 0 (Complete.remainingAt i j w))) as Hb.
    simpl in Hb.
    assert (Z.min 0 (Complete.remainingAt i j w) <= 0) by lia.
    destruct (Z.ltb_spec 0 (Z.min 0 (Complete.remainingAt i j w)));
      [lia|reflexivity].
  - rewrite equal_serve_plan by assumption.
    destruct (grantAll_spec now isbn (equalPlan (A / k) needList w) w Hst)
      as (_ & G2 & G3).
    + rewrite equalPlan_positions. assumption.
    + intros p Hp.
      pose proof (equalPlan_nonneg _ _ _ Hok Hp0 p Hp) as Hb.
      split; [|lia].
      unfold equalPlan in Hp.
      apply list_elem_of_fmap in Hp as ([i j] & -> & Hin). simpl.
      apply (Hreq (i, j) Hin).
    + fold A. lia.
    + split; [exact G2|]. split; [lia|].
      intros i j Hin. apply G3. unfold equalPlan.
      apply (list_elem_of_fmap_2
               (fun p : nat * nat =>
                  (fst p, snd p,
                   Z.min (A / k) (Complete.remainingAt (fst p) (snd p) w)))
               _ (i, j)).
      assumption.
Qed.








(** * Further properties of the code *)

(** ** Adding books *)

(** [addBook] of part_000 throws for a quantity outside 1..999,999 and
    then changes nothing.  Otherwise it raises the count of the ISBN by
    the quantity (a new entry starts at the quantity), keeps the book
    record of an ISBN that already has one, leaves every other entry
    alone and appends one ADD record. *)
Theorem addBook_complete_spec book q now inv :
  (~ 0 < q < 1000000 ->
   Complete.BookInventory.addBook book q now inv
   = inr (InvalidInputException "Invalid quantity"))
  /\ (0 < q < 1000000 ->
      exists inv',
        Complete.BookInventory.addBook book q now inv = inl inv'
        /\ InventoryState.getAvailableQuantity (Book.isbn book) inv'
           = CInt.add (InventoryState.getAvailableQuantity (Book.isbn book) inv) q
        /\ InventoryState.getBook (Book.isbn book) inv'
           = Some (default book (InventoryState.getBook (Book.isbn book) inv))
        /\ (forall isbn', isbn' <> Book.isbn book ->
              InventoryState.stock inv' !! isbn'
              = InventoryState.stock inv !! isbn')
        /\ InventoryState.transactionLog inv'
           = InventoryState.transactionLog inv
             ++ [Transaction.mk (Book.isbn book) q "ADD" now]).
Proof.
  unfold Complete.BookInventory.addBook. split.
  - intros Hq.
    destruct (Complete.Validator.isValidQuantity q) eqn:V; [|reflexivity].
    apply isValidQuantity_spec in V. tauto.
  - intros Hq.
    assert (V : Complete.Validator.isValidQuantity q = true)
      by (apply isValidQuantity_spec; assumption).
    rewrite V. simpl. eexists. split; [reflexivity|].
    unfold InventoryState.addChecked, InventoryState.getAvailableQuantity,
      InventoryState.getBook.
    destruct (InventoryState.stock inv !! Book.isbn book) as [[b s]|] eqn:E;
      simpl; rewrite lookup_insert_eq.
    + repeat split. intros isbn' Hne. apply lookup_insert_ne. congruence.
    + repeat split.
      * symmetry. apply add_exact.
        unfold CInt.in_range, CInt.int_min, CInt.int_max. lia.
      * intros isbn' Hne. apply lookup_insert_ne. congruence.
Qed.

Lemma addBook_complete_spec_witness :
  exists inv',
    Complete.BookInventory.addBook (sampleBook "B1") 5 1 (stockOf "B1" 100)
    = inl inv'
    /\ InventoryState.getAvailableQuantity "B1" inv' = 105.
Proof.
  destruct (addBook_complete_spec (sampleBook "B1") 5 1 (stockOf "B1" 100))
    as [_ H].
  destruct H as (inv' & H1 & H2 & _); [lia|].
  exists inv'. split; [exact H1|]. etransitivity; [exact H2|reflexivity].
Defined.

(** [addBook] of final.cpp ignores a quantity that is not positive, and
    has no upper bound: for a positive quantity it raises the count,
    keeps an existing book record and appends one ADD record. *)
Theorem addBook_final_spec book q now inv :
  (q <= 0 -> Final.BookInventory.addBook book q now inv = inv)
  /\ (0 < q ->
      let inv' := Final.BookInventory.addBook book q now inv in
      InventoryState.getAvailableQuantity (Book.isbn book) inv'
      = (match InventoryState.getBook (Book.isbn book) inv with
         | Some _ =>
             CInt.add (InventoryState.getAvailableQuantity (Book.isbn book) inv) q
         | None => q
         end)
      /\ InventoryState.getBook (Book.isbn book) inv'
         = Some (default book (InventoryState.getBook (Book.isbn book) inv))
      /\ (forall isbn', isbn' <> Book.isbn book ->
            InventoryState.stock inv' !! isbn'
            = InventoryState.stock inv !! isbn')
      /\ InventoryState.transactionLog inv'
         = InventoryState.transactionLog inv
           ++ [Transaction.mk (Book.isbn book) q "ADD" now]).
Proof.
  unfold Final.BookInventory.addBook. split.
  - intros Hq. destruct (Z.leb_spec q 0); [reflexivity|lia].
  - intros Hq. cbv zeta. destruct (Z.leb_spec q 0); [lia|].
    unfold InventoryState.addChecked, InventoryState.getAvailableQuantity,
      InventoryState.getBook.
    destruct (InventoryState.stock inv !! Book.isbn book) as [[b s]|] eqn:E;
      simpl; rewrite lookup_insert_eq;
      repeat split; intros isbn' Hne; apply lookup_insert_ne; congruence.
Qed.

Lemma addBook_final_spec_witness :
  InventoryState.getAvailableQuantity "B1"
    (Final.BookInventory.addBook (sampleBook "B1") 2000000 1 (stockOf "B1" 100))
  = 2000100.
Proof.
  destruct (addBook_final_spec (sampleBook "B1") 2000000 1 (stockOf "B1" 100))
    as [_ H].
  destruct H as (H1 & _); [lia|].
  etransitivity; [exact H1|reflexivity].
Defined.

(** ** Loans *)

(** [LoanManagement::returnBooks] succeeds exactly when an open loan with
    the id exists.  It keeps the number of loans, closes exactly one of
    the open loans with that id on success, and changes nothing on
    failure. *)
Theorem loan_return_closes_one loanId now loans :
  let r := Complete.LoanManagement.returnBooks loanId now loans in
  (fst r = true <-> exists l, l ∈ loans /\ openLoan loanId l)
  /\ length (snd r) = length loans
  /\ (fst r = true -> S (openCount loanId (snd r)) = openCount loanId loans)
  /\ (fst r = false -> snd r = loans /\ openCount loanId loans = 0%nat).
Proof.
  cbv zeta. split; [apply loan_returnBooks_true_iff|].
  induction loans as [|l rest IH]; simpl.
  - repeat split; discriminate.
  - unfold openCount. simpl.
    destruct (String.eqb (Complete.BookLoan.loanId l) loanId
              && negb (Complete.BookLoan.isReturned l)) eqn:T; simpl.
    + rewrite andb_false_r. repeat split; discriminate.
    + destruct (Complete.LoanManagement.returnBooks loanId now rest)
        as [ok rest'] eqn:E. simpl in *. rewrite T.
      destruct IH as (I1 & I2 & I3). unfold openCount in *.
      split; [lia|]. split; [assumption|].
      intros Hf. destruct (I3 Hf) as [-> Hz]. split; [reflexivity|assumption].
Qed.

Lemma loan_return_closes_one_witness :
  openCount "LOAN-X-3"
    (snd (Complete.LoanManagement.returnBooks "LOAN-X-3" 4
            (Complete.GovernmentBooksManagementSystem.loanManager
               sampleDistributed))) = 0%nat.
Proof.
  destruct (loan_return_closes_one "LOAN-X-3" 4
              (Complete.GovernmentBooksManagementSystem.loanManager
                 sampleDistributed)) as (_ & _ & H & _).
  specialize (H ltac:(vm_compute; reflexivity)).
  assert (E : openCount "LOAN-X-3"
                (Complete.GovernmentBooksManagementSystem.loanManager
                   sampleDistributed) = 1%nat) by (vm_compute; reflexivity).
  rewrite E in H. apply eq_add_S. exact H.
Defined.

(** A loan issued at time [now] is appended to the loans, is open, has
    the id [LOAN-<institution>-<now>], and falls due 180 days, that is
    15,552,000 seconds, later: it is overdue exactly at the times after
    that, and never once it is returned. *)
Theorem issued_loan_due_after_180_days isbn instId q now loans :
  exists l,
    Complete.LoanManagement.issueBookLoan isbn instId q now loans = loans ++ [l]
    /\ Complete.BookLoan.loanId l = "LOAN-" +:+ instId +:+ "-" +:+ to_string now
    /\ Complete.BookLoan.quantity l = q
    /\ Complete.BookLoan.isReturned l = false
    /\ Complete.BookLoan.dueDate l = now + 15552000
    /\ (forall t, Complete.BookLoan.isOverdue t l = true <-> now + 15552000 < t)
    /\ (forall t t',
          Complete.BookLoan.isOverdue t (Complete.BookLoan.markReturned t' l)
          = false).
Proof.
  eexists. split; [reflexivity|].
  assert (E : CInt.mul (CInt.mul (CInt.mul 180 24) 60) 60 = 15552000)
    by reflexivity.
  unfold Complete.BookLoan.isOverdue. simpl. rewrite E.
  repeat split; intros; lia.
Qed.

(** ** The waiting list *)

(** [hasWaitingInstitutions] holds exactly when [getWaitingCount] is
    positive; [addToWaitingList] raises the count of its ISBN by one,
    leaves the counts of the others, and puts the new entry last. *)
Theorem waiting_list_counts isbn instId q p now
    (wl : gmap string (list Complete.WaitingList.WaitingEntry)) :
  (forall isbn',
      Complete.WaitingList.hasWaitingInstitutions isbn' wl = true
      <-> 0 < Complete.WaitingList.getWaitingCount isbn' wl)
  /\ (forall isbn',
        Complete.WaitingList.getWaitingCount isbn'
          (Complete.WaitingList.addToWaitingList isbn instId q p now wl)
        = Complete.WaitingList.getWaitingCount isbn' wl
          + (if String.eqb isbn' isbn then 1 else 0))
  /\ Complete.WaitingList.hasWaitingInstitutions isbn
       (Complete.WaitingList.addToWaitingList isbn instId q p now wl) = true
  /\ exists queue,
       Complete.WaitingList.addToWaitingList isbn instId q p now wl !! isbn
       = Some (queue ++ [Complete.WaitingList.mkEntry instId isbn q now p])
       /\ queue = default [] (wl !! isbn).
Proof.
  split; [|split; [|split]].
  - intros isbn'. unfold Complete.WaitingList.hasWaitingInstitutions,
      Complete.WaitingList.getWaitingCount.
    destruct (wl !! isbn') as [[|e l]|]; simpl; split; try discriminate; lia.
  - intros isbn'. apply getWaitingCount_add.
  - unfold Complete.WaitingList.hasWaitingInstitutions,
      Complete.WaitingList.addToWaitingList.
    rewrite lookup_insert_eq. destruct (default [] (wl !! isbn)); reflexivity.
  - eexists. split; [|reflexivity].
    unfold Complete.WaitingList.addToWaitingList. apply lookup_insert_eq.
Qed.

(** ** The facade *)

(** [registerInstitution] files the institution under its id, replacing
    one registered under the same id; the count grows by one only for a
    new id, and the other institutions stay. *)
Theorem registerInstitution_spec inst
    (sys : Complete.GovernmentBooksManagementSystem.t) :
  let sys' := Complete.GovernmentBooksManagementSystem.registerInstitution
                inst sys in
  Complete.GovernmentBooksManagementSystem.getInstitution
    (Institution.institutionId inst) sys' = Some inst
  /\ (forall id, id <> Institution.institutionId inst ->
        Complete.GovernmentBooksManagementSystem.getInstitution id sys'
        = Complete.GovernmentBooksManagementSystem.getInstitution id sys)
  /\ Complete.GovernmentBooksManagementSystem.getInstitutionCount sys'
     = (match Complete.GovernmentBooksManagementSystem.getInstitution
                (Institution.institutionId inst) sys with
        | Some _ => Complete.GovernmentBooksManagementSystem.getInstitutionCount sys
        | None =>
            S (Complete.GovernmentBooksManagementSystem.getInstitutionCount sys)
        end).
Proof.
  cbv zeta.
  unfold Complete.GovernmentBooksManagementSystem.getInstitution,
    Complete.GovernmentBooksManagementSystem.getInstitutionCount,
    Complete.GovernmentBooksManagementSystem.registerInstitution. simpl.
  split; [apply lookup_insert_eq|]. split.
  - intros id Hne. apply lookup_insert_ne. congruence.
  - destruct (Complete.GovernmentBooksManagementSystem.institutions sys
                !! Institution.institutionId inst) as [old|] eqn:E.
    + rewrite <- (insert_delete_eq
                    (Complete.GovernmentBooksManagementSystem.institutions sys)).
      rewrite <- (insert_delete_id
                    (Complete.GovernmentBooksManagementSystem.institutions sys)
                    (Institution.institutionId inst) old E) at 2.
      rewrite !map_size_insert_None by apply lookup_delete_eq. reflexivity.
    + apply map_size_insert_None. assumption.
Qed.

(** [login] succeeds exactly when the user is registered with that
    password; it then makes that user the current one and touches
    nothing else, and a failed login changes nothing.  [logout] leaves no
    current user. *)
Theorem login_spec userId password
    (sys : Complete.GovernmentBooksManagementSystem.t) :
  let r := Complete.GovernmentBooksManagementSystem.login userId password sys in
  (fst r = true
   <-> exists u, Complete.GovernmentBooksManagementSystem.users sys !! userId
                 = Some u
                 /\ Complete.User.password u = password)
  /\ (fst r = true ->
      Complete.GovernmentBooksManagementSystem.currentUser (snd r)
      = Complete.GovernmentBooksManagementSystem.users sys !! userId
      /\ Complete.GovernmentBooksManagementSystem.logout (snd r)
         = Complete.GovernmentBooksManagementSystem.logout sys)
  /\ (fst r = false -> snd r = sys)
  /\ Complete.GovernmentBooksManagementSystem.currentUser
       (Complete.GovernmentBooksManagementSystem.logout (snd r)) = None.
Proof.
  cbv zeta. unfold Complete.GovernmentBooksManagementSystem.login.
  destruct (Complete.GovernmentBooksManagementSystem.users sys !! userId)
    as [u|] eqn:E.
  - unfold Complete.User.authenticate.
    destruct (String.eqb_spec (Complete.User.password u) password) as [Hp|Hp];
      simpl.
    + repeat split; try discriminate; try reflexivity.
      intros _. exists u. tauto.
    + repeat split; try discriminate; try reflexivity.
      intros (u' & Hu & Hp'). congruence.
  - simpl. repeat split; try discriminate; try reflexivity.
    intros (u' & Hu & _). discriminate.
Qed.

(** A submission that goes through appends one request to the
    institution's requests: pending, with nothing fulfilled, for the
    quantity given, whatever its sign, and with the id
    [REQ-<institution>-<now>].  It leaves the other institutions, the
    inventory and the loans as they were. *)
Theorem submitBookRequest_appends_request instId isbn q p now
    (sys sys' : Complete.GovernmentBooksManagementSystem.t) :
  Complete.GovernmentBooksManagementSystem.submitBookRequest
    instId isbn q p now sys = inl sys' ->
  (exists inst r,
     Complete.GovernmentBooksManagementSystem.getInstitution instId sys
     = Some inst
     /\ Complete.GovernmentBooksManagementSystem.getInstitution instId sys'
        = Some (Institution.addRequest r inst)
     /\ Institution.requests (Institution.addRequest r inst)
        = Institution.requests inst ++ [r]
     /\ BookRequest.requestId r = "REQ-" +:+ instId +:+ "-" +:+ to_string now
     /\ BookRequest.isbn r = isbn
     /\ BookRequest.quantityRequested r = q
     /\ BookRequest.quantityFulfilled r = 0
     /\ BookRequest.priority r = p
     /\ BookRequest.status r = PENDING)
  /\ (forall id, id <> instId ->
        Complete.GovernmentBooksManagementSystem.getInstitution id sys'
        = Complete.GovernmentBooksManagementSystem.getInstitution id sys)
  /\ Complete.GovernmentBooksManagementSystem.centralInventory sys'
     = Complete.GovernmentBooksManagementSystem.centralInventory sys
  /\ Complete.GovernmentBooksManagementSystem.loanManager sys'
     = Complete.GovernmentBooksManagementSystem.loanManager sys.
Proof.
  unfold Complete.GovernmentBooksManagementSystem.submitBookRequest.
  destruct (Complete.GovernmentBooksManagementSystem.getInstitution instId sys)
    as [inst|] eqn:Hi; [|discriminate].
  destruct (InventoryState.getBook isbn _); [|discriminate].
  intros H. injection H as <-.
  unfold Complete.GovernmentBooksManagementSystem.getInstitution. simpl.
  split; [|split; [|split; reflexivity]].
  - eexists inst, _. split; [reflexivity|].
    split; [apply lookup_insert_eq|]. repeat split.
  - intros id Hne. apply lookup_insert_ne. congruence.
Qed.

Lemma submitBookRequest_appends_request_witness :
  Complete.GovernmentBooksManagementSystem.centralInventory sampleWaiting
  = Complete.GovernmentBooksManagementSystem.centralInventory sampleRegistered.
Proof.
  apply (submitBookRequest_appends_request "X" "B1" 150 HIGH 2
           sampleRegistered sampleWaiting).
  vm_compute. reflexivity.
Defined.

(** ** Every cycle is a run of grants *)

Lemma grantsTo_trans now w1 w2 w3 :
  grantsTo now w1 w2 -> grantsTo now w2 w3 -> grantsTo now w1 w3.
Proof.
  induction 1 as [|w i j isbn a w' _ IH]; intros H; [assumption|].
  eapply grantsTo_step. apply IH. assumption.
Qed.

Lemma grantsTo_grant now i j isbn a w :
  grantsTo now w (Complete.grant i j isbn a now w).
Proof. eapply grantsTo_step. apply grantsTo_refl. Qed.

Lemma grantsTo_fold {X : Type} now
    (step : Complete.World -> X -> Complete.World) xs w :
  (forall w x, grantsTo now w (step w x)) ->
  grantsTo now w (fold_left step xs w).
Proof.
  intros Hstep. revert w. induction xs as [|x xs IH]; intros w; simpl.
  - apply grantsTo_refl.
  - eapply grantsTo_trans; [apply Hstep|apply IH].
Qed.

Lemma dispatch_grantsTo strategy now w w' :
  Complete.GovernmentBooksManagementSystem.dispatch strategy now w w' ->
  grantsTo now w w'.
Proof.
  destruct strategy; simpl.
  - intros (order & _ & ->).
    apply grantsTo_fold. intros w0 it.
    unfold Complete.PriorityBasedDistribution.processItem.
    destruct (_ <=? 0); [apply grantsTo_refl|apply grantsTo_grant].
  - intros ->. apply grantsTo_fold. intros w0 g.
    unfold Complete.NeedBasedDistribution.distributeGroup.
    destruct (_ <=? 0); [apply grantsTo_refl|].
    apply grantsTo_fold. intros w1 t. cbv zeta.
    destruct (0 <? _); [apply grantsTo_grant|apply grantsTo_refl].
  - intros ->. apply grantsTo_fold. intros w0 g.
    unfold Complete.EqualDistribution.distributeGroup.
    destruct (_ || _); [apply grantsTo_refl|].
    destruct (_ <=? 0); [apply grantsTo_refl|].
    apply grantsTo_fold. intros w1 t. cbv zeta.
    destruct (0 <? _); [apply grantsTo_grant|apply grantsTo_refl].
Qed.

Lemma totalAdded_allocate isbn inv stock' k a now :
  totalAdded isbn
    (InventoryState.mk stock' (InventoryState.categoryIndex inv)
       (InventoryState.transactionLog inv ++ [Transaction.mk k a "ALLOCATE" now]))
  = totalAdded isbn inv.
Proof.
  unfold totalAdded. simpl.
  induction (InventoryState.transactionLog inv) as [|tx log IH]; simpl.
  - reflexivity.
  - rewrite IH. reflexivity.
Qed.

Lemma outstanding_issue isbn k instId a now loans :
  outstanding isbn (Complete.LoanManagement.issueBookLoan k instId a now loans)
  = outstanding isbn loans + (if String.eqb k isbn then a else 0).
Proof.
  unfold Complete.LoanManagement.issueBookLoan.
  induction loans as [|l loans IH]; simpl.
  - rewrite andb_true_r. destruct (String.eqb k isbn); lia.
  - rewrite IH.
    destruct (String.eqb (Complete.BookLoan.isbn l) isbn
              && negb (Complete.BookLoan.isReturned l)); lia.
Qed.

(** One grant: the stock stays a stock, conservation is kept, nothing is
    added, the stock does not grow, and at most one loan and one
    ALLOCATE record are appended. *)
Lemma grant_effects i j k a now w :
  stockOk (Complete.inventory w) ->
  let w' := Complete.grant i j k a now w in
  stockOk (Complete.inventory w')
  /\ (forall isbn,
        conserved isbn (Complete.inventory w) (Complete.loanMgr w) ->
        conserved isbn (Complete.inventory w') (Complete.loanMgr w'))
  /\ (forall isbn,
        totalAdded isbn (Complete.inventory w')
        = totalAdded isbn (Complete.inventory w)
        /\ 0 <= Complete.getAvailable isbn w' <= Complete.getAvailable isbn w)
  /\ exists new log,
       Complete.loanMgr w' = Complete.loanMgr w ++ new
       /\ InventoryState.transactionLog (Complete.inventory w')
          = InventoryState.transactionLog (Complete.inventory w) ++ log
       /\ Forall (freshLoan now) new
       /\ Forall allocateRecord log
       /\ length new = length log.
Proof.
  intros Hst. cbv zeta.
  pose proof (grant_stockOk i j k a now w Hst) as Hst'.
  split; [assumption|].
  destruct (grant_cases i j k a now w) as [E|(inst & inv' & Hi & Hal & E)];
    rewrite E in *.
  - split; [tauto|]. split.
    + intros isbn. split; [reflexivity|].
      pose proof (stockOk_in_range isbn w Hst). lia.
    + exists [], []. rewrite !app_nil_r. repeat split; constructor.
  - apply allocateBooks_true_inv in Hal as (Ha & b & s & Hs & Hle & ->).
    pose proof (Hst _ _ _ Hs) as Hrange.
    assert (Esub : CInt.sub s a = s - a).
    { apply sub_exact. unfold CInt.in_range, CInt.int_min, CInt.int_max in *.
      lia. }
    assert (Hav : forall isbn,
              Complete.getAvailable isbn
                (Complete.mkWorld
                   (InventoryState.mk
                      (<[k := (b, CInt.sub s a)]>
                         (InventoryState.stock (Complete.inventory w)))
                      (InventoryState.categoryIndex (Complete.inventory w))
                      (InventoryState.transactionLog (Complete.inventory w)
                         ++ [Transaction.mk k a "ALLOCATE" now]))
                   (<[i := Institution.fulfillRequest j a
                             (Institution.receiveBooks k a inst)]>
                      (Complete.institutions w))
                   (Complete.LoanManagement.issueBookLoan k
                      (Institution.institutionId inst) a now (Complete.loanMgr w)))
              = Complete.getAvailable isbn w
                - (if String.eqb k isbn then a else 0)).
    { intros isbn. unfold Complete.getAvailable,
        InventoryState.getAvailableQuantity. simpl.
      destruct (String.eqb_spec k isbn) as [->|Hne].
      - rewrite lookup_insert_eq, Hs. simpl. assumption.
      - rewrite lookup_insert_ne by assumption. lia. }
    simpl. split; [|split].
    + intros isbn Hc. unfold conserved in *.
      fold (Complete.getAvailable isbn w) in Hc.
      specialize (Hav isbn). unfold Complete.getAvailable in Hav at 1.
      simpl in Hav. rewrite Hav.
      rewrite totalAdded_allocate, outstanding_issue. lia.
    + intros isbn. split; [apply totalAdded_allocate|].
      rewrite Hav. pose proof (stockOk_in_range isbn w Hst) as Hr.
      destruct (String.eqb_spec k isbn) as [->|_]; [|lia].
      unfold Complete.getAvailable, InventoryState.getAvailableQuantity in *.
      rewrite Hs in *. simpl in *. lia.
    + eexists [_], [_]. split; [reflexivity|]. split; [reflexivity|].
      repeat split; repeat constructor; simpl; try lia; reflexivity.
Qed.

Lemma grantsTo_effects now w w' :
  grantsTo now w w' ->
  stockOk (Complete.inventory w) ->
  stockOk (Complete.inventory w')
  /\ (forall isbn,
        conserved isbn (Complete.inventory w) (Complete.loanMgr w) ->
        conserved isbn (Complete.inventory w') (Complete.loanMgr w'))
  /\ (forall isbn,
        totalAdded isbn (Complete.inventory w')
        = totalAdded isbn (Complete.inventory w)
        /\ 0 <= Complete.getAvailable isbn w' <= Complete.getAvailable isbn w)
  /\ exists new log,
       Complete.loanMgr w' = Complete.loanMgr w ++ new
       /\ InventoryState.transactionLog (Complete.inventory w')
          = InventoryState.transactionLog (Complete.inventory w) ++ log
       /\ Forall (freshLoan now) new
       /\ Forall allocateRecord log
       /\ length new = length log.
Proof.
  induction 1 as [w|w i j k a w' _ IH]; intros Hst.
  - split; [assumption|]. split; [tauto|]. split.
    + intros isbn. split; [reflexivity|].
      pose proof (stockOk_in_range isbn w Hst). lia.
    + exists [], []. rewrite !app_nil_r. repeat split; constructor.
  - destruct (grant_effects i j k a now w Hst)
      as (G1 & G2 & G3 & new1 & log1 & G4 & G5 & G6 & G7 & G8).
    destruct (IH G1) as (I1 & I2 & I3 & new2 & log2 & I4 & I5 & I6 & I7 & I8).
    split; [assumption|]. split; [|split].
    + intros isbn Hc. apply I2, G2. assumption.
    + intros isbn. destruct (G3 isbn) as [Ga Gb]. destruct (I3 isbn) as [Ia Ib].
      split; [congruence|lia].
    + exists (new1 ++ new2), (log1 ++ log2).
      rewrite I4, G4, I5, G5, <- !app_assoc.
      split; [reflexivity|]. split; [reflexivity|].
      split; [apply Forall_app; tauto|].
      split; [apply Forall_app; tauto|].
      rewrite !length_app. lia.
Qed.

(** ** What no cycle does *)

(** Conservation through a cycle of part_000: whatever the strategy, the
    iteration and the pop order, if the stock counts are non-negative
    [int]s and "total added = available + open loans" holds for an ISBN
    before the cycle, it holds after it. *)
Theorem cycle_keeps_conservation strategy now w w' :
  stockOk (Complete.inventory w) ->
  Complete.GovernmentBooksManagementSystem.dispatch strategy now w w' ->
  stockOk (Complete.inventory w')
  /\ forall isbn,
       conserved isbn (Complete.inventory w) (Complete.loanMgr w) ->
       conserved isbn (Complete.inventory w') (Complete.loanMgr w').
Proof.
  intros Hst Hd. apply dispatch_grantsTo in Hd.
  destruct (grantsTo_effects now w w' Hd Hst) as (H1 & H2 & _). tauto.
Qed.

Lemma precedenceWorld_dispatch :
  Complete.GovernmentBooksManagementSystem.dispatch Complete.PriorityBased 1
    precedenceWorld
    (Complete.PriorityBasedDistribution.distributeFifo 1 precedenceWorld).
Proof. apply distributeFifo_distribute. Qed.

Lemma precedenceWorld_stockOk : stockOk (Complete.inventory precedenceWorld).
Proof. apply stockOf_ok. unfold CInt.int_max. lia. Qed.

Lemma cycle_keeps_conservation_witness :
  conserved "B1"
    (Complete.inventory
       (Complete.PriorityBasedDistribution.distributeFifo 1 precedenceWorld))
    (Complete.loanMgr
       (Complete.PriorityBasedDistribution.distributeFifo 1 precedenceWorld)).
Proof.
  apply (cycle_keeps_conservation Complete.PriorityBased 1 precedenceWorld).
  - exact precedenceWorld_stockOk.
  - exact precedenceWorld_dispatch.
  - vm_compute. reflexivity.
Defined.

(** A cycle never adds stock: for every ISBN the total ever added is
    unchanged, and the available quantity does not grow and stays
    non-negative. *)
Theorem cycle_never_adds_stock strategy now w w' :
  stockOk (Complete.inventory w) ->
  Complete.GovernmentBooksManagementSystem.dispatch strategy now w w' ->
  forall isbn,
    totalAdded isbn (Complete.inventory w')
    = totalAdded isbn (Complete.inventory w)
    /\ 0 <= Complete.getAvailable isbn w' <= Complete.getAvailable isbn w.
Proof.
  intros Hst Hd. apply dispatch_grantsTo in Hd.
  destruct (grantsTo_effects now w w' Hd Hst) as (_ & _ & H3 & _). exact H3.
Qed.

Lemma cycle_never_adds_stock_witness :
  0 <= Complete.getAvailable "B1"
         (Complete.PriorityBasedDistribution.distributeFifo 1 precedenceWorld)
  <= Complete.getAvailable "B1" precedenceWorld.
Proof.
  apply (cycle_never_adds_stock Complete.PriorityBased 1 precedenceWorld).
  - exact precedenceWorld_stockOk.
  - exact precedenceWorld_dispatch.
Defined.

(** A cycle only appends to the loans and to the inventory's log: the
    loans and records there before stay as they are, every new loan is
    open, of a positive quantity below 1,000,000, issued now and due in
    180 days, every new record is an ALLOCATE record, and there are as
    many new loans as new records. *)
Theorem cycle_appends_loans_and_records strategy now w w' :
  stockOk (Complete.inventory w) ->
  Complete.GovernmentBooksManagementSystem.dispatch strategy now w w' ->
  exists new log,
    Complete.loanMgr w' = Complete.loanMgr w ++ new
    /\ InventoryState.transactionLog (Complete.inventory w')
       = InventoryState.transactionLog (Complete.inventory w) ++ log
    /\ Forall (freshLoan now) new
    /\ Forall allocateRecord log
    /\ length new = length log.
Proof.
  intros Hst Hd. apply dispatch_grantsTo in Hd.
  destruct (grantsTo_effects now w w' Hd Hst) as (_ & _ & _ & H4). exact H4.
Qed.

Lemma cycle_appends_loans_and_records_witness :
  exists new log,
    Complete.loanMgr
      (Complete.PriorityBasedDistribution.distributeFifo 1 precedenceWorld)
    = Complete.loanMgr precedenceWorld ++ new
    /\ InventoryState.transactionLog
         (Complete.inventory
            (Complete.PriorityBasedDistribution.distributeFifo 1 precedenceWorld))
       = InventoryState.transactionLog (Complete.inventory precedenceWorld) ++ log
    /\ Forall (freshLoan 1) new
    /\ Forall allocateRecord log
    /\ length new = length log.
Proof.
  apply (cycle_appends_loans_and_records Complete.PriorityBased 1 precedenceWorld).
  - exact precedenceWorld_stockOk.
  - exact precedenceWorld_dispatch.
Defined.

(** ** The validator and the constructor of [Book] *)

Lemma hyphen_is_no_digit : Complete.Validator.isdigit "-"%char = false.
Proof. reflexivity. Qed.

Lemma cleaned_digits (l : list ascii) :
  forallb Complete.Validator.isdigit
    (List.filter (fun c => negb (Ascii.eqb c "-"%char)) l) = true
  <-> Forall (fun c => Complete.Validator.isdigit c = true \/ c = "-"%char) l.
Proof.
  induction l as [|c l IH]; simpl.
  - split; [constructor|reflexivity].
  - destruct (Ascii.eqb_spec c "-"%char) as [->|Hne]; simpl.
    + rewrite IH. split.
      * intros H. constructor; [right; reflexivity|assumption].
      * intros H. apply Forall_inv_tail in H. assumption.
    + rewrite andb_true_iff, IH. split.
      * intros [Hd H]. constructor; [left|]; assumption.
      * intros H. split; [|apply Forall_inv_tail in H; assumption].
        apply Forall_inv in H. destruct H; [assumption|contradiction].
Qed.

Lemma cleaned_is_digits (l : list ascii) :
  Forall (fun c => Complete.Validator.isdigit c = true \/ c = "-"%char) l ->
  List.filter (fun c => negb (Ascii.eqb c "-"%char)) l
  = List.filter Complete.Validator.isdigit l.
Proof.
  induction 1 as [|c l Hc _ IH]; simpl; [reflexivity|].
  destruct Hc as [Hd| ->].
  - rewrite Hd.
    destruct (Ascii.eqb_spec c "-"%char) as [->|_];
      [rewrite hyphen_is_no_digit in Hd; discriminate|].
    simpl. f_equal. assumption.
  - rewrite hyphen_is_no_digit. simpl. assumption.
Qed.

(** [isValidISBN] accepts exactly the strings made of digits and hyphens
    that hold 10 or 13 digits: where the hyphens stand, and how many
    there are, does not matter. *)
Theorem isValidISBN_spec isbn :
  Complete.Validator.isValidISBN isbn = true
  <-> Forall (fun c => Complete.Validator.isdigit c = true \/ c = "-"%char)
             (String.list_ascii_of_string isbn)
      /\ (length (digitsOf isbn) = 10%nat \/ length (digitsOf isbn) = 13%nat).
Proof.
  unfold Complete.Validator.isValidISBN, Complete.Validator.cleaned, digitsOf.
  rewrite andb_true_iff, cleaned_digits, orb_true_iff, !Nat.eqb_eq.
  split.
  - intros [Hlen Hall]. split; [assumption|].
    rewrite <- (cleaned_is_digits _ Hall). assumption.
  - intros [Hall Hlen]. split; [|assumption].
    rewrite (cleaned_is_digits _ Hall). assumption.
Qed.

(** The constructor of [Book] in part_000 throws for an ISBN that is not
    valid, whatever the year; for a valid ISBN it throws for a year
    outside 1900..2100, and otherwise builds the book. *)
Theorem newBook_spec isbn title author cat year pub :
  (Complete.Validator.isValidISBN isbn = false ->
   Complete.newBook isbn title author cat year pub
   = inr (InvalidInputException "Invalid ISBN format"))
  /\ (Complete.Validator.isValidISBN isbn = true ->
      ~ 1900 <= year <= 2100 ->
      Complete.newBook isbn title author cat year pub
      = inr (InvalidInputException "Invalid publication year"))
  /\ (Complete.Validator.isValidISBN isbn = true ->
      1900 <= year <= 2100 ->
      Complete.newBook isbn title author cat year pub
      = inl (Book.mk isbn title author cat year pub)).
Proof.
  unfold Complete.newBook, Complete.Validator.isValidYear.
  split; [|split].
  - intros ->. reflexivity.
  - intros -> Hy. simpl.
    destruct (Z.leb_spec 1900 year); destruct (Z.leb_spec year 2100); simpl;
      try reflexivity. lia.
  - intros -> Hy. simpl.
    destruct (Z.leb_spec 1900 year); destruct (Z.leb_spec year 2100); simpl;
      try reflexivity; lia.
Qed.

Lemma newBook_spec_witness :
  Complete.newBook "978-0-13-468599-1" "T" "A" SCIENCE 2018 "P"
  = inl (Book.mk "978-0-13-468599-1" "T" "A" SCIENCE 2018 "P")
  /\ Complete.newBook "B1" "T" "A" SCIENCE 2018 "P"
     = inr (InvalidInputException "Invalid ISBN format").
Proof.
  split.
  - apply (newBook_spec "978-0-13-468599-1" "T" "A" SCIENCE 2018 "P").
    + reflexivity.
    + lia.
  - apply (newBook_spec "B1" "T" "A" SCIENCE 2018 "P"). reflexivity.
Defined.

(** ** Requests and their collection *)

(** The status after [fulfillPartial], for a quantity between 0 and what
    the request still needs: FULFILLED exactly when nothing remains,
    else PARTIALLY_FULFILLED once something is fulfilled, else the old
    status.  A request that reaches FULFILLED is no longer pending, so
    no later cycle collects it. *)
Theorem fulfillPartial_status qty r :
  requestOk r ->
  0 <= qty <= BookRequest.quantityRequested r - BookRequest.quantityFulfilled r ->
  let r' := BookRequest.fulfillPartial qty r in
  BookRequest.status r'
  = (if BookRequest.quantityRequested r
        =? BookRequest.quantityFulfilled r + qty
     then FULFILLED
     else if 0 <? BookRequest.quantityFulfilled r + qty
          then PARTIALLY_FULFILLED
          else BookRequest.status r)
  /\ (BookRequest.quantityFulfilled r + qty = BookRequest.quantityRequested r ->
      BookRequest.isPending r' = false)
  /\ (BookRequest.quantityFulfilled r + qty < BookRequest.quantityRequested r ->
      BookRequest.isPending r = true ->
      BookRequest.isPending r' = true).
Proof.
  intros Hr Hq. cbv zeta.
  destruct (fulfillPartial_ok qty r Hr Hq) as (_ & Hf & _).
  assert (E : CInt.add (BookRequest.quantityFulfilled r) qty
              = BookRequest.quantityFulfilled r + qty) by exact Hf.
  unfold BookRequest.fulfillPartial, BookRequest.isPending. simpl. rewrite E.
  destruct (Z.leb_spec (BookRequest.quantityRequested r)
              (BookRequest.quantityFulfilled r + qty));
    destruct (Z.eqb_spec (BookRequest.quantityRequested r)
                (BookRequest.quantityFulfilled r + qty)); try lia.
  - repeat split; intros; lia.
  - destruct (Z.ltb_spec 0 (BookRequest.quantityFulfilled r + qty)).
    + repeat split; intros; lia.
    + repeat split; intros; try lia. assumption.
Qed.

Lemma fulfillPartial_status_witness :
  BookRequest.status
    (BookRequest.fulfillPartial 60 (sampleRequest "B1" 60 HIGH)) = FULFILLED.
Proof.
  destruct (fulfillPartial_status 60 (sampleRequest "B1" 60 HIGH)) as (H & _).
  - repeat split; simpl; try lia; vm_compute; discriminate.
  - simpl. lia.
  - rewrite H. reflexivity.
Defined.

(** The two collecting loops yield every request whose status is PENDING
    or PARTIALLY_FULFILLED, under its position, exactly once, and no
    other request. *)
Theorem pending_requests_collected_once insts :
  NoDup (fst <$> Complete.pendingRequests insts)
  /\ forall i j r,
       (i, j, r) ∈ Complete.pendingRequests insts
       <-> exists inst,
             insts !! i = Some inst
             /\ Institution.requests inst !! j = Some r
             /\ (BookRequest.status r = PENDING
                 \/ BookRequest.status r = PARTIALLY_FULFILLED).
Proof.
  split; [apply pendingRequests_NoDup|].
  intros i j r. rewrite pendingRequests_elem.
  unfold BookRequest.isPending.
  split; intros (inst & Hi & Hj & Hp); exists inst;
    (split; [assumption|split; [assumption|]]).
  - destruct (BookRequest.status r); try discriminate; tauto.
  - destruct Hp as [-> | ->]; reflexivity.
Qed.

(** The groups of the two maps of part_000, in increasing order of the
    ISBN: under each ISBN the tuples of the pending requests for it that
    still need copies, in the order of collection, and no empty group. *)
Theorem maps_group_by_isbn insts :
  (keysSorted (Complete.NeedBasedDistribution.needMap insts)
   /\ forall k g,
        (k, g) ∈ Complete.NeedBasedDistribution.needMap insts
        <-> g = needsFor k insts /\ g <> [])
  /\ (keysSorted (Complete.EqualDistribution.needingMap insts)
      /\ forall k g,
           (k, g) ∈ Complete.EqualDistribution.needingMap insts
           <-> g = pairsFor k insts /\ g <> []).
Proof.
  split; split.
  - rewrite needMap_buildMap. apply buildMap_sorted. constructor.
  - intros k g. apply needMap_group.
  - rewrite needingMap_buildMap. apply buildMap_sorted. constructor.
  - intros k g. apply needingMap_group.
Qed.

(** The priority cycle always has a run, and in every run the pending
    requests are served each once, in an order that never puts a request
    before one of higher priority. *)
Theorem priority_cycle_runs now w :
  (exists w', Complete.PriorityBasedDistribution.distribute now w w')
  /\ forall w',
       Complete.PriorityBasedDistribution.distribute now w w' ->
       exists order,
         w' = Complete.PriorityBasedDistribution.processQueue now order w
         /\ order ≡ₚ Complete.PriorityBasedDistribution.pendingItems
                       (Complete.institutions w)
         /\ NoDup ((fun it => (Complete.PriorityBasedDistribution.inst it,
                               Complete.PriorityBasedDistribution.req it))
                     <$> order)
         /\ forall before hi after lo,
              order = before ++ hi :: after -> lo ∈ after ->
              priorityValue (BookRequest.priority
                               (Complete.PriorityBasedDistribution.request lo))
              <= priorityValue (BookRequest.priority
                                  (Complete.PriorityBasedDistribution.request hi)).
Proof.
  split.
  - eexists. apply distributeFifo_distribute.
  - intros w' (order & [Hperm Hsorted] & ->). exists order.
    split; [reflexivity|]. split; [symmetry; assumption|]. split.
    + rewrite <- Hperm, pendingItems_positions. apply pendingRequests_NoDup.
    + intros before hi after lo -> Hlo.
      assert (Hs : StronglySorted
                     (fun a b => Complete.PriorityBasedDistribution.cmp a b = false)
                     (hi :: after)).
      { clear -Hsorted. induction before as [|x before IH]; [assumption|].
        apply IH. simpl in Hsorted. apply StronglySorted_inv in Hsorted. tauto. }
      apply StronglySorted_inv in Hs as [_ Hf].
      rewrite Forall_forall in Hf. specialize (Hf lo Hlo).
      unfold Complete.PriorityBasedDistribution.cmp in Hf. lia.
Qed.

(** ** Overdue loans and the need of an institution *)

Lemma List_filter_sublist {A : Type} (f : A -> bool) (l : list A) :
  List.filter f l `sublist_of` l.
Proof.
  induction l as [|x l IH]; simpl; [constructor|].
  destruct (f x); [apply sublist_skip|apply sublist_cons]; assumption.
Qed.

(** [getOverdueLoans] lists, in the order of issue, exactly the loans
    that are not returned and whose due date has passed; a loan that is
    overdue stays overdue later until it is returned. *)
Theorem overdue_loans_spec now loans :
  (forall l, l ∈ Complete.LoanManagement.getOverdueLoans now loans
             <-> l ∈ loans
                 /\ Complete.BookLoan.isReturned l = false
                 /\ Complete.BookLoan.dueDate l < now)
  /\ Complete.LoanManagement.getOverdueLoans now loans `sublist_of` loans
  /\ forall later l,
       now <= later ->
       l ∈ Complete.LoanManagement.getOverdueLoans now loans ->
       l ∈ Complete.LoanManagement.getOverdueLoans later loans.
Proof.
  assert (H : forall t l,
            l ∈ Complete.LoanManagement.getOverdueLoans t loans
            <-> l ∈ loans
                /\ Complete.BookLoan.isReturned l = false
                /\ Complete.BookLoan.dueDate l < t).
  { intros t l. unfold Complete.LoanManagement.getOverdueLoans.
    rewrite list_elem_of_In, filter_In, <- list_elem_of_In.
    unfold Complete.BookLoan.isOverdue.
    destruct (Complete.BookLoan.isReturned l).
    - split; [intros [_ F]; discriminate|intros (_ & F & _); discriminate].
    - rewrite Z.ltb_lt. tauto. }
  split; [apply H|]. split.
  - apply List_filter_sublist.
  - intros later l Hle Hin. apply H. apply H in Hin. intuition lia.
Qed.

(** [calculateNeed] of final.cpp is never negative: it is what the
    students need beyond the current holding, or 0 when the holding
    covers it (the [int] product and difference taken as exact). *)
Theorem calculateNeed_spec isbn booksPerStudent (i : Institution.t) :
  let wanted := Institution.studentCount i * booksPerStudent in
  let current := Institution.getCurrentStock isbn i in
  0 <= Final.calculateNeed isbn booksPerStudent i
  /\ (CInt.in_range wanted -> CInt.in_range (wanted - current) ->
      Final.calculateNeed isbn booksPerStudent i = Z.max 0 (wanted - current)
      /\ (Final.calculateNeed isbn booksPerStudent i = 0 <-> wanted <= current)).
Proof.
  cbv zeta. unfold Final.calculateNeed. split; [lia|].
  intros H1 H2. rewrite (mul_exact _ _ H1), (sub_exact _ _ H2).
  split; [reflexivity|lia].
Qed.

Lemma calculateNeed_spec_witness :
  Final.calculateNeed "B1" 2 (sampleInstitution "X" []) = 200.
Proof.
  destruct (calculateNeed_spec "B1" 2 (sampleInstitution "X" [])) as [_ H].
  destruct H as [H _].
  - vm_compute. split; discriminate.
  - vm_compute. split; discriminate.
  - rewrite H. reflexivity.
Defined.

(** ** The facade through a cycle, and conservation without returns *)

(** A run of [executeDistribution] keeps the users, the strategy, the
    current user and the waiting list, and the same institution ids are
    registered before and after. *)
Theorem executeDistribution_frame now
    (sys sys' : Complete.GovernmentBooksManagementSystem.t) :
  Complete.GovernmentBooksManagementSystem.executeDistribution now sys sys' ->
  Complete.GovernmentBooksManagementSystem.users sys'
  = Complete.GovernmentBooksManagementSystem.users sys
  /\ Complete.GovernmentBooksManagementSystem.distributionStrategy sys'
     = Complete.GovernmentBooksManagementSystem.distributionStrategy sys
  /\ Complete.GovernmentBooksManagementSystem.currentUser sys'
     = Complete.GovernmentBooksManagementSystem.currentUser sys
  /\ Complete.GovernmentBooksManagementSystem.waitingList sys'
     = Complete.GovernmentBooksManagementSystem.waitingList sys
  /\ forall id,
       is_Some (Complete.GovernmentBooksManagementSystem.getInstitution id sys')
       <-> is_Some (Complete.GovernmentBooksManagementSystem.getInstitution id sys).
Proof.
  intros (order & w' & [_ Hord] & _ & ->). simpl.
  repeat split; try reflexivity.
  - unfold Complete.GovernmentBooksManagementSystem.getInstitution. simpl.
    rewrite lookup_union_is_Some. intros [H|H]; [|assumption].
    apply Hord.
    destruct (decide (id ∈ (zip order (Complete.institutions w')).*1))
      as [Hin|Hnin].
    + apply list_elem_of_fmap in Hin as ([k v] & -> & Hin).
      apply elem_of_zip_l in Hin. assumption.
    + apply not_elem_of_list_to_map_1 in Hnin.
      rewrite Hnin in H. destruct H. discriminate.
  - unfold Complete.GovernmentBooksManagementSystem.getInstitution. simpl.
    rewrite lookup_union_is_Some. tauto.
Qed.

Lemma executeDistribution_frame_witness :
  Complete.GovernmentBooksManagementSystem.users
    (Complete.GovernmentBooksManagementSystem.executeDistributionIn
       ["X"] 3 sampleWaiting)
  = Complete.GovernmentBooksManagementSystem.users sampleWaiting.
Proof.
  apply (executeDistribution_frame 3 sampleWaiting).
  apply executeDistributionIn_executeDistribution. split.
  - repeat constructor. intros Hin. apply elem_of_nil in Hin. exact Hin.
  - intros id. rewrite list_elem_of_singleton, <- elem_of_dom.
    assert (Ed : dom (Complete.GovernmentBooksManagementSystem.institutions
                        sampleWaiting) = ({["X"]} : gset string))
      by (vm_compute; reflexivity).
    rewrite Ed. rewrite elem_of_singleton. reflexivity.
Defined.

Lemma totalAdded_add isbn inv stock' cat' k q now :
  totalAdded isbn
    (InventoryState.mk stock' cat'
       (InventoryState.transactionLog inv ++ [Transaction.mk k q "ADD" now]))
  = totalAdded isbn inv + (if String.eqb k isbn then q else 0).
Proof.
  unfold totalAdded. simpl.
  induction (InventoryState.transactionLog inv) as [|tx log IH]; simpl.
  - destruct (String.eqb k isbn); lia.
  - rewrite IH.
    destruct (String.eqb (Transaction.type tx) "ADD"
              && String.eqb (Transaction.isbn tx) isbn); lia.
Qed.

(** Adding books keeps the stock a stock and keeps conservation, when
    the new count is an [int]. *)
Lemma addBook_keeps_conservation book q now inv inv' loans :
  Complete.BookInventory.addBook book q now inv = inl inv' ->
  InventoryState.getAvailableQuantity (Book.isbn book) inv + q <= CInt.int_max ->
  stockOk inv ->
  stockOk inv'
  /\ forall isbn, conserved isbn inv loans -> conserved isbn inv' loans.
Proof.
  unfold Complete.BookInventory.addBook.
  destruct (Complete.Validator.isValidQuantity q) eqn:V; [|discriminate].
  apply isValidQuantity_spec in V. simpl. intros E Hmax Hst.
  injection E as <-.
  unfold InventoryState.addChecked, InventoryState.getAvailableQuantity in *.
  destruct (InventoryState.stock inv !! Book.isbn book) as [[b s]|] eqn:Hs.
  - pose proof (Hst _ _ _ Hs) as Hr.
    assert (Ea : CInt.add s q = s + q).
    { apply add_exact. unfold CInt.in_range, CInt.int_min, CInt.int_max in *.
      lia. }
    split.
    + intros k b' s' H. simpl in H.
      destruct (decide (k = Book.isbn book)) as [->|Hne].
      * rewrite lookup_insert_eq in H. injection H as <- <-. rewrite Ea. lia.
      * rewrite lookup_insert_ne in H by congruence. eapply Hst. eassumption.
    + intros isbn Hc. unfold conserved, InventoryState.getAvailableQuantity in *.
      rewrite totalAdded_add. simpl.
      destruct (String.eqb_spec (Book.isbn book) isbn) as [<-|Hne].
      * rewrite lookup_insert_eq. rewrite Hs in Hc. lia.
      * rewrite lookup_insert_ne by assumption. lia.
  - split.
    + intros k b' s' H. simpl in H.
      destruct (decide (k = Book.isbn book)) as [->|Hne].
      * rewrite lookup_insert_eq in H. injection H as <- <-.
        unfold CInt.int_max. lia.
      * rewrite lookup_insert_ne in H by congruence. eapply Hst. eassumption.
    + intros isbn Hc. unfold conserved, InventoryState.getAvailableQuantity in *.
      rewrite totalAdded_add. simpl.
      destruct (String.eqb_spec (Book.isbn book) isbn) as [<-|Hne].
      * rewrite lookup_insert_eq. rewrite Hs in Hc. lia.
      * rewrite lookup_insert_ne by assumption. lia.
Qed.

Lemma facadeStep_keeps_conservation sys sys' :
  facadeStep sys sys' ->
  stockOk (Complete.GovernmentBooksManagementSystem.centralInventory sys) ->
  (forall isbn,
     conserved isbn
       (Complete.GovernmentBooksManagementSystem.centralInventory sys)
       (Complete.GovernmentBooksManagementSystem.loanManager sys)) ->
  stockOk (Complete.GovernmentBooksManagementSystem.centralInventory sys')
  /\ forall isbn,
       conserved isbn
         (Complete.GovernmentBooksManagementSystem.centralInventory sys')
         (Complete.GovernmentBooksManagementSystem.loanManager sys').
Proof.
  intros Hstep Hst Hc. destruct Hstep as
    [sys sys' book q now Hadd Hmax|sys inst|sys user
    |sys sys' instId isbn q p now Hsub|sys strategy|sys userId password|sys
    |sys sys' now Hcycle]; try (split; assumption).
  - unfold Complete.GovernmentBooksManagementSystem.addBookToInventory in Hadd.
    destruct (Complete.BookInventory.addBook book q now
                (Complete.GovernmentBooksManagementSystem.centralInventory sys))
      as [inv'|e] eqn:E; [|discriminate].
    injection Hadd as <-. simpl.
    destruct (addBook_keeps_conservation book q now _ inv'
                (Complete.GovernmentBooksManagementSystem.loanManager sys)
                E Hmax Hst) as [H1 H2].
    split; [assumption|]. intros isbn. apply H2, Hc.
  - unfold Complete.GovernmentBooksManagementSystem.submitBookRequest in Hsub.
    destruct (Complete.GovernmentBooksManagementSystem.getInstitution instId sys);
      [|discriminate].
    destruct (InventoryState.getBook isbn _); [|discriminate].
    injection Hsub as <-. split; assumption.
  - unfold Complete.GovernmentBooksManagementSystem.login.
    destruct (Complete.GovernmentBooksManagementSystem.users sys !! userId)
      as [u|]; [|split; assumption].
    destruct (Complete.User.authenticate password u); split; assumption.
  - destruct Hcycle as (order & w' & _ & Hd & ->). simpl.
    apply dispatch_grantsTo in Hd.
    destruct (grantsTo_effects now _ w' Hd Hst) as (H1 & H2 & _).
    split; [assumption|]. intros isbn. apply (H2 isbn), Hc.
Qed.

(** Conservation without returns: in every state the facade of part_000
    reaches from a new system by adding books (within [int]), registering
    institutions and users, submitting requests, choosing a strategy,
    logging in and out and running distribution cycles, every stock count
    is a non-negative [int] and, for every ISBN, the total ever added is
    the available quantity plus the quantities of the open loans. *)
Theorem conservation_without_returns
    (sys : Complete.GovernmentBooksManagementSystem.t) :
  reachable sys ->
  stockOk (Complete.GovernmentBooksManagementSystem.centralInventory sys)
  /\ forall isbn,
       conserved isbn
         (Complete.GovernmentBooksManagementSystem.centralInventory sys)
         (Complete.GovernmentBooksManagementSystem.loanManager sys).
Proof.
  induction 1 as [strategy|sys sys' _ [IH1 IH2] Hstep].
  - split.
    + intros isbn b s H. simpl in H. rewrite lookup_empty in H. discriminate.
    + intros isbn. reflexivity.
  - apply (facadeStep_keeps_conservation sys sys' Hstep IH1 IH2).
Qed.

Lemma sampleDistributed_reachable : reachable sampleDistributed.
Proof.
  set (s0 := Complete.GovernmentBooksManagementSystem.new Complete.PriorityBased).
  set (s1 := committed s0
               (Complete.GovernmentBooksManagementSystem.addBookToInventory
                  (sampleBook "B1") 100 1 s0)).
  set (s2 := Complete.GovernmentBooksManagementSystem.registerInstitution
               (sampleInstitution "X" []) s1).
  assert (R1 : reachable s1).
  { apply (reachableStep s0); [apply reachableNew|].
    apply (stepAddBook s0 s1 (sampleBook "B1") 100 1).
    - vm_compute. reflexivity.
    - vm_compute. discriminate. }
  assert (R2 : reachable s2).
  { apply (reachableStep s1); [exact R1|]. apply stepRegisterInstitution. }
  assert (R3 : reachable sampleSubmitted).
  { apply (reachableStep s2); [exact R2|].
    apply (stepSubmit s2 sampleSubmitted "X" "B1" 60 HIGH 2).
    vm_compute. reflexivity. }
  apply (reachableStep sampleSubmitted); [exact R3|].
  apply (stepCycle sampleSubmitted sampleDistributed 3).
  apply executeDistributionIn_executeDistribution. split.
  - repeat constructor. intros Hin. apply elem_of_nil in Hin. exact Hin.
  - intros id. rewrite list_elem_of_singleton, <- elem_of_dom.
    assert (Ed : dom (Complete.GovernmentBooksManagementSystem.institutions
                        sampleSubmitted) = ({["X"]} : gset string))
      by (vm_compute; reflexivity).
    rewrite Ed. rewrite elem_of_singleton. reflexivity.
Qed.

Lemma conservation_without_returns_witness :
  conserved "B1"
    (Complete.GovernmentBooksManagementSystem.centralInventory sampleDistributed)
    (Complete.GovernmentBooksManagementSystem.loanManager sampleDistributed).
Proof.
  apply (conservation_without_returns sampleDistributed).
  exact sampleDistributed_reachable.
Defined.

(** ** The two versions of the priority strategy *)

Lemma allocateBooks_versions_agree isbn q now inv :
  q < 1000000 ->
  Final.BookInventory.allocateBooks isbn q now inv
  = Complete.BookInventory.allocateBooks isbn q now inv.
Proof.
  intros Hq.
  unfold Final.BookInventory.allocateBooks, Complete.BookInventory.allocateBooks,
    Complete.Validator.isValidQuantity.
  destruct (Z.leb_spec q 0) as [H|H].
  - replace ((0 <? q) && (q <? 1000000)) with false by lia. reflexivity.
  - replace ((0 <? q) && (q <? 1000000)) with true by lia. reflexivity.
Qed.

Lemma processItem_versions_agree now it w :
  Complete.getAvailable
    (BookRequest.isbn (Complete.PriorityBasedDistribution.request it)) w
  < 1000000 ->
  Final.PriorityBasedDistribution.processItem now (finalItem it) (withoutLoans w)
  = withoutLoans (Complete.PriorityBasedDistribution.processItem now it w).
Proof.
  intros Hb.
  unfold Final.PriorityBasedDistribution.processItem,
    Complete.PriorityBasedDistribution.processItem, Complete.grant.
  change (Final.getAvailable
            (BookRequest.isbn
               (Final.PriorityBasedDistribution.request (finalItem it)))
            (withoutLoans w))
    with (Complete.getAvailable
            (BookRequest.isbn (Complete.PriorityBasedDistribution.request it)) w).
  simpl.
  destruct (_ <=? 0); [reflexivity|].
  destruct (Complete.institutions w !! Complete.PriorityBasedDistribution.inst it)
    as [i|]; [|reflexivity].
  rewrite allocateBooks_versions_agree by lia.
  destruct (Complete.BookInventory.allocateBooks _ _ _ _) as [[|] inv'];
    reflexivity.
Qed.

Lemma processItem_keeps_bound now it w :
  stockOk (Complete.inventory w) ->
  stockBelowBound (Complete.inventory w) ->
  stockOk (Complete.inventory
             (Complete.PriorityBasedDistribution.processItem now it w))
  /\ stockBelowBound
       (Complete.inventory
          (Complete.PriorityBasedDistribution.processItem now it w)).
Proof.
  intros Hst Hb. unfold Complete.PriorityBasedDistribution.processItem.
  destruct (_ <=? 0); [split; assumption|].
  destruct (grant_effects (Complete.PriorityBasedDistribution.inst it)
              (Complete.PriorityBasedDistribution.req it)
              (BookRequest.isbn (Complete.PriorityBasedDistribution.request it))
              (Z.min (Complete.PriorityBasedDistribution.needed it)
                 (Complete.getAvailable
                    (BookRequest.isbn
                       (Complete.PriorityBasedDistribution.request it)) w))
              now w Hst) as (H1 & _ & H3 & _).
  split; [assumption|]. intros isbn.
  destruct (H3 isbn) as [_ H]. specialize (Hb isbn).
  unfold stockBelowBound, Complete.getAvailable in *. lia.
Qed.

Lemma processQueue_versions_agree now order w :
  stockOk (Complete.inventory w) ->
  stockBelowBound (Complete.inventory w) ->
  Final.PriorityBasedDistribution.processQueue now (finalItem <$> order)
    (withoutLoans w)
  = withoutLoans (Complete.PriorityBasedDistribution.processQueue now order w).
Proof.
  revert w. induction order as [|it order IH]; intros w Hst Hb; [reflexivity|].
  simpl. rewrite processItem_versions_agree by apply Hb.
  destruct (processItem_keeps_bound now it w Hst Hb) as [H1 H2].
  apply IH; assumption.
Qed.

Lemma finalItem_completeItem it : finalItem (completeItem it) = it.
Proof. destruct it. reflexivity. Qed.

Lemma completeItem_finalItem it : completeItem (finalItem it) = it.
Proof. destruct it. reflexivity. Qed.

Lemma pendingItems_versions insts :
  Final.PriorityBasedDistribution.pendingItems insts
  = finalItem <$> Complete.PriorityBasedDistribution.pendingItems insts.
Proof.
  unfold Final.PriorityBasedDistribution.pendingItems,
    Complete.PriorityBasedDistribution.pendingItems.
  change (Final.pendingRequests insts) with (Complete.pendingRequests insts).
  induction (Complete.pendingRequests insts) as [|p l IH]; [reflexivity|].
  simpl. f_equal. exact IH.
Qed.

Lemma popOrder_finalItem pushed order :
  Complete.PriorityBasedDistribution.popOrder pushed order ->
  Final.PriorityBasedDistribution.popOrder
    (finalItem <$> pushed) (finalItem <$> order).
Proof.
  intros [Hp Hs]. split.
  - apply fmap_Permutation. assumption.
  - clear Hp. induction Hs as [|a l _ IH Hall]; simpl; constructor.
    + assumption.
    + apply Forall_fmap. eapply Forall_impl; [exact Hall|].
      intros b Hb. exact Hb.
Qed.

Lemma popOrder_completeItem pushed order :
  Final.PriorityBasedDistribution.popOrder pushed order ->
  Complete.PriorityBasedDistribution.popOrder
    (completeItem <$> pushed) (completeItem <$> order).
Proof.
  intros [Hp Hs]. split.
  - apply fmap_Permutation. assumption.
  - clear Hp. induction Hs as [|a l _ IH Hall]; simpl; constructor.
    + assumption.
    + apply Forall_fmap. eapply Forall_impl; [exact Hall|].
      intros b Hb. exact Hb.
Qed.

Lemma fmap_finalItem_completeItem
    (l : list Final.PriorityBasedDistribution.Item) :
  finalItem <$> (completeItem <$> l) = l.
Proof.
  induction l as [|x l IH]; [reflexivity|].
  simpl. rewrite finalItem_completeItem. f_equal. exact IH.
Qed.

Lemma fmap_completeItem_finalItem
    (l : list Complete.PriorityBasedDistribution.Item) :
  completeItem <$> (finalItem <$> l) = l.
Proof.
  induction l as [|x l IH]; [reflexivity|].
  simpl. rewrite completeItem_finalItem. f_equal. exact IH.
Qed.

(** While every stock count is a non-negative [int] below 1,000,000, the
    priority strategy of final.cpp and that of part_000 do the same to
    the inventory and to the institutions: the worlds a cycle of
    final.cpp may end in are the worlds a cycle of part_000 may end in,
    without the loans. *)
Theorem priority_versions_agree now w wf :
  stockOk (Complete.inventory w) ->
  stockBelowBound (Complete.inventory w) ->
  Final.PriorityBasedDistribution.distribute now (withoutLoans w) wf
  <-> exists w',
        Complete.PriorityBasedDistribution.distribute now w w'
        /\ wf = withoutLoans w'.
Proof.
  intros Hst Hb. split.
  - intros (order & Ho & ->).
    exists (Complete.PriorityBasedDistribution.processQueue now
              (completeItem <$> order) w).
    split.
    + exists (completeItem <$> order). split; [|reflexivity].
      apply popOrder_completeItem in Ho.
      change (Final.institutions (withoutLoans w))
        with (Complete.institutions w) in Ho.
      rewrite pendingItems_versions, fmap_completeItem_finalItem in Ho.
      exact Ho.
    + rewrite <- processQueue_versions_agree by assumption.
      rewrite fmap_finalItem_completeItem. reflexivity.
  - intros (w' & (order & Ho & ->) & ->).
    exists (finalItem <$> order). split.
    + change (Final.institutions (withoutLoans w))
        with (Complete.institutions w).
      rewrite pendingItems_versions. apply popOrder_finalItem. exact Ho.
    + symmetry. apply processQueue_versions_agree; assumption.
Qed.

Lemma precedenceWorld_belowBound :
  stockBelowBound (Complete.inventory precedenceWorld).
Proof.
  intros isbn. unfold precedenceWorld, stockOf. simpl.
  unfold InventoryState.getAvailableQuantity, InventoryState.addChecked. simpl.
  rewrite lookup_empty. simpl.
  destruct (decide (isbn = "B1")) as [->|Hne].
  - rewrite lookup_insert_eq. lia.
  - rewrite lookup_insert_ne by congruence. rewrite lookup_empty. lia.
Qed.

Lemma priority_versions_agree_witness :
  Final.PriorityBasedDistribution.distribute 1 (withoutLoans precedenceWorld)
    (withoutLoans
       (Complete.PriorityBasedDistribution.distributeFifo 1 precedenceWorld)).
Proof.
  apply (priority_versions_agree 1 precedenceWorld).
  - exact precedenceWorld_stockOk.
  - exact precedenceWorld_belowBound.
  - eexists. split; [|reflexivity]. apply distributeFifo_distribute.
Defined.
